(** * The ghttp client request pipeline (net/ghttp/ghttp_client_request.go)

  A shallow embedding of [DoRequest], [prepareRequest] and [callRequest]
  of the GoFrame HTTP client, followed by the properties of the request
  pipeline: parameter encoding, URL/body construction, content-type
  sniffing, the multipart upload convention, the retry loop and the
  browser-mode cookie store.

  Go strings are byte strings: they are [string] here (a list of 8-bit
  [ascii]).  Go maps are [gmap]s.  Go's [int], [int64] and
  [time.Duration] are [Z]; where the code relies on 64-bit wrap-around
  ([Time.UnixNano]) the wrap is written out. *)

From Stdlib Require Import ZArith Ascii String List Bool Lia.
From stdpp Require Import base option gmap strings list fin_maps.
From Equations Require Import Equations.

Import ListNotations.
Local Open Scope string_scope.
Local Open Scope Z_scope.

Set Default Proof Using "Type".
Set Warnings "-register-all".

(** ** Byte-string primitives of Go's [strings] package *)

Module GoStrings.

(** The byte 0x22 (a double quote) and the byte 0x0A (line feed). *)
Definition dquote : ascii := ascii_of_nat 34.
Definition LF : ascii := ascii_of_nat 10.

(** [len(s)] *)
Definition len (s : string) : Z := Z.of_nat (String.length s).

(** [strings.Contains(s, substr)]: some suffix of [s] starts with [substr]. *)
Fixpoint Contains (s substr : string) : bool :=
  String.prefix substr s
  || match s with
     | EmptyString => false
     | String _ rest => Contains rest substr
     end.

(** [strings.Split(s, sep)] for a one-byte separator: the pieces between
    the occurrences of [sep]; never the empty slice ([Split "" sep] is
    the one-element slice holding the empty string). *)
Fixpoint Split (s : string) (sep : ascii) : list string :=
  match s with
  | EmptyString => [EmptyString]
  | String a rest =>
      if Ascii.eqb a sep then EmptyString :: Split rest sep
      else match Split rest sep with
           | piece :: pieces => String a piece :: pieces
           | [] => [String a EmptyString]
           end
  end.

(** [strings.Join(pieces, sep)] for a one-byte separator. *)
Fixpoint Join (pieces : list string) (sep : ascii) : string :=
  match pieces with
  | [] => EmptyString
  | [piece] => piece
  | piece :: rest => piece ++ String sep (Join rest sep)
  end.

(** [s[lo:hi]] and [s[lo:]] for indices already known to be in range. *)
Definition slice (s : string) (lo hi : nat) : string :=
  String.substring lo (hi - lo) s.
Definition sliceFrom (s : string) (lo : nat) : string :=
  String.substring lo (String.length s - lo) s.

(** [strings.ToUpper] takes a string of ASCII bytes byte by byte, 'a'..'z'
    to 'A'..'Z'.  A string holding a byte outside ASCII (0x80 and above)
    goes through [strings.Map(unicode.ToUpper, s)] instead, which is a
    collaborator (see [ToUpper] in the pipeline). *)
Definition upperByte (a : ascii) : ascii :=
  let n := nat_of_ascii a in
  if (Nat.leb 97 n && Nat.leb n 122)%bool then ascii_of_nat (n - 32) else a.

Definition isASCII (s : string) : bool :=
  forallb (fun a => Nat.ltb (nat_of_ascii a) 128) (list_ascii_of_string s).

Fixpoint upperASCII (s : string) : string :=
  match s with
  | EmptyString => EmptyString
  | String a rest => String (upperByte a) (upperASCII rest)
  end.

(** The first byte of a non-empty string ([paramBytes[0]]). *)
Definition firstByte (s : string) : option ascii :=
  match s with
  | EmptyString => None
  | String a _ => Some a
  end.

End GoStrings.

Import GoStrings.

(** ** The sniffing pattern [^[\w\[\]]+=.+]

  [gregex.IsMatchString] compiles the pattern with Go's [regexp] and
  searches the text.  In that syntax [\w] is [0-9A-Za-z_], [.] is any
  character but line feed, and [^] anchors at the start of the text.
  The class [[\w\[\]]] does not contain '=', so a match exists exactly
  when the longest run of class bytes at the start is non-empty and is
  followed by '=' and one more byte that is not a line feed. *)

Module Sniff.

Definition isWord (a : ascii) : bool :=
  let n := nat_of_ascii a in
  (Nat.leb 48 n && Nat.leb n 57)           (* 0-9 *)
  || (Nat.leb 65 n && Nat.leb n 90)        (* A-Z *)
  || (Nat.leb 97 n && Nat.leb n 122)       (* a-z *)
  || Nat.eqb n 95.                         (* _ *)

(** A byte of the class [[\w\[\]]]. *)
Definition isClass (a : ascii) : bool :=
  isWord a || Nat.eqb (nat_of_ascii a) 91 || Nat.eqb (nat_of_ascii a) 93.

(** What follows the leading run of class bytes. *)
Fixpoint afterClass (s : string) : string :=
  match s with
  | String a rest => if isClass a then afterClass rest else s
  | EmptyString => EmptyString
  end.

(** [gregex.IsMatchString(`^[\w\[\]]+=.+`, s)] *)
Definition isFormShaped (s : string) : bool :=
  match s with
  | String a rest =>
      isClass a
      && match afterClass rest with
         | String eq (String b _) =>
             Ascii.eqb eq "="%char && negb (Ascii.eqb b LF)
         | _ => false
         end
  | EmptyString => false
  end.

(** The same pattern read as a grammar: [s = w ++ "=" ++ b ++ tail] with
    [w] a non-empty word of class bytes and [b] not a line feed. *)
Definition FormShaped (s : string) : Prop :=
  exists (w : string) (b : ascii) (tail : string),
    s = (w ++ String "="%char (String b tail))%string
    /\ w <> EmptyString
    /\ (forall a, In a (list_ascii_of_string w) -> isClass a = true)
    /\ b <> LF.

End Sniff.

(** ** Data model *)

(** A Go [error] value, identified by its message. *)
Inductive error : Type := errors_New (msg : string).

#[global] Instance error_eq_dec : EqDecision error.
Proof. solve_decision. Defined.

(** The dynamic values a caller hands to the verb methods
    ([data ...interface{}]).  The pipeline only distinguishes [string] and
    [[]byte] from everything else. *)
Inductive Value : Type :=
| VNil
| VBool (b : bool)
| VInt (n : Z)
| VString (s : string)
| VBytes (b : string)
| VSlice (items : list Value)
| VMap (entries : list (string * Value)).

(** [context.Context], as far as the pipeline builds it. *)
Inductive Context : Type :=
| Background
| UserContext (id : nat)
| WithSpan (parent : Context) (spanName : string)
| WithMiddleware (parent : Context).

(** ** [time.Time]

    An instant is its number of nanoseconds since the Unix epoch, as an
    unbounded integer.  [UnixNano] computes [sec*1e9 + nsec] in [int64], so
    it is that number wrapped to 64 bits (exact only between the years
    1678 and 2262).  The zero [Time] is January 1 of year 1, which is
    62135596800 seconds before the epoch. *)

Module Time.

Definition t : Type := Z.

Definition wrap64 (z : Z) : Z := (z + 2 ^ 63) mod 2 ^ 64 - 2 ^ 63.

Definition zero : t := -62135596800 * 1000000000.

Definition IsZero (x : t) : bool := x =? zero.

Definition UnixNano (x : t) : Z := wrap64 x.

(** [x.Before(y)], the order of instants. *)
Definition Before (x y : t) : bool := x <? y.

(** Instants whose nanosecond count fits [int64]. *)
Definition inInt64 (x : t) : Prop := - 2 ^ 63 <= x < 2 ^ 63.

(** [time.Sleep(d)] returns at once when [d] is not positive. *)
Definition after (x : t) (d : Z) : t := x + Z.max d 0.

End Time.

(** [http.Cookie]: the fields the cookie store reads. *)
Record Cookie : Type := mkCookie {
  Name : string;
  CookieValue : string;
  Expires : Time.t
}.

(** A multipart message under construction: what [multipart.Writer] has
    been asked to write, in order. *)
Inductive Part : Type :=
| FormFile (fieldname filename content : string)
| FormField (fieldname value : string).

(** A request body: raw bytes, or the multipart message a
    [multipart.Writer] with the given boundary rendered from [parts]. *)
Inductive Body : Type :=
| RawBody (bytes : string)
| MultipartBody (boundary : string) (parts : list Part).

(** Modelled from the spec: [utils.ReadCloser] is declared in another
    package of the repository ([internal/utils]).  The spec has the
    request given a non-closing reader over the buffered body bytes,
    placed at their start.  [rc_repeatable] is the second argument of
    [utils.NewReadCloser]: a repeatable reader starts over once it has
    been read to the end; one that is not keeps its place, so the bytes
    one reading has taken are not there for the next. *)
Record ReadCloser : Type := mkReadCloser {
  rc_content : string;
  rc_index : nat;
  rc_repeatable : bool
}.

Definition NewReadCloser (content : string) (repeatable : bool) : ReadCloser :=
  mkReadCloser content 0 repeatable.

(** The bytes a reader still yields: [content[index:]]. *)
Definition unread (r : ReadCloser) : string :=
  sliceFrom (rc_content r) (rc_index r).

(** The reader after [n] bytes were asked of it, in any number of [Read]
    calls: it yields what it has left, at most [n] bytes. *)
Definition readBytes (r : ReadCloser) (n : nat) : ReadCloser :=
  let i := Nat.min (rc_index r + n) (String.length (rc_content r)) in
  mkReadCloser (rc_content r)
    (if rc_repeatable r && Nat.leb (String.length (rc_content r)) i then 0%nat else i)
    (rc_repeatable r).

(** [http.Request].  [URL] is the string handed to [http.NewRequest];
    [Header] is keyed by canonical header name and holds the one value
    [Header.Set] leaves.  [ReqBody] is the body the request was made
    with; how much of it has been read is the state of its reader. *)
Record Request : Type := mkRequest {
  Method : string;
  URL : string;
  ReqBody : Body;
  Header : gmap string string;
  Host : string;
  ReqContext : Context
}.

(** [http.Response]: [Cookies] is what [Response.Cookies()] parses from
    the [Set-Cookie] headers. *)
Record Response : Type := mkResponse {
  StatusCode : Z;
  Cookies : list Cookie;
  RespBody : string
}.

(** Modelled from the spec: the struct [ClientResponse] is declared in
    another file of the package.  It wraps the raw transport response and
    a captured copy of the request body; this file shows the embedded
    response to be a pointer that may be nil. *)
Record ClientResponse : Type := mkClientResponse {
  Response_ : option Response;
  request : Request;
  requestBody : Body
}.

(** Modelled from the spec: the struct [Client] is declared in another
    file of the package.  These are the fields this file reads and writes
    (default headers, cookie store, URL prefix, credentials, agent,
    context, browser mode, retry count and interval).  The middleware
    handlers are closures over the running program and are kept beside
    the client (see [ClientHandlerFunc]). *)
Record Client : Type := mkClient {
  header : gmap string string;
  cookies : gmap string string;
  prefix : string;
  authUser : string;
  authPass : string;
  agent : string;
  ctx : option Context;
  browserMode : bool;
  retryCount : Z;
  retryInterval : Z
}.

(** What one [http.Client.Do] gives back: a response (possibly together
    with an error), an error, the time the exchange took, and the number
    of bytes it asked of the request's body reader. *)
Record DoResult : Type := mkDoResult {
  do_resp : option Response;
  do_err : option error;
  do_elapsed : Z;
  do_read : nat
}.

(** ** External collaborators

    Everything the pipeline calls but does not define: marshalers, the
    form encoder, the filesystem, [net/http] and the transport.  The
    transport is an oracle: [http_Do i req] is the outcome of the [i]-th
    send of the program run (counting from 0), which is a send of the
    request [req]; what the send finds unread of the body is settled by
    the sends before it. *)
Record Env : Type := mkEnv {
  (* strings.Map(unicode.ToUpper, s): the upper-casing of a string that is
     not all ASCII *)
  unicode_ToUpper : string -> string;
  (* internal/json.Marshal and gparser.VarToXml *)
  json_Marshal : Value -> error + string;
  gparser_VarToXml : Value -> error + string;
  (* ghttp.BuildParams: the form encoder *)
  BuildParams : Value -> string;
  (* internal/json.Valid *)
  json_Valid : string -> bool;
  (* gstr.Trim *)
  gstr_Trim : string -> string;
  (* gfile.Exists and gfile.Basename *)
  gfile_Exists : string -> bool;
  gfile_Basename : string -> string;
  (* os.Open gives a handle; io.Copy gives the bytes it copied from the
     handle into the part; Close may fail *)
  os_Open : string -> error + string;
  io_Copy : string -> error + string;
  file_Close : string -> option error;
  (* the error results of multipart.Writer, and the boundary it chose *)
  multipart_CreateFormFile : string -> string -> option error;
  multipart_WriteField : string -> string -> option error;
  multipart_Close : list Part -> option error;
  multipart_Boundary : string;
  (* the bytes the writer has rendered into the buffer for these parts *)
  multipart_Bytes : string -> list Part -> string;
  (* http.NewRequest: rejects the method or URL, or gives the URL's host *)
  http_NewRequest : string -> string -> error + string;
  (* textproto.CanonicalMIMEHeaderKey, applied by Header.Set and Header.Get *)
  CanonicalMIMEHeaderKey : string -> string;
  (* the base64 credentials of Request.SetBasicAuth *)
  basicAuth : string -> string -> string;
  (* http.Client.Do, by send number *)
  http_Do : nat -> Request -> DoResult;
  (* Response.Body.Close *)
  body_Close : Response -> option error
}.

(** ** Program state and the execution monad *)

(** What the outside world can observe of a run.  A send is recorded
    with the request and the state in which its body reader is handed to
    the transport. *)
Inductive Event : Type :=
| EvSend (req : Request) (body : ReadCloser)
| EvCloseBody (resp : Response)
| EvSleep (d : Z)
| EvLog (e : error).

(** The client object (shared, mutated in place through the receiver
    pointer), the number of sends so far, the clock and the observable
    trace (latest event last). *)
Record State : Type := mkState {
  client : Client;
  sent : nat;
  now : Time.t;
  trace : list Event
}.

Inductive PanicKind : Type :=
| IndexOutOfRange
| NilDereference.

(** A computation either returns a value or panics; both leave a state. *)
Inductive Res (A : Type) : Type :=
| Ret (a : A) (st : State)
| Panic (p : PanicKind) (st : State).
Arguments Ret {A} a st.
Arguments Panic {A} p st.

Definition M (A : Type) : Type := State -> Res A.

Definition ret {A} (a : A) : M A := fun st => Ret a st.

Definition bind {A B} (m : M A) (k : A -> M B) : M B :=
  fun st =>
    match m st with
    | Ret a st' => k a st'
    | Panic p st' => Panic p st'
    end.

Definition panic {A} (p : PanicKind) : M A := fun st => Panic p st.

Definition get : M State := fun st => Ret st st.

Definition modify (f : State -> State) : M unit := fun st => Ret tt (f st).

Declare Scope go_scope.
Delimit Scope go_scope with go.
Notation "x <- m ;; k" := (bind m (fun x => k))
  (at level 100, m at next level, right associativity) : go_scope.
Notation "m ;;; k" := (bind m (fun _ => k))
  (at level 100, right associativity) : go_scope.
Local Open Scope go_scope.

(** What a Go function returning a pointer and an [error] gives back. *)
Definition Result (T : Type) : Type := (option T * option error)%type.

(** The final state of a run, returned or panicked. *)
Definition finalState {A} (r : Res A) : State :=
  match r with
  | Ret _ st => st
  | Panic _ st => st
  end.

(** State updates. *)
Definition emit (e : Event) : M unit :=
  modify (fun st => mkState (client st) (sent st) (now st) (trace st ++ [e])).

Definition setClient (f : Client -> Client) : M unit :=
  modify (fun st => mkState (f (client st)) (sent st) (now st) (trace st)).

Definition getClient : M Client := fun st => Ret (client st) st.

(** [intlog.Errorf] *)
Definition intlog_Errorf (e : error) : M unit := emit (EvLog e).

(** [a[i]]: indexing a slice panics out of range. *)
Definition index {A} (a : list A) (i : nat) : M A :=
  match a !! i with
  | Some x => ret x
  | None => panic IndexOutOfRange
  end.

(** The sends recorded in a trace. *)
Definition isSend (e : Event) : bool :=
  match e with EvSend _ _ => true | _ => false end.

Definition isSleep (e : Event) : bool :=
  match e with EvSleep _ => true | _ => false end.

Definition sends (tr : list Event) : nat := length (List.filter isSend tr).
Definition sleeps (tr : list Event) : list Event := List.filter isSleep tr.

(** The sends and sleeps of a trace, in order: which request was sent
    and how long was slept (closes, log lines and the state of the body
    reader left out). *)
Inductive Step : Type :=
| Send (req : Request)
| Sleep (d : Z).

Definition stepOf (e : Event) : list Step :=
  match e with
  | EvSend req _ => [Send req]
  | EvSleep d => [Sleep d]
  | _ => []
  end.

Definition schedule (tr : list Event) : list Step := flat_map stepOf tr.

(** The body readers the sends of a trace were handed, in order. *)
Definition readers (tr : list Event) : list ReadCloser :=
  flat_map (fun e => match e with EvSend _ body => [body] | _ => [] end) tr.

(** Field updates. *)
Definition withHeader (r : Request) (h : gmap string string) : Request :=
  mkRequest (Method r) (URL r) (ReqBody r) h (Host r) (ReqContext r).
Definition withHost (r : Request) (h : string) : Request :=
  mkRequest (Method r) (URL r) (ReqBody r) (Header r) h (ReqContext r).
Definition WithContext (r : Request) (c : Context) : Request :=
  mkRequest (Method r) (URL r) (ReqBody r) (Header r) (Host r) c.
Definition withResponse (cr : ClientResponse) (r : option Response) : ClientResponse :=
  mkClientResponse r (request cr) (requestBody cr).
Definition withRetryCount (c : Client) (n : Z) : Client :=
  mkClient (header c) (cookies c) (prefix c) (authUser c) (authPass c)
           (agent c) (ctx c) (browserMode c) n (retryInterval c).
Definition withCookies (c : Client) (m : gmap string string) : Client :=
  mkClient (header c) m (prefix c) (authUser c) (authPass c)
           (agent c) (ctx c) (browserMode c) (retryCount c) (retryInterval c).

(** ** The pipeline *)

Section Pipeline.

Context (E : Env).

(** [strings.ToUpper(s)] *)
Definition ToUpper (s : string) : string :=
  if isASCII s then upperASCII s else unicode_ToUpper E s.

(** [req.Header.Set(k, v)] and [req.Header.Get(k)]: keys are canonicalised;
    a missing key reads as the empty string. *)
Definition Header_Set (r : Request) (k v : string) : Request :=
  withHeader r (<[CanonicalMIMEHeaderKey E k := v]> (Header r)).

Definition Header_Get (r : Request) (k : string) : string :=
  default "" (Header r !! CanonicalMIMEHeaderKey E k).

(** *** prepareRequest, lines 155-183: the parameter string

    [c.header["Content-Type"]] reads a missing key as the empty string;
    [gconv.String] of a [string] or [[]byte] is that byte string, and
    [gconv.UnsafeBytesToStr] is the identity on bytes. *)
Definition encodeParams (c : Client) (data : list Value) : error + string :=
  match data with
  | [] => inr ""
  | d :: _ =>
      let contentType := default "" (header c !! "Content-Type") in
      if String.eqb contentType "application/json" then
        match d with
        | VString s => inr s
        | VBytes b => inr b
        | _ => match json_Marshal E d with
               | inl err => inl err
               | inr b => inr b
               end
        end
      else if String.eqb contentType "application/xml" then
        match d with
        | VString s => inr s
        | VBytes b => inr b
        | _ => match gparser_VarToXml E d with
               | inl err => inl err
               | inr b => inr b
               end
        end
      else inr (BuildParams E d)
  end.

(** *** prepareRequest, lines 201-230: the multipart loop

    One iteration per ['&']-delimited item; [inl err] is the early
    [return nil, err].  [array[1]] is read before anything else. *)
Definition logClose (f : string) : M unit :=
  match file_Close E f with
  | Some err => intlog_Errorf err
  | None => ret tt
  end.

Definition isFileRef (v : string) : bool :=
  (6 <? len v) && String.eqb (slice v 0 6) "@file:".

Definition notExist (path : string) : error :=
  errors_New (String dquote path ++ String dquote " does not exist").

Fixpoint writeItems (items : list string) (w : list Part) : M (error + list Part) :=
  match items with
  | [] => ret (inr w)
  | item :: rest =>
      let array := Split item "="%char in
      a1 <- index array 1 ;;
      a0 <- index array 0 ;;
      if isFileRef a1 then
        let path := sliceFrom a1 6 in
        if negb (gfile_Exists E path) then ret (inl (notExist path))
        else
          match multipart_CreateFormFile E a0 (gfile_Basename E path) with
          | None =>
              match os_Open E path with
              | inr f =>
                  match io_Copy E f with
                  | inl err => logClose f ;;; ret (inl err)
                  | inr content =>
                      logClose f ;;;
                      writeItems rest (w ++ [FormFile a0 (gfile_Basename E path) content])
                  end
              | inl err => ret (inl err)
              end
          | Some err => ret (inl err)
          end
      else
        match multipart_WriteField E a0 a1 with
        | Some err => ret (inl err)
        | None => writeItems rest (w ++ [FormField a0 a1])
        end
  end.

(** [writer.FormDataContentType()] *)
Definition FormDataContentType : string :=
  "multipart/form-data; boundary=" ++ multipart_Boundary E.

(** [http.NewRequest(method, url, body)]: the empty method stands for
    GET; validation is the collaborator's; a fresh request has no header
    and the background context. *)
Definition methodOrGET (method : string) : string :=
  if String.eqb method "" then "GET" else method.

Definition NewRequest (method url : string) (body : Body) : error + Request :=
  let method := methodOrGET method in
  match http_NewRequest E method url with
  | inl err => inl err
  | inr host => inr (mkRequest method url body ∅ host Background)
  end.

(** Lines 186-192: the URL of a GET request. *)
Definition getURL (url param : string) : string :=
  if negb (String.eqb param "") then
    if Contains url "?" then url ++ "&" ++ param else url ++ "?" ++ param
  else url.

(** Lines 248-259: the Content-Type of a normal (raw payload) request. *)
Definition isOpenBracket (a : ascii) : bool :=
  Ascii.eqb a "["%char || Ascii.eqb a "{"%char.

Definition sniffContentType (c : Client) (param : string) : option string :=
  match header c !! "Content-Type" with
  | Some v => Some v
  | None =>
      if 0 <? len param then
        if match firstByte param with
           | Some a => isOpenBracket a
           | None => false
           end && json_Valid E param
        then Some "application/json"
        else if Sniff.isFormShaped param
             then Some "application/x-www-form-urlencoded"
             else None
      else None
  end.

(** *** prepareRequest, lines 184-262: method, URL, body, Content-Type *)
Definition buildRequest (c : Client) (method url param : string)
  : M (Result Request) :=
  if String.eqb method "GET" then
    match NewRequest method (getURL url param) (RawBody "") with
    | inl err => ret (None, Some err)
    | inr req => ret (Some req, None)
    end
  else if Contains param "@file:" then
    r <- writeItems (Split param "&"%char) [] ;;
    match r with
    | inl err => ret (None, Some err)
    | inr parts =>
        match multipart_Close E parts with
        | Some err => ret (None, Some err)
        | None =>
            match NewRequest method url
                    (MultipartBody (multipart_Boundary E) parts) with
            | inl err => ret (None, Some err)
            | inr req =>
                ret (Some (Header_Set req "Content-Type" FormDataContentType), None)
            end
        end
    end
  else
    match NewRequest method url (RawBody param) with
    | inl err => ret (None, Some err)
    | inr req =>
        match sniffContentType c param with
        | Some v => ret (Some (Header_Set req "Content-Type" v), None)
        | None => ret (Some req, None)
        end
    end.

(** *** prepareRequest, lines 264-302: context, headers, host, cookies,
    credentials, agent.  Go ranges over a map in no fixed order; the
    order of [map_to_list] stands for the one a run takes. *)
Definition cookieHeader (m : gmap string string) : string :=
  fold_left
    (fun acc kv =>
       (if 0 <? len acc then acc ++ ";" else acc) ++ fst kv ++ "=" ++ snd kv)
    (map_to_list m) "".

Definition finishRequest (c : Client) (req : Request) : Request :=
  let req := WithContext req (match ctx c with
                              | Some x => x
                              | None => Background
                              end) in
  let req := if (0 <? Z.of_nat (size (header c)))
             then fold_left (fun r kv => Header_Set r (fst kv) (snd kv))
                            (map_to_list (header c)) req
             else req in
  let host := Header_Get req "Host" in
  let req := if negb (String.eqb host "") && String.eqb (Host req) ""
             then withHost req host else req in
  let req := if (0 <? Z.of_nat (size (cookies c)))
             then let headerCookie := cookieHeader (cookies c) in
                  if 0 <? len headerCookie
                  then Header_Set req "Cookie" headerCookie else req
             else req in
  let req := if 0 <? len (authUser c)
             then Header_Set req "Authorization"
                    ("Basic " ++ basicAuth E (authUser c) (authPass c))
             else req in
  if negb (String.eqb (agent c) "")
  then Header_Set req "User-Agent" (agent c) else req.

(** *** prepareRequest *)
Definition targetURL (c : Client) (url : string) : string :=
  if 0 <? len (prefix c) then prefix c ++ gstr_Trim E url else url.

Definition prepareRequest (method url : string) (data : list Value)
  : M (Result Request) :=
  c <- getClient ;;
  let method := ToUpper method in
  let url := targetURL c url in
  match encodeParams c data with
  | inl err => ret (None, Some err)
  | inr param =>
      r <- buildRequest c method url param ;;
      match r with
      | (Some req, _) => ret (Some (finishRequest c req), None)
      | (None, err) => ret (None, err)
      end
  end.

(** *** callRequest, lines 316-334: the retry loop

    One send: the transport is asked, the send is recorded, and a response
    that came with an error has its body closed (a failed close is only
    logged).  The client is not touched. *)
Definition closeEvents (r : DoResult) : list Event :=
  match do_err r, do_resp r with
  | Some _, Some resp =>
      EvCloseBody resp
      :: match body_Close E resp with
         | Some err => [EvLog err]
         | None => []
         end
  | _, _ => []
  end.

Definition afterSend (req : Request) (body : ReadCloser) (st : State) : State :=
  let r := http_Do E (sent st) req in
  mkState (client st) (S (sent st)) (Time.after (now st) (do_elapsed r))
          (trace st ++ EvSend req body :: closeEvents r).

(** [c.retryCount--; time.Sleep(c.retryInterval)]: the decrement is
    taken only from a positive count, so it does not wrap. *)
Definition retrying (st : State) : State :=
  let c := client st in
  mkState (withRetryCount c (retryCount c - 1)) (sent st)
          (Time.after (now st) (retryInterval c))
          (trace st ++ [EvSleep (retryInterval c)]).

(** The [for] loop.  Every further iteration has decremented
    [c.retryCount] while it was positive, which is why the loop ends.
    Each [c.Do(req)] is handed the same request, whose body reader [body]
    is left where the send before stopped reading. *)
Equations? callLoop (req : Request) (body : ReadCloser) (resp : ClientResponse)
  (st : State) : Res (Result ClientResponse)
  by wf (Z.to_nat (retryCount (client st))) lt :=
callLoop req body resp st with do_err (http_Do E (sent st) req) => {
  | None :=
      Ret (Some (withResponse resp (do_resp (http_Do E (sent st) req))), None)
          (afterSend req body st);
  | Some err with Z_lt_dec 0 (retryCount (client (afterSend req body st))) => {
      | left _ :=
          callLoop req (readBytes body (do_read (http_Do E (sent st) req)))
                   (withResponse resp (do_resp (http_Do E (sent st) req)))
                   (retrying (afterSend req body st));
      | right _ :=
          Ret (Some (withResponse resp (do_resp (http_Do E (sent st) req))),
               Some err)
              (afterSend req body st) } }.
Proof. simpl in *. lia. Qed.

(** The bytes of a body, as [ioutil.ReadAll] reads them from a request
    that [prepareRequest] built. *)
Definition bodyBytes (b : Body) : string :=
  match b with
  | RawBody bytes => bytes
  | MultipartBody boundary parts => multipart_Bytes E boundary parts
  end.

(** *** callRequest

    Lines 313-315: the body of the request is read to its end and kept in
    the wrapper, and the request gets a reader over the same bytes made
    with [repeatable = false]. *)
Definition callRequest (req : Request) : M (Result ClientResponse) :=
  fun st =>
    let reqBodyContent := bodyBytes (ReqBody req) in
    callLoop req (NewReadCloser reqBodyContent false)
             (mkClientResponse None req (ReqBody req)) st.

(** *** Middleware *)

(** Modelled from the spec: the handler type is declared in another file
    of the package.  A handler gets the request and may continue the
    chain; "continue" is its first argument here. *)
Definition ClientHandlerFunc : Type :=
  (Request -> M (Result ClientResponse)) -> Request -> M (Result ClientResponse).

(** Modelled from the spec: [MiddlewareNext] lives in another file of the
    package.  The first continue invokes element 0, the continue of
    element [i] invokes element [i+1], and the network call stands last. *)
Fixpoint MiddlewareNext (handlers : list ClientHandlerFunc)
  (terminal : Request -> M (Result ClientResponse))
  : Request -> M (Result ClientResponse) :=
  match handlers with
  | [] => terminal
  | h :: rest => h (MiddlewareNext rest terminal)
  end.

(** *** DoRequest, lines 135-145: cookie reconciliation *)
Definition expired (now : Time.t) (v : Cookie) : bool :=
  negb (Time.IsZero (Expires v))
  && (Time.UnixNano (Expires v) <? Time.UnixNano now).

Definition syncCookie (now : Time.t) (store : gmap string string) (v : Cookie)
  : gmap string string :=
  if expired now v then delete (Name v) store
  else <[Name v := CookieValue v]> store.

Definition syncCookies (now : Time.t) (store : gmap string string)
  (vs : list Cookie) : gmap string string :=
  fold_left (syncCookie now) vs store.

Definition saveCookies (resp : option ClientResponse) : M unit :=
  st <- get ;;
  if browserMode (client st) then
    match resp with
    | Some cr =>
        let now := now st in
        match Response_ cr with
        | Some r =>
            setClient (fun c => withCookies c (syncCookies now (cookies c) (Cookies r)))
        | None => panic NilDereference
        end
    | None => ret tt
    end
  else ret tt.

(** *** DoRequest, lines 104-133: tracing and dispatch

    The tracing span only wraps the request context; its attributes and
    its end are not part of the model. *)
Definition traced (req : Request) : Request :=
  WithContext req (WithSpan (ReqContext req) (URL req)).

Definition dispatch (middlewareHandler : list ClientHandlerFunc)
  (req : Request) : M (Result ClientResponse) :=
  if 0 <? Z.of_nat (length middlewareHandler)
  then MiddlewareNext middlewareHandler callRequest
         (WithContext req (WithMiddleware (ReqContext req)))
  else callRequest req.

(** *** DoRequest

    A nil request with a nil error cannot come out of [prepareRequest];
    reading its context would be a nil dereference. *)
Definition DoRequest (middlewareHandler : list ClientHandlerFunc)
  (method url : string) (data : list Value) : M (Result ClientResponse) :=
  r <- prepareRequest method url data ;;
  match r with
  | (_, Some err) => ret (None, Some err)
  | (None, None) => panic NilDereference
  | (Some req, None) =>
      r <- dispatch middlewareHandler (traced req) ;;
      saveCookies (fst r) ;;;
      ret r
  end.

End Pipeline.

(** ** A concrete world

    A small filesystem, the marshalers on a few values, and
    [textproto.CanonicalMIMEHeaderKey] on header names; the transport is
    left open.  Used to run the pipeline on concrete calls. *)

Module Scenario.

(** The body [{"a":1}]. *)
Definition jsonA1 : string :=
  String "{"%char (String dquote ("a" ++ String dquote ":1}")).

Definition marshalJSON (v : Value) : error + string :=
  match v with
  | VNil => inr "null"
  | VBool true => inr "true"
  | VBool false => inr "false"
  | VMap [] => inr "{}"
  | VSlice [] => inr "[]"
  | _ => inl (errors_New "json: unsupported value")
  end.

Definition marshalXML (v : Value) : error + string :=
  match v with
  | VMap [] => inr "<doc></doc>"
  | _ => inl (errors_New "xml: unsupported value")
  end.

(** [BuildParams] returns a [string] or [[]byte] as it is. *)
Definition buildParams (v : Value) : string :=
  match v with
  | VString s => s
  | VBytes b => b
  | _ => ""
  end.

Definition validJSON (s : string) : bool :=
  String.eqb s jsonA1 || String.eqb s "{}" || String.eqb s "[]".

(** [/etc/hosts] is a readable file, [/tmp] a directory (it opens, reading
    it fails); nothing else exists. *)
Definition exists_ (path : string) : bool :=
  String.eqb path "/etc/hosts" || String.eqb path "/tmp".

Definition open (path : string) : error + string :=
  if exists_ path then inr path
  else inl (errors_New ("open " ++ path ++ ": no such file or directory")).

Definition copy (f : string) : error + string :=
  if String.eqb f "/etc/hosts" then inr "127.0.0.1 localhost"
  else inl (errors_New ("read " ++ f ++ ": is a directory")).

Definition basename (path : string) : string :=
  List.last (Split path "/"%char) "".

(** Header names: a name of token bytes gets an upper-case letter first
    and after each '-', lower-case letters elsewhere. *)
Definition isTokenByte (a : ascii) : bool :=
  Sniff.isWord a
  || existsb (Ascii.eqb a) (list_ascii_of_string "!#$%&'*+-.^`|~").

Definition lowerByte (a : ascii) : ascii :=
  let n := nat_of_ascii a in
  if (Nat.leb 65 n && Nat.leb n 90)%bool then ascii_of_nat (n + 32) else a.

Fixpoint capitalise (upper : bool) (s : string) : string :=
  match s with
  | EmptyString => EmptyString
  | String a rest =>
      String (if upper then upperByte a else lowerByte a)
             (capitalise (Ascii.eqb a "-"%char) rest)
  end.

Definition canonical (s : string) : string :=
  if forallb isTokenByte (list_ascii_of_string s) then capitalise true s else s.

(** A multipart message is rendered one part per line. *)
Definition render (p : Part) : string :=
  match p with
  | FormFile fieldname filename content => fieldname ++ "=@" ++ filename ++ ":" ++ content
  | FormField fieldname value => fieldname ++ "=" ++ value
  end.

(** The world around a given transport.  No call below has a method or a
    URL to upper-case beyond ASCII or to trim, every request is accepted
    for the host [example.org], and no call carries credentials (they
    are left unencoded). *)
Definition env (transport : nat -> Request -> DoResult) : Env :=
  mkEnv (fun s => s)
        marshalJSON marshalXML buildParams validJSON
        (fun s => s) exists_ basename open copy (fun _ => None)
        (fun _ _ => None) (fun _ _ => None) (fun _ => None)
        "b0undary"
        (fun _ parts => Join (List.map render parts) LF)
        (fun _ _ => inr "example.org")
        canonical
        (fun user pass => user ++ ":" ++ pass)
        transport
        (fun _ => None).

(** Transports. *)
Definition refusing : nat -> Request -> DoResult :=
  fun i _ =>
    mkDoResult None
      (Some (errors_New (nth i ["connection refused"; "connection reset";
                                "i/o timeout"] "no route to host")))
      1000 0.

(** A transport whose first send is refused and whose later sends are
    answered. *)
Definition flaky : nat -> Request -> DoResult :=
  fun i _ =>
    match i with
    | O => mkDoResult None (Some (errors_New "connection refused")) 1000 0
    | S _ => mkDoResult (Some (mkResponse 200 [] "ok")) None 1000 1000
    end.

(** A transport that writes the whole request and then loses the
    connection, on every send. *)
Definition dropping : nat -> Request -> DoResult :=
  fun _ _ => mkDoResult None (Some (errors_New "connection reset")) 1000 1000.

(** A server that sets one cookie on every response. *)
Definition serving (v : Cookie) : nat -> Request -> DoResult :=
  fun _ _ => mkDoResult (Some (mkResponse 200 [v] "ok")) None 1000 1000.

Definition client0 : Client :=
  mkClient ∅ ∅ "" "" "" "" None false 0 0.

(** A client whose Content-Type is configured under a lower-case name. *)
Definition plainClient : Client :=
  mkClient {[ "content-type" := "text/plain" ]} ∅ "" "" "" "" None false 0 0.

Definition jsonClient : Client :=
  mkClient {[ "Content-Type" := "application/json" ]} ∅ "" "" "" "" None false 0 0.

Definition retryClient (n : Z) : Client :=
  mkClient ∅ ∅ "" "" "" "" None false n 500.

Definition browser (store : gmap string string) : Client :=
  mkClient ∅ store "" "" "" "" None true 0 0.

(** A client with an agent and credentials of its own, and a User-Agent
    among its headers. *)
Definition agentClient : Client :=
  mkClient {[ "User-Agent" := "curl" ]} ∅ "" "gopher" "secret" "gf-client"
           None false 0 0.

(** 2026-10-30 00:00:00 UTC, in nanoseconds since the epoch. *)
Definition today : Time.t := 1793318400 * 1000000000.

(** 9999-12-31 23:59:59 UTC, the latest expiry a cookie header can carry. *)
Definition endOfTime : Time.t := 253402300799 * 1000000000.

Definition start (c : Client) : State := mkState c 0 today [].

Definition site : string := "http://example.org/api".

(** The request of a GET of [site] without parameters, as [DoRequest]
    hands it on. *)
Definition getSite : Request :=
  mkRequest "GET" site (RawBody "") ∅ "example.org" (WithSpan Background site).

(** The request of a POST of the form body [a=1] to [site]. *)
Definition formPost : Request :=
  mkRequest "POST" site (RawBody "a=1")
    {[ "Content-Type" := "application/x-www-form-urlencoded" ]}
    "example.org" Background.

(** The two-line body [a=] / [b]: an '=' followed by a line feed. *)
Definition twoLines : string := "a=" ++ String LF "b".

End Scenario.

(** ** Vocabulary of the properties *)

(** A [string] or [[]byte] value: the first case of the type switches at
    lines 159-161 and 170-172. *)
Definition bytesOf (d : Value) : option string :=
  match d with
  | VString s => Some s
  | VBytes b => Some b
  | _ => None
  end.

(** The marshaler the configured Content-Type selects. *)
Definition marshalerFor (E : Env) (contentType : string) : Value -> error + string :=
  if String.eqb contentType "application/json" then json_Marshal E
  else gparser_VarToXml E.

(** A body that is not empty, begins with '[' or '{' and is valid JSON
    (line 252, under the guard of line 251). *)
Definition jsonLike (E : Env) (param : string) : bool :=
  (0 <? len param)
  && match firstByte param with
     | Some a => isOpenBracket a
     | None => false
     end
  && json_Valid E param.

(** The sniffing pattern as the specification words it: one or more
    word/bracket characters, then '=', then a remainder that is not
    empty (any byte may start it). *)
Definition wordedFormShaped (s : string) : bool :=
  match s with
  | String a rest =>
      Sniff.isClass a
      && match Sniff.afterClass rest with
         | String eq (String _ _) => Ascii.eqb eq "="%char
         | _ => false
         end
  | EmptyString => false
  end.

(** The Content-Type a request carries, if any. *)
Definition contentTypeOf (E : Env) (req : Request) : option string :=
  Header req !! CanonicalMIMEHeaderKey E "Content-Type".

(** States that differ only by log lines appended to the trace. *)
Definition logsOnly (st st' : State) : Prop :=
  client st' = client st /\ sent st' = sent st /\ now st' = now st
  /\ exists logs, trace st' = (trace st ++ logs)%list
                  /\ Forall (fun e => exists err, e = EvLog err) logs.

(** The body of the request a run of [prepareRequest] returned, if it
    returned one. *)
Definition builtBody (r : Res (Result Request)) : option Body :=
  match r with
  | Ret (Some req, _) _ => Some (ReqBody req)
  | _ => None
  end.

Definition isMultipart (b : Body) : bool :=
  match b with
  | MultipartBody _ _ => true
  | RawBody _ => false
  end.

(** What one send leaves in the trace. *)
Definition attemptEvents (E : Env) (req : Request) (body : ReadCloser) (i : nat)
  : list Event :=
  EvSend req body :: closeEvents E (http_Do E i req).

(** The trace of [k+1] failed sends, the first being send number [i] of
    the run and finding the body reader as [body], with a sleep of [d]
    after each but the last. *)
Fixpoint failedRun (E : Env) (req : Request) (d : Z) (k i : nat)
  (body : ReadCloser) : list Event :=
  match k with
  | O => attemptEvents E req body i
  | S k' =>
      (attemptEvents E req body i
       ++ EvSleep d
          :: failedRun E req d k' (S i) (readBytes body (do_read (http_Do E i req))))%list
  end.

(** [k] times "send, sleep", then one last send. *)
Definition retryPattern (req : Request) (d : Z) (k : nat) : list Step :=
  (concat (repeat [Send req; Sleep d] k) ++ [Send req])%list.

(** The body reader that send [j] of a call is handed, when the call
    starts with send number [i] of the run and the reader [body]. *)
Fixpoint readerAt (E : Env) (req : Request) (body : ReadCloser) (i j : nat)
  : ReadCloser :=
  match j with
  | O => body
  | S j' => readerAt E req (readBytes body (do_read (http_Do E i req))) (S i) j'
  end.

(** The reader that line 315 gives the request: over the bytes of its
    body, at their start, not repeatable. *)
Definition bodyReader (E : Env) (req : Request) : ReadCloser :=
  NewReadCloser (bodyBytes E (ReqBody req)) false.

(** A reader in the state the loop keeps it in: not repeatable, its
    place within the bytes. *)
Definition oneShot (r : ReadCloser) : Prop :=
  rc_repeatable r = false /\ (rc_index r <= String.length (rc_content r))%nat.

(** The transport fails every send from number [from] on. *)
Definition alwaysFails (E : Env) (req : Request) (from : nat) : Prop :=
  forall i, (from <= i)%nat -> do_err (http_Do E i req) <> None.

(** The retries recorded in a trace: one sleep each. *)
Definition retries (tr : list Event) : nat := length (sleeps tr).

(** The state after the cookie store was replaced. *)
Definition withStore (st : State) (store : gmap string string) : State :=
  mkState (withCookies (client st) store) (sent st) (now st) (trace st).

(** A cookie that is expired at [now] in the order of instants: its
    expiry is set and strictly earlier. *)
Definition pastExpiry (now : Time.t) (v : Cookie) : bool :=
  negb (Time.IsZero (Expires v)) && Time.Before (Expires v) now.

(** A cookie without expiry, or with one whose nanosecond count fits
    [int64] (years 1678 to 2262). *)
Definition plainExpiry (v : Cookie) : Prop :=
  Time.IsZero (Expires v) = true \/ Time.inInt64 (Expires v).

(** Reconciliation by the order of instants: delete what is past its
    expiry, store the rest. *)
Definition reconcile (now : Time.t) (store : gmap string string) (v : Cookie)
  : gmap string string :=
  if pastExpiry now v then delete (Name v) store
  else <[Name v := CookieValue v]> store.

(** The client's headers, and the headers the last stage of
    [prepareRequest] sets on its own, do not collide with Content-Type
    under canonicalisation: no key other than ["Content-Type"] itself
    canonicalises to its canonical form. *)
Definition contentTypeUnshadowed (E : Env) (c : Client) : Prop :=
  (forall k, is_Some (header c !! k) ->
             CanonicalMIMEHeaderKey E k = CanonicalMIMEHeaderKey E "Content-Type" ->
             k = "Content-Type")
  /\ CanonicalMIMEHeaderKey E "Cookie" <> CanonicalMIMEHeaderKey E "Content-Type"
  /\ CanonicalMIMEHeaderKey E "Authorization"
     <> CanonicalMIMEHeaderKey E "Content-Type"
  /\ CanonicalMIMEHeaderKey E "User-Agent"
     <> CanonicalMIMEHeaderKey E "Content-Type".

(** A header name that is Content-Type when header names are compared
    as [Header.Set] compares them, in canonical form. *)
Definition namesContentType (E : Env) (k : string) : Prop :=
  CanonicalMIMEHeaderKey E k = CanonicalMIMEHeaderKey E "Content-Type".

(** The client has [v] configured as a Content-Type header, under some
    spelling [k] of the name. *)
Definition configuredContentType (E : Env) (c : Client) (k v : string) : Prop :=
  header c !! k = Some v /\ namesContentType E k.

(** The three headers that lines 281-301 set under names of their own
    are not Content-Type. *)
Definition ownHeadersApart (E : Env) : Prop :=
  ~ namesContentType E "Cookie"
  /\ ~ namesContentType E "Authorization"
  /\ ~ namesContentType E "User-Agent".

(** The error with which one iteration of the loop of lines 201-230
    returns for an item, if it returns with one. *)
Definition itemError (E : Env) (item : string) : option error :=
  match Split item "="%char !! 1%nat, Split item "="%char !! 0%nat with
  | Some a1, Some a0 =>
      if isFileRef a1 then
        if negb (gfile_Exists E (sliceFrom a1 6))
        then Some (notExist (sliceFrom a1 6))
        else
          match multipart_CreateFormFile E a0 (gfile_Basename E (sliceFrom a1 6)) with
          | Some err => Some err
          | None =>
              match os_Open E (sliceFrom a1 6) with
              | inl err => Some err
              | inr f =>
                  match io_Copy E f with
                  | inl err => Some err
                  | inr _ => None
                  end
              end
          end
      else multipart_WriteField E a0 a1
  | _, _ => None
  end.

(** ** The verb methods, lines 39-89

    Each is [DoRequest] with its method name. *)
Definition Get (E : Env) (mw : list ClientHandlerFunc) (url : string)
  (data : list Value) : M (Result ClientResponse) := DoRequest E mw "GET" url data.
Definition Put (E : Env) (mw : list ClientHandlerFunc) (url : string)
  (data : list Value) : M (Result ClientResponse) := DoRequest E mw "PUT" url data.
Definition Post (E : Env) (mw : list ClientHandlerFunc) (url : string)
  (data : list Value) : M (Result ClientResponse) := DoRequest E mw "POST" url data.
Definition Delete (E : Env) (mw : list ClientHandlerFunc) (url : string)
  (data : list Value) : M (Result ClientResponse) := DoRequest E mw "DELETE" url data.
Definition Head (E : Env) (mw : list ClientHandlerFunc) (url : string)
  (data : list Value) : M (Result ClientResponse) := DoRequest E mw "HEAD" url data.
Definition Patch (E : Env) (mw : list ClientHandlerFunc) (url : string)
  (data : list Value) : M (Result ClientResponse) := DoRequest E mw "PATCH" url data.
Definition Connect (E : Env) (mw : list ClientHandlerFunc) (url : string)
  (data : list Value) : M (Result ClientResponse) := DoRequest E mw "CONNECT" url data.
Definition Options (E : Env) (mw : list ClientHandlerFunc) (url : string)
  (data : list Value) : M (Result ClientResponse) := DoRequest E mw "OPTIONS" url data.
Definition Trace (E : Env) (mw : list ClientHandlerFunc) (url : string)
  (data : list Value) : M (Result ClientResponse) := DoRequest E mw "TRACE" url data.

(** The eight verb methods other than [Get], each with its method name. *)
Definition bodyVerbs (E : Env)
  : list (string * (list ClientHandlerFunc -> string -> list Value
                    -> M (Result ClientResponse))) :=
  [("PUT", Put E); ("POST", Post E); ("DELETE", Delete E); ("HEAD", Head E);
   ("PATCH", Patch E); ("CONNECT", Connect E); ("OPTIONS", Options E);
   ("TRACE", Trace E)].

(** The request of the first send a trace records, if it records one. *)
Fixpoint firstSent (tr : list Event) : option Request :=
  match tr with
  | [] => None
  | EvSend req _ :: _ => Some req
  | _ :: rest => firstSent rest
  end.

(** The response bodies a trace records as closed, in order. *)
Fixpoint closed (tr : list Event) : list Response :=
  match tr with
  | [] => []
  | EvCloseBody r :: rest => r :: closed rest
  | _ :: rest => closed rest
  end.

(** The response a failed send came with, if it came with one: what line
    319 finds non-nil. *)
Definition leaked (r : DoResult) : list Response :=
  match do_err r, do_resp r with
  | Some _, Some resp => [resp]
  | _, _ => []
  end.

(** The part that one iteration of the loop of lines 201-230 writes for
    an item when nothing fails, and [None] when the iteration panics or
    returns an error. *)
Definition itemPart (E : Env) (item : string) : option Part :=
  match Split item "="%char !! 1%nat, Split item "="%char !! 0%nat with
  | Some a1, Some a0 =>
      if isFileRef a1 then
        if negb (gfile_Exists E (sliceFrom a1 6)) then None
        else
          match multipart_CreateFormFile E a0 (gfile_Basename E (sliceFrom a1 6)) with
          | Some _ => None
          | None =>
              match os_Open E (sliceFrom a1 6) with
              | inl _ => None
              | inr f =>
                  match io_Copy E f with
                  | inl _ => None
                  | inr content =>
                      Some (FormFile a0 (gfile_Basename E (sliceFrom a1 6)) content)
                  end
              end
          end
      else
        match multipart_WriteField E a0 a1 with
        | Some _ => None
        | None => Some (FormField a0 a1)
        end
  | _, _ => None
  end.

(** [name=value] for each cookie of a store, in the order the loop of
    lines 284-289 visits them. *)
Definition cookiePairs (m : gmap string string) : list string :=
  List.map (fun kv => fst kv ++ "=" ++ snd kv) (map_to_list m).

(** The blocks of lines 264-302, one by one: [finishRequest] is their
    composition (see [finishRequest_stages]). *)
Definition stageContext (c : Client) (req : Request) : Request :=
  WithContext req (match ctx c with
                   | Some x => x
                   | None => Background
                   end).

Definition stageHeaders (E : Env) (c : Client) (req : Request) : Request :=
  if (0 <? Z.of_nat (size (header c)))
  then fold_left (fun r kv => Header_Set E r (fst kv) (snd kv))
                 (map_to_list (header c)) req
  else req.

Definition stageHost (E : Env) (req : Request) : Request :=
  if negb (String.eqb (Header_Get E req "Host") "") && String.eqb (Host req) ""
  then withHost req (Header_Get E req "Host") else req.

Definition stageCookie (E : Env) (c : Client) (req : Request) : Request :=
  if (0 <? Z.of_nat (size (cookies c)))
  then if 0 <? len (cookieHeader (cookies c))
       then Header_Set E req "Cookie" (cookieHeader (cookies c)) else req
  else req.

Definition stageAuth (E : Env) (c : Client) (req : Request) : Request :=
  if 0 <? len (authUser c)
  then Header_Set E req "Authorization"
         ("Basic " ++ basicAuth E (authUser c) (authPass c))
  else req.

Definition stageAgent (E : Env) (c : Client) (req : Request) : Request :=
  if negb (String.eqb (agent c) "")
  then Header_Set E req "User-Agent" (agent c) else req.

(** * Properties *)

(** ** Running the monad *)

Ltac run :=
  repeat (progress (unfold bind, ret, panic, get, modify, getClient, setClient,
                    emit, intlog_Errorf, index; simpl)).

Lemma bind_Ret {A B} (m : M A) (k : A -> M B) st a st' :
  m st = Ret a st' -> bind m k st = k a st'.
Proof. unfold bind. now intros ->. Qed.

Lemma bind_Panic {A B} (m : M A) (k : A -> M B) st p st' :
  m st = Panic p st' -> bind m k st = Panic p st'.
Proof. unfold bind. now intros ->. Qed.

(** ** Byte strings *)

Section StringFacts.

Lemma prefix_nil (s : string) : String.prefix "" s = true.
Proof. now destruct s. Qed.

Lemma prefix_app (p s t : string) :
  String.prefix p s = true -> String.prefix p (s ++ t) = true.
Proof.
  revert s; induction p as [|a p IH]; intros s H.
  - apply prefix_nil.
  - destruct s as [|b s]; simpl in *; [discriminate|].
    destruct (Ascii.ascii_dec a b); [auto | discriminate].
Qed.

Lemma Contains_nil (s : string) : Contains s "" = true.
Proof. destruct s; reflexivity. Qed.

Lemma Contains_cons (a : ascii) (s sub : string) :
  Contains s sub = true -> Contains (String a s) sub = true.
Proof. intros H. simpl Contains. rewrite H. apply orb_true_r. Qed.

Lemma Contains_prefix (s sub : string) :
  String.prefix sub s = true -> Contains s sub = true.
Proof. intros H. destruct s; simpl in *; rewrite H; reflexivity. Qed.

Lemma Split_not_nil (s : string) (sep : ascii) : Split s sep <> [].
Proof.
  destruct s as [|a s]; simpl; [discriminate|].
  destruct (Ascii.eqb a sep); [discriminate|].
  destruct (Split s sep); discriminate.
Qed.

(** The first piece of a split is a prefix of the string. *)
Lemma Split_head (s : string) (sep : ascii) piece pieces :
  Split s sep = piece :: pieces -> exists tail, s = (piece ++ tail)%string.
Proof.
  revert piece pieces; induction s as [|a s IH]; simpl; intros piece pieces H.
  - injection H as <- <-. now exists "".
  - destruct (Ascii.eqb a sep).
    + injection H as <- <-. now eexists.
    + destruct (Split s sep) as [|q qs] eqn:Hs.
      * injection H as <- <-. destruct (Split_not_nil _ _ Hs).
      * injection H as <- <-. destruct (IH _ _ eq_refl) as [tail ->].
        now exists tail.
Qed.

(** A substring of a piece is a substring of the whole. *)
Lemma Contains_Split (s : string) (sep : ascii) (item sub : string) :
  In item (Split s sep) -> Contains item sub = true -> Contains s sub = true.
Proof.
  revert item; induction s as [|a s IH]; simpl Split; intros item Hin Hc.
  - destruct Hin as [<-|[]]. exact Hc.
  - destruct (Ascii.eqb a sep).
    + destruct Hin as [<-|Hin].
      * destruct sub; [apply Contains_nil|discriminate].
      * apply Contains_cons. eauto.
    + destruct (Split s sep) as [|q qs] eqn:Hs; [destruct (Split_not_nil _ _ Hs)|].
      destruct Hin as [<-|Hin].
      * destruct (Split_head _ _ _ _ Hs) as [tail ->].
        simpl in Hc. apply orb_true_iff in Hc as [Hp|Hq].
        -- apply Contains_prefix. apply (prefix_app _ (String a q) tail Hp).
        -- apply Contains_cons. apply (IH q); [now left | exact Hq].
      * apply Contains_cons. apply (IH item); [now right | exact Hc].
Qed.

End StringFacts.

(** [Contains] is the substring relation. *)
Lemma prefix_spec (p s : string) :
  String.prefix p s = true <-> exists post, s = (p ++ post)%string.
Proof.
  revert s; induction p as [|a p IH]; intros s.
  - rewrite prefix_nil. split; [now exists s | reflexivity].
  - destruct s as [|b s]; simpl.
    + split; [discriminate | intros [? [=]]].
    + destruct (Ascii.ascii_dec a b) as [->|Hne].
      * rewrite IH. split; intros [post H]; exists post; [now rewrite H | now injection H].
      * split; [discriminate | intros [post [= H _]]; congruence].
Qed.

Lemma Contains_spec (s sub : string) :
  Contains s sub = true <-> exists pre post, s = (pre ++ sub ++ post)%string.
Proof.
  induction s as [|a s IH];
    [change (Contains "" sub) with (String.prefix sub "" || false)
    |change (Contains (String a s) sub)
       with (String.prefix sub (String a s) || Contains s sub)];
    rewrite orb_true_iff, prefix_spec.
  - split.
    + intros [[post H]|[=]]. now exists "", post.
    + intros ([|? ?] & post & H); [left; now exists post | discriminate].
  - rewrite IH. split.
    + intros [[post H]|(pre & post & H)].
      * now exists "", post.
      * exists (String a pre), post. simpl. now rewrite H.
    + intros ([|b pre] & post & H).
      * left. now exists post.
      * right. exists pre, post. simpl in H. now injection H.
Qed.

(** Splitting loses nothing: the pieces joined by the separator are the
    string, and no piece holds the separator. *)
Lemma Join_cons (piece : string) (rest : list string) (sep : ascii) :
  rest <> [] -> Join (piece :: rest) sep = (piece ++ String sep (Join rest sep))%string.
Proof. now destruct rest. Qed.

Lemma Join_Split (s : string) (sep : ascii) : Join (Split s sep) sep = s.
Proof.
  induction s as [|a s IH]; [reflexivity|]. simpl Split.
  destruct (Ascii.eqb a sep) eqn:Ha.
  - apply Ascii.eqb_eq in Ha as ->.
    rewrite Join_cons by apply Split_not_nil. now rewrite IH.
  - destruct (Split s sep) as [|q qs] eqn:Hs; [destruct (Split_not_nil _ _ Hs)|].
    destruct qs as [|q' qs].
    + simpl in *. now rewrite IH.
    + rewrite Join_cons in * by discriminate. now rewrite <- IH.
Qed.

Lemma Split_pieces (s : string) (sep : ascii) :
  Forall (fun piece => Contains piece (String sep "") = false) (Split s sep).
Proof.
  induction s as [|a s IH]; simpl Split.
  - repeat constructor.
  - destruct (Ascii.eqb a sep) eqn:Ha.
    + constructor; [reflexivity | exact IH].
    + destruct (Split s sep) as [|q qs] eqn:Hs; [destruct (Split_not_nil _ _ Hs)|].
      apply Forall_cons in IH as [Hq Hqs]. constructor; [|exact Hqs].
      simpl. rewrite Hq, orb_false_r.
      destruct (Ascii.ascii_dec sep a) as [->|Hne];
        [now rewrite Ascii.eqb_refl in Ha | reflexivity].
Qed.

(** [array[1]] exists exactly when the item holds the separator. *)
Lemma Split_second (s : string) (sep : ascii) :
  Split s sep !! 1%nat = None <-> Contains s (String sep "") = false.
Proof.
  induction s as [|a s IH]; simpl Split.
  - split; reflexivity.
  - simpl Contains. destruct (Ascii.ascii_dec sep a) as [->|Hne].
    + rewrite Ascii.eqb_refl, prefix_nil. simpl.
      generalize (Split_not_nil s a). destruct (Split s a); [easy|].
      intros _. split; discriminate.
    + replace (Ascii.eqb a sep) with false
        by (symmetry; apply Ascii.eqb_neq; congruence).
      simpl. destruct (Split s sep) as [|q qs] eqn:Hs;
        [destruct (Split_not_nil _ _ Hs)|].
      exact IH.
Qed.

Lemma Split_first (s : string) (sep : ascii) :
  exists a0, Split s sep !! 0%nat = Some a0.
Proof.
  generalize (Split_not_nil s sep). destruct (Split s sep); [easy|].
  intros _. now eexists.
Qed.

(** ** The sniffing pattern *)

Section SniffFacts.

Import Sniff.

Lemma afterClass_split (s : string) :
  exists w, s = (w ++ afterClass s)%string
            /\ (forall a, In a (list_ascii_of_string w) -> isClass a = true).
Proof.
  induction s as [|a s (w & Hw & Hall)]; simpl.
  - exists "". split; [reflexivity | intros ? []].
  - destruct (isClass a) eqn:Ha.
    + exists (String a w). split.
      * change (String a s = String a (w ++ afterClass s)). now f_equal.
      * simpl. intros b [<-|Hb]; auto.
    + exists "". split; [reflexivity | intros ? []].
Qed.

Lemma afterClass_word (w : string) (rest : string) :
  (forall a, In a (list_ascii_of_string w) -> isClass a = true) ->
  afterClass (w ++ rest) = afterClass rest.
Proof.
  induction w as [|a w IH]; simpl; intros H; [reflexivity|].
  rewrite (H a) by now left. apply IH. intros b Hb. apply H. now right.
Qed.

Lemma isClass_eq : isClass "="%char = false.
Proof. reflexivity. Qed.

(** The matcher decides the grammar of the pattern. *)
Lemma isFormShaped_spec (s : string) :
  isFormShaped s = true <-> FormShaped s.
Proof.
  split.
  - destruct s as [|a s]; simpl; [discriminate|].
    intros H. apply andb_true_iff in H as [Ha H].
    destruct (afterClass_split s) as (w & Hw & Hall).
    destruct (afterClass s) as [|e [|b tail]]; try discriminate.
    apply andb_true_iff in H as [He Hb].
    apply Ascii.eqb_eq in He as ->.
    exists (String a w), b, tail. repeat split.
    + change (String a s = String a (w ++ String "="%char (String b tail))).
      now f_equal.
    + discriminate.
    + simpl. intros c [<-|Hc]; auto.
    + intros ->. now rewrite Ascii.eqb_refl in Hb.
  - intros (w & b & tail & -> & Hne & Hall & Hb).
    destruct w as [|a w]; [congruence|]. simpl.
    rewrite (Hall a) by now left. simpl.
    rewrite afterClass_word by (intros c Hc; apply Hall; now right).
    simpl. apply Ascii.eqb_neq in Hb. now rewrite Hb.
Qed.

End SniffFacts.

(** ** prepareRequest: what the last stage leaves alone *)

Section PrepareFacts.

Context (E : Env).

Lemma Header_Set_fold_frame (kvs : list (string * string)) (req : Request) :
  let req' := fold_left (fun r kv => Header_Set E r (fst kv) (snd kv)) kvs req in
  Method req' = Method req /\ URL req' = URL req /\ ReqBody req' = ReqBody req
  /\ Host req' = Host req /\ ReqContext req' = ReqContext req.
Proof.
  revert req; induction kvs as [|kv kvs IH]; intros req; simpl; [easy|].
  destruct (IH (Header_Set E req (fst kv) (snd kv))) as (-> & -> & -> & -> & ->).
  easy.
Qed.

(** The context, headers, host, cookies, credentials and agent are added
    without touching the method, the URL or the body. *)
Lemma finishRequest_frame (c : Client) (req : Request) :
  Method (finishRequest E c req) = Method req
  /\ URL (finishRequest E c req) = URL req
  /\ ReqBody (finishRequest E c req) = ReqBody req.
Proof.
  unfold finishRequest.
  repeat match goal with
         | |- context [if ?b then _ else _] => destruct b
         end;
    simpl;
    try (destruct (Header_Set_fold_frame (map_to_list (header c))
           (WithContext req match ctx c with Some x => x | None => Background end))
          as (-> & -> & -> & _));
    easy.
Qed.

Lemma prepareRequest_unfold (method url : string) (data : list Value) (st : State) :
  prepareRequest E method url data st =
  match encodeParams E (client st) data with
  | inl err => Ret (None, Some err) st
  | inr param =>
      match buildRequest E (client st) (ToUpper E method)
              (targetURL E (client st) url) param st with
      | Ret (Some req, _) st' => Ret (Some (finishRequest E (client st) req), None) st'
      | Ret (None, err) st' => Ret (None, err) st'
      | Panic p st' => Panic p st'
      end
  end.
Proof.
  unfold prepareRequest. run.
  destruct (encodeParams E (client st) data); [reflexivity|].
  destruct (buildRequest _ _ _ _ _ st) as [[[req|] err] st'|]; reflexivity.
Qed.

(** A call that fails while the request is built returns the error and
    leaves the world as it was: nothing is sent. *)
Lemma DoRequest_construction_error mw method url data st err st' :
  prepareRequest E method url data st = Ret (None, Some err) st' ->
  DoRequest E mw method url data st = Ret (None, Some err) st'.
Proof. intros H. unfold DoRequest. now rewrite (bind_Ret _ _ _ _ _ H). Qed.

Lemma DoRequest_construction_panic mw method url data st p st' :
  prepareRequest E method url data st = Panic p st' ->
  DoRequest E mw method url data st = Panic p st'.
Proof. intros H. unfold DoRequest. now rewrite (bind_Panic _ _ _ _ _ H). Qed.

End PrepareFacts.

(** ** buildRequest, branch by branch *)

Section BuildFacts.

Context (E : Env).

Lemma getURL_nonempty (url param : string) :
  param <> "" ->
  getURL url param =
  if Contains url "?" then url ++ "&" ++ param else url ++ "?" ++ param.
Proof.
  intros H. unfold getURL.
  replace (String.eqb param "") with false
    by (symmetry; now apply String.eqb_neq).
  reflexivity.
Qed.

Lemma buildRequest_GET (c : Client) (url param : string) (st : State) :
  buildRequest E c "GET" url param st =
  match http_NewRequest E "GET" (getURL url param) with
  | inl err => Ret (None, Some err) st
  | inr host =>
      Ret (Some (mkRequest "GET" (getURL url param) (RawBody "") ∅ host Background),
           None) st
  end.
Proof.
  unfold buildRequest, NewRequest.
  change (String.eqb "GET" "GET") with true. cbv iota zeta.
  change (methodOrGET "GET") with "GET".
  destruct (http_NewRequest E "GET" (getURL url param)); reflexivity.
Qed.

Lemma buildRequest_multipart (c : Client) (method url param : string) (st : State) :
  String.eqb method "GET" = false ->
  Contains param "@file:" = true ->
  buildRequest E c method url param st =
  match writeItems E (Split param "&"%char) [] st with
  | Ret (inl err) st' => Ret (None, Some err) st'
  | Ret (inr parts) st' =>
      match multipart_Close E parts with
      | Some err => Ret (None, Some err) st'
      | None =>
          match http_NewRequest E (methodOrGET method) url with
          | inl err => Ret (None, Some err) st'
          | inr host =>
              Ret (Some (Header_Set E
                           (mkRequest (methodOrGET method) url
                              (MultipartBody (multipart_Boundary E) parts)
                              ∅ host Background)
                           "Content-Type" (FormDataContentType E)),
                   None) st'
          end
      end
  | Panic p st' => Panic p st'
  end.
Proof.
  intros Hm Hf. unfold buildRequest, NewRequest. rewrite Hm, Hf.
  unfold bind.
  destruct (writeItems E (Split param "&"%char) [] st) as [[err|parts] st'|];
    try reflexivity.
  destruct (multipart_Close E parts); [reflexivity|].
  cbv zeta. destruct (http_NewRequest E (methodOrGET method) url); reflexivity.
Qed.

Lemma buildRequest_normal (c : Client) (method url param : string) (st : State) :
  String.eqb method "GET" = false ->
  Contains param "@file:" = false ->
  buildRequest E c method url param st =
  match http_NewRequest E (methodOrGET method) url with
  | inl err => Ret (None, Some err) st
  | inr host =>
      let req := mkRequest (methodOrGET method) url (RawBody param) ∅ host
                   Background in
      match sniffContentType E c param with
      | Some v => Ret (Some (Header_Set E req "Content-Type" v), None) st
      | None => Ret (Some req, None) st
      end
  end.
Proof.
  intros Hm Hf. unfold buildRequest, NewRequest. rewrite Hm, Hf.
  cbv zeta. destruct (http_NewRequest E (methodOrGET method) url); [reflexivity|].
  destruct (sniffContentType E c param); reflexivity.
Qed.

End BuildFacts.

(** ** GET: parameters travel in the URL *)

(** C6.  For a GET call (the method upper-cased is GET) whose encoded
    parameter string is not empty, the string is appended to the URL with
    '&' when the URL already holds a '?', and with '?' otherwise; that
    URL is what [http.NewRequest] is given, and the request that comes
    back from [prepareRequest] has that URL and an empty body. *)
Theorem prepareRequest_GET_query (E : Env) (method url : string)
  (data : list Value) (st : State) (param : string) :
  ToUpper E method = "GET" ->
  encodeParams E (client st) data = inr param ->
  param <> "" ->
  let base := targetURL E (client st) url in
  let target := if Contains base "?" then base ++ "&" ++ param
                else base ++ "?" ++ param in
  prepareRequest E method url data st =
    match http_NewRequest E "GET" target with
    | inl err => Ret (None, Some err) st
    | inr host =>
        Ret (Some (finishRequest E (client st)
                     (mkRequest "GET" target (RawBody "") ∅ host Background)),
             None) st
    end
  /\ (forall req err st',
        prepareRequest E method url data st = Ret (Some req, err) st' ->
        URL req = target /\ ReqBody req = RawBody "").
Proof.
  intros Hm Hp Hne. cbv zeta.
  set (base := targetURL E (client st) url).
  set (target := if Contains base "?" then _ else _).
  assert (Hrun : prepareRequest E method url data st =
    match http_NewRequest E "GET" target with
    | inl err => Ret (None, Some err) st
    | inr host =>
        Ret (Some (finishRequest E (client st)
                     (mkRequest "GET" target (RawBody "") ∅ host Background)),
             None) st
    end).
  { rewrite prepareRequest_unfold, Hp, Hm, buildRequest_GET.
    fold base. rewrite (getURL_nonempty base param Hne). fold target.
    destruct (http_NewRequest E "GET" target); reflexivity. }
  split; [exact Hrun|].
  intros req err st' H. rewrite Hrun in H.
  destruct (http_NewRequest E "GET" target) as [e|host]; [discriminate|].
  injection H as <- <- <-.
  destruct (finishRequest_frame E (client st)
              (mkRequest "GET" target (RawBody "") ∅ host Background))
    as (_ & -> & ->).
  easy.
Qed.

Lemma prepareRequest_GET_query_witness :
  URL (finishRequest (Scenario.env Scenario.refusing) Scenario.client0
         (mkRequest "GET" "http://example.org/api?x=0&a=1" (RawBody "") ∅
            "example.org" Background))
  = "http://example.org/api?x=0&a=1"
  /\ prepareRequest (Scenario.env Scenario.refusing) "get"
       "http://example.org/api?x=0" [VString "a=1"]
       (Scenario.start Scenario.client0)
     = Ret (Some (finishRequest (Scenario.env Scenario.refusing) Scenario.client0
                    (mkRequest "GET" "http://example.org/api?x=0&a=1"
                       (RawBody "") ∅ "example.org" Background)),
            None)
           (Scenario.start Scenario.client0).
Proof.
  split; [reflexivity|].
  exact (proj1 (prepareRequest_GET_query (Scenario.env Scenario.refusing) "get"
                  "http://example.org/api?x=0" [VString "a=1"]
                  (Scenario.start Scenario.client0) "a=1"
                  eq_refl eq_refl ltac:(discriminate))).
Defined.

(** ** JSON and XML: pass-through or marshal *)

Lemma encodeParams_json_xml (E : Env) (c : Client) (d : Value)
  (rest : list Value) (ct : string) :
  header c !! "Content-Type" = Some ct ->
  ct = "application/json" \/ ct = "application/xml" ->
  encodeParams E c (d :: rest) =
  match bytesOf d with
  | Some s => inr s
  | None => marshalerFor E ct d
  end.
Proof.
  intros Hh Hct. unfold encodeParams, marshalerFor. rewrite Hh. simpl default.
  destruct Hct as [-> | ->]; simpl String.eqb; cbv iota.
  - destruct d; simpl; try reflexivity; now destruct (json_Marshal E _).
  - destruct d; simpl; try reflexivity; now destruct (gparser_VarToXml E _).
Qed.

(** Where the parameter string goes: into the URL on GET, into a
    multipart message when it holds the upload marker, and into the body
    as it is otherwise. *)
Lemma prepareRequest_shape (E : Env) (method url : string) (data : list Value)
  (st : State) (req : Request) (err : option error) (st' : State) :
  prepareRequest E method url data st = Ret (Some req, err) st' ->
  exists param,
    encodeParams E (client st) data = inr param
    /\ if String.eqb (ToUpper E method) "GET"
       then URL req = getURL (targetURL E (client st) url) param
            /\ ReqBody req = RawBody ""
       else URL req = targetURL E (client st) url
            /\ if Contains param "@file:"
               then exists parts,
                   writeItems E (Split param "&"%char) [] st = Ret (inr parts) st'
                   /\ ReqBody req = MultipartBody (multipart_Boundary E) parts
               else ReqBody req = RawBody param.
Proof.
  rewrite prepareRequest_unfold.
  destruct (encodeParams E (client st) data) as [e|param]; [discriminate|].
  intros Hrun. exists param. split; [reflexivity|].
  destruct (String.eqb (ToUpper E method) "GET") eqn:Hm.
  - apply String.eqb_eq in Hm. rewrite Hm, buildRequest_GET in Hrun.
    destruct (http_NewRequest E "GET" _) as [e|host]; [discriminate|].
    injection Hrun as <- _ _.
    now destruct (finishRequest_frame E (client st)
                    (mkRequest "GET" (getURL (targetURL E (client st) url) param)
                       (RawBody "") ∅ host Background)) as (_ & -> & ->).
  - destruct (Contains param "@file:") eqn:Hf.
    + rewrite (buildRequest_multipart E _ _ _ _ st Hm Hf) in Hrun.
      destruct (writeItems E _ [] st) as [[e|parts] st1|]; try discriminate.
      destruct (multipart_Close E parts); [discriminate|].
      destruct (http_NewRequest E _ _) as [e|host]; [discriminate|].
      injection Hrun as <- _ <-.
      destruct (finishRequest_frame E (client st)
                  (Header_Set E
                     (mkRequest (methodOrGET (ToUpper E method))
                        (targetURL E (client st) url)
                        (MultipartBody (multipart_Boundary E) parts)
                        ∅ host Background)
                     "Content-Type" (FormDataContentType E)))
        as (_ & -> & ->).
      split; [reflexivity|]. now exists parts.
    + rewrite (buildRequest_normal E _ _ _ _ st Hm Hf) in Hrun.
      destruct (http_NewRequest E _ _) as [e|host]; [discriminate|].
      cbv zeta in Hrun.
      destruct (sniffContentType E (client st) param) as [v|];
        injection Hrun as <- _ _.
      * now destruct (finishRequest_frame E (client st)
                        (Header_Set E
                           (mkRequest (methodOrGET (ToUpper E method))
                              (targetURL E (client st) url)
                              (RawBody param) ∅ host Background)
                           "Content-Type" v)) as (_ & -> & ->).
      * now destruct (finishRequest_frame E (client st)
                        (mkRequest (methodOrGET (ToUpper E method))
                           (targetURL E (client st) url)
                           (RawBody param) ∅ host Background)) as (_ & -> & ->).
Qed.

(** C5, as the code has it.  With the client's Content-Type configured as
    application/json or application/xml: a string or byte-sequence value
    is the parameter string as it is, byte for byte; any other value is
    marshaled with the JSON (resp. XML) marshaler, whose output is the
    parameter string; a marshal failure is what [prepareRequest] and
    [DoRequest] return, with no request built and the world untouched.
    The parameter string is the body of the request only on a call that
    is not a GET and whose string holds no upload marker: on GET the body
    is empty and the string is appended to the URL; a string with the
    upload marker is written as a multipart message from its '&'-items. *)
Theorem json_xml_passthrough_or_marshal (E : Env) (c : Client) (d : Value)
  (rest : list Value) (ct : string) :
  header c !! "Content-Type" = Some ct ->
  ct = "application/json" \/ ct = "application/xml" ->
  (forall s, bytesOf d = Some s -> encodeParams E c (d :: rest) = inr s)
  /\ (bytesOf d = None -> encodeParams E c (d :: rest) = marshalerFor E ct d)
  /\ (forall err mw method url st,
        client st = c -> bytesOf d = None -> marshalerFor E ct d = inl err ->
        prepareRequest E method url (d :: rest) st = Ret (None, Some err) st
        /\ DoRequest E mw method url (d :: rest) st = Ret (None, Some err) st)
  /\ (forall param method url st req err st',
        client st = c ->
        encodeParams E c (d :: rest) = inr param ->
        prepareRequest E method url (d :: rest) st = Ret (Some req, err) st' ->
        if String.eqb (ToUpper E method) "GET"
        then ReqBody req = RawBody ""
             /\ URL req = getURL (targetURL E c url) param
        else URL req = targetURL E c url
             /\ if Contains param "@file:"
                then exists parts,
                    writeItems E (Split param "&"%char) [] st = Ret (inr parts) st'
                    /\ ReqBody req = MultipartBody (multipart_Boundary E) parts
                else ReqBody req = RawBody param).
Proof.
  intros Hh Hct.
  pose proof (encodeParams_json_xml E c d rest ct Hh Hct) as Henc.
  split; [|split; [|split]].
  - intros s Hs. now rewrite Henc, Hs.
  - intros Hn. now rewrite Henc, Hn.
  - intros err mw method url st Hc Hn Hm.
    assert (prepareRequest E method url (d :: rest) st = Ret (None, Some err) st)
      as Hprep by (rewrite prepareRequest_unfold, Hc, Henc, Hn, Hm; reflexivity).
    split; [exact Hprep | now apply DoRequest_construction_error].
  - intros param method url st req err st' Hc Hp Hrun.
    destruct (prepareRequest_shape E _ _ _ _ _ _ _ Hrun) as (param' & Hp' & Hshape).
    rewrite Hc, Hp in Hp'. injection Hp' as <-. rewrite Hc in Hshape.
    destruct (String.eqb (ToUpper E method) "GET"); [|exact Hshape].
    destruct Hshape as [Hu Hb]. now split.
Qed.

Lemma json_xml_passthrough_or_marshal_witness :
  encodeParams (Scenario.env Scenario.refusing) Scenario.jsonClient
    [VString Scenario.jsonA1] = inr Scenario.jsonA1
  /\ DoRequest (Scenario.env Scenario.refusing) [] "POST" Scenario.site
       [VInt 5] (Scenario.start Scenario.jsonClient)
     = Ret (None, Some (errors_New "json: unsupported value"))
           (Scenario.start Scenario.jsonClient)
  /\ exists req,
      prepareRequest (Scenario.env Scenario.refusing) "POST" Scenario.site
        [VString Scenario.jsonA1] (Scenario.start Scenario.jsonClient)
      = Ret (Some req, None) (Scenario.start Scenario.jsonClient)
      /\ URL req = Scenario.site
      /\ ReqBody req = RawBody Scenario.jsonA1.
Proof.
  pose proof (json_xml_passthrough_or_marshal (Scenario.env Scenario.refusing)
                Scenario.jsonClient (VString Scenario.jsonA1) []
                "application/json" eq_refl (or_introl eq_refl)) as Hs.
  pose proof (json_xml_passthrough_or_marshal (Scenario.env Scenario.refusing)
                Scenario.jsonClient (VInt 5) []
                "application/json" eq_refl (or_introl eq_refl)) as Hm.
  split; [exact (proj1 Hs Scenario.jsonA1 eq_refl)|].
  split.
  - exact (proj2 (proj1 (proj2 (proj2 Hm)) (errors_New "json: unsupported value")
                    [] "POST" Scenario.site (Scenario.start Scenario.jsonClient)
                    eq_refl eq_refl eq_refl)).
  - eexists. split; [reflexivity|].
    exact (proj2 (proj2 (proj2 Hs)) Scenario.jsonA1 "POST" Scenario.site
             (Scenario.start Scenario.jsonClient) _ None
             (Scenario.start Scenario.jsonClient)
             eq_refl eq_refl eq_refl).
Defined.

(** C5, as worded, fails on GET: under a configured application/json
    Content-Type the string value is passed through unchanged, and the
    request that is built has an empty body; the string is in the URL. *)
Lemma passthrough_on_GET_counterexample :
  header Scenario.jsonClient !! "Content-Type" = Some "application/json"
  /\ encodeParams (Scenario.env Scenario.refusing) Scenario.jsonClient
       [VString Scenario.jsonA1] = inr Scenario.jsonA1
  /\ builtBody (prepareRequest (Scenario.env Scenario.refusing) "GET"
                  Scenario.site [VString Scenario.jsonA1]
                  (Scenario.start Scenario.jsonClient))
     = Some (RawBody "")
  /\ match prepareRequest (Scenario.env Scenario.refusing) "GET"
             Scenario.site [VString Scenario.jsonA1]
             (Scenario.start Scenario.jsonClient) with
     | Ret (Some req, _) _ => URL req
     | _ => ""
     end = (Scenario.site ++ "?" ++ Scenario.jsonA1)%string.
Proof. repeat split. Qed.

(** ** Content-Type of a normal request *)

Lemma sniffContentType_cases (E : Env) (c : Client) (param : string) :
  sniffContentType E c param =
  match header c !! "Content-Type" with
  | Some v => Some v
  | None =>
      if jsonLike E param then Some "application/json"
      else if Sniff.isFormShaped param
           then Some "application/x-www-form-urlencoded"
           else None
  end.
Proof.
  unfold sniffContentType, jsonLike.
  destruct (header c !! "Content-Type"); [reflexivity|].
  destruct param as [|a s]; [reflexivity|].
  change (0 <? len (String a s)) with true. reflexivity.
Qed.

(** The request as lines 242-261 build it: the client's Content-Type
    under the key "Content-Type", else the sniffed one, else no header
    at all. *)
Lemma buildRequest_content_type (E : Env) (c : Client)
  (method url param : string) (st : State)
  (req : Request) (err : option error) (st' : State) :
  String.eqb method "GET" = false ->
  Contains param "@file:" = false ->
  buildRequest E c method url param st = Ret (Some req, err) st' ->
  (forall v, header c !! "Content-Type" = Some v -> contentTypeOf E req = Some v)
  /\ (header c !! "Content-Type" = None -> jsonLike E param = true ->
      contentTypeOf E req = Some "application/json")
  /\ (header c !! "Content-Type" = None -> jsonLike E param = false ->
      Sniff.FormShaped param ->
      contentTypeOf E req = Some "application/x-www-form-urlencoded")
  /\ (header c !! "Content-Type" = None -> jsonLike E param = false ->
      ~ Sniff.FormShaped param ->
      Header req = ∅).
Proof.
  intros Hm Hf Hrun.
  rewrite (buildRequest_normal E c _ _ _ st Hm Hf) in Hrun.
  destruct (http_NewRequest E _ url) as [e|host]; [discriminate|].
  cbv zeta in Hrun. rewrite sniffContentType_cases in Hrun.
  assert (Hset : forall v r, contentTypeOf E (Header_Set E r "Content-Type" v) = Some v).
  { intros v r. unfold contentTypeOf, Header_Set. simpl.
    apply lookup_insert_eq. }
  split; [|split; [|split]].
  - intros v Hv. rewrite Hv in Hrun. injection Hrun as <- _ _. apply Hset.
  - intros Hn Hj. rewrite Hn, Hj in Hrun. injection Hrun as <- _ _. apply Hset.
  - intros Hn Hj Hs. apply isFormShaped_spec in Hs.
    rewrite Hn, Hj, Hs in Hrun. injection Hrun as <- _ _. apply Hset.
  - intros Hn Hj Hs.
    assert (Sniff.isFormShaped param = false) as Hb.
    { destruct (Sniff.isFormShaped param) eqn:Hb; [|reflexivity].
      destruct Hs. now apply isFormShaped_spec. }
    rewrite Hn, Hj, Hb in Hrun. now injection Hrun as <- _ _.
Qed.

(** ** The multipart loop *)

Section MultipartFacts.

Context (E : Env).


Lemma logsOnly_refl st : logsOnly st st.
Proof.
  repeat split. exists []. split; [now rewrite app_nil_r | constructor].
Qed.

Lemma logsOnly_trans st1 st2 st3 :
  logsOnly st1 st2 -> logsOnly st2 st3 -> logsOnly st1 st3.
Proof.
  intros (Hc & Hs & Hn & l1 & Ht & Hl1) (Hc' & Hs' & Hn' & l2 & Ht' & Hl2).
  repeat split; try congruence.
  exists (l1 ++ l2)%list. split.
  - rewrite Ht', Ht. now rewrite <- app_assoc.
  - now apply Forall_app.
Qed.

Lemma logsOnly_sends st st' : logsOnly st st' -> sends (trace st') = sends (trace st).
Proof.
  intros (_ & _ & _ & logs & -> & Hl). unfold sends.
  rewrite List.filter_app, length_app.
  assert (List.filter isSend logs = []) as ->; [|simpl; lia].
  induction Hl as [|e l (err & ->) _ IH]; [reflexivity | exact IH].
Qed.

Lemma logClose_logsOnly f st :
  exists st', logClose E f st = Ret tt st' /\ logsOnly st st'.
Proof.
  unfold logClose. destruct (file_Close E f) as [err|].
  - eexists. split; [reflexivity|]. repeat split. simpl.
    exists [EvLog err]. split; [reflexivity|]. repeat constructor. now eexists.
  - eexists. split; [reflexivity | apply logsOnly_refl].
Qed.

Lemma logClose_final f st : logClose E f st = Ret tt (finalState (logClose E f st)).
Proof. destruct (logClose_logsOnly f st) as (st' & -> & _). reflexivity. Qed.

(** One iteration of the loop, with the binds run. *)
Lemma writeItems_step item rest w st :
  writeItems E (item :: rest) w st =
  match Split item "="%char !! 1%nat with
  | None => Panic IndexOutOfRange st
  | Some a1 =>
      match Split item "="%char !! 0%nat with
      | None => Panic IndexOutOfRange st
      | Some a0 =>
          if isFileRef a1 then
            if negb (gfile_Exists E (sliceFrom a1 6))
            then Ret (inl (notExist (sliceFrom a1 6))) st
            else
              match multipart_CreateFormFile E a0
                      (gfile_Basename E (sliceFrom a1 6)) with
              | Some err => Ret (inl err) st
              | None =>
                  match os_Open E (sliceFrom a1 6) with
                  | inl err => Ret (inl err) st
                  | inr f =>
                      match io_Copy E f with
                      | inl err => Ret (inl err) (finalState (logClose E f st))
                      | inr content =>
                          writeItems E rest
                            (w ++ [FormFile a0 (gfile_Basename E (sliceFrom a1 6))
                                     content])%list
                            (finalState (logClose E f st))
                      end
                  end
              end
          else
            match multipart_WriteField E a0 a1 with
            | Some err => Ret (inl err) st
            | None => writeItems E rest (w ++ [FormField a0 a1])%list st
            end
      end
  end.
Proof.
  simpl. unfold bind at 1. unfold index at 1.
  destruct (Split item "="%char !! 1%nat) as [a1|]; [|reflexivity].
  unfold ret at 1. unfold bind at 1. unfold index at 1.
  destruct (Split item "="%char !! 0%nat) as [a0|]; [|reflexivity].
  unfold ret at 1.
  destruct (isFileRef a1); [|now destruct (multipart_WriteField E a0 a1)].
  destruct (negb _); [reflexivity|].
  destruct (multipart_CreateFormFile E _ _); [reflexivity|].
  destruct (os_Open E _) as [e|f]; [reflexivity|].
  destruct (io_Copy E f) as [e|content]; unfold bind;
    rewrite (logClose_final f st); reflexivity.
Qed.

(** An item without '=' stops the loop with an index panic. *)
Lemma writeItems_no_separator item rest w st :
  Contains item "=" = false ->
  writeItems E (item :: rest) w st = Panic IndexOutOfRange st.
Proof.
  intros H. apply Split_second in H. now rewrite writeItems_step, H.
Qed.

(** An item whose value refers to a missing file stops the loop with the
    "does not exist" error. *)
Lemma writeItems_missing_file item rest w st v :
  Split item "="%char !! 1%nat = Some v ->
  isFileRef v = true ->
  gfile_Exists E (sliceFrom v 6) = false ->
  writeItems E (item :: rest) w st = Ret (inl (notExist (sliceFrom v 6))) st.
Proof.
  intros H1 Hf Hx. destruct (Split_first item "="%char) as [a0 H0].
  now rewrite writeItems_step, H1, H0, Hf, Hx.
Qed.

(** An item that fails with an error stops the loop with that error. *)
Lemma writeItems_itemError item rest w st e :
  itemError E item = Some e ->
  exists st', writeItems E (item :: rest) w st = Ret (inl e) st'
              /\ logsOnly st st'.
Proof.
  unfold itemError. rewrite writeItems_step.
  destruct (_ !! 1%nat) as [a1|]; [|discriminate].
  destruct (_ !! 0%nat) as [a0|]; [|discriminate].
  destruct (isFileRef a1).
  - destruct (negb _).
    { intros [= <-]. eexists. split; [reflexivity | apply logsOnly_refl]. }
    destruct (multipart_CreateFormFile E _ _).
    { intros [= <-]. eexists. split; [reflexivity | apply logsOnly_refl]. }
    destruct (os_Open E _) as [e'|f].
    { intros [= <-]. eexists. split; [reflexivity | apply logsOnly_refl]. }
    destruct (io_Copy E f) as [e'|content]; [|discriminate].
    intros [= <-]. eexists. split; [reflexivity|].
    now destruct (logClose_logsOnly f st) as (st1 & -> & ?).
  - destruct (multipart_WriteField E a0 a1); [|discriminate].
    intros [= <-]. eexists. split; [reflexivity | apply logsOnly_refl].
Qed.

(** The loop touches nothing but the log. *)
Lemma writeItems_logsOnly items : forall w st,
  logsOnly st (finalState (writeItems E items w st)).
Proof.
  induction items as [|item rest IH]; intros w st; [apply logsOnly_refl|].
  assert (Hl : forall f, logsOnly st (finalState (logClose E f st))).
  { intros f. now destruct (logClose_logsOnly f st) as (st1 & -> & ?). }
  rewrite writeItems_step.
  destruct (_ !! 1%nat) as [a1|]; [|apply logsOnly_refl].
  destruct (_ !! 0%nat) as [a0|]; [|apply logsOnly_refl].
  destruct (isFileRef a1).
  - destruct (negb _); [apply logsOnly_refl|].
    destruct (multipart_CreateFormFile E _ _); [apply logsOnly_refl|].
    destruct (os_Open E _) as [e|f]; [apply logsOnly_refl|].
    destruct (io_Copy E f) as [e|content]; [apply Hl|].
    eapply logsOnly_trans; [apply Hl | apply IH].
  - destruct (multipart_WriteField E a0 a1); [apply logsOnly_refl | apply IH].
Qed.

(** When every item holds an '=', the loop returns. *)
Lemma writeItems_returns items : forall w st,
  (forall item, In item items -> Contains item "=" = true) ->
  exists r st', writeItems E items w st = Ret r st'.
Proof.
  induction items as [|item rest IH]; intros w st H; [now eexists; eexists|].
  assert (Hrest : forall i, In i rest -> Contains i "=" = true)
    by (intros i Hi; apply H; now right).
  rewrite writeItems_step.
  destruct (Split item "="%char !! 1%nat) as [a1|] eqn:H1.
  2:{ apply Split_second in H1. rewrite (H item) in H1 by now left.
      discriminate. }
  destruct (Split_first item "="%char) as [a0 ->].
  destruct (isFileRef a1).
  - destruct (negb _); [now eexists; eexists|].
    destruct (multipart_CreateFormFile E _ _); [now eexists; eexists|].
    destruct (os_Open E _) as [e|f]; [now eexists; eexists|].
    destruct (io_Copy E f) as [e|content]; [now eexists; eexists | now apply IH].
  - destruct (multipart_WriteField E a0 a1); [now eexists; eexists | now apply IH].
Qed.

(** The loop over [pre ++ items] is the loop over [pre] followed, if that
    one returned normally, by the loop over [items]. *)
Lemma writeItems_app pre items : forall w st,
  writeItems E (pre ++ items) w st =
  match writeItems E pre w st with
  | Ret (inr w1) st1 => writeItems E items w1 st1
  | other => other
  end.
Proof.
  induction pre as [|item rest IH]; intros w st; [reflexivity|].
  rewrite <- app_comm_cons, !writeItems_step.
  destruct (_ !! 1%nat) as [a1|]; [|reflexivity].
  destruct (_ !! 0%nat) as [a0|]; [|reflexivity].
  destruct (isFileRef a1).
  - destruct (negb _); [reflexivity|].
    destruct (multipart_CreateFormFile E _ _); [reflexivity|].
    destruct (os_Open E _) as [e|f]; [reflexivity|].
    destruct (io_Copy E f) as [e|content]; [reflexivity | apply IH].
  - destruct (multipart_WriteField E a0 a1); [reflexivity | apply IH].
Qed.

(** The loop either writes every item, or stops at a first item, those
    before it written, that fails with an error or holds no '='. *)
Lemma writeItems_first_failure items : forall w st,
  (exists w' st', writeItems E items w st = Ret (inr w') st')
  \/ (exists ok bad more w' st',
        items = (ok ++ bad :: more)%list
        /\ writeItems E ok w st = Ret (inr w') st'
        /\ (is_Some (itemError E bad) \/ Contains bad "=" = false)).
Proof.
  induction items as [|item rest IH]; intros w st; [left; now eexists _, _|].
  assert (Hbad : is_Some (itemError E item) \/ Contains item "=" = false ->
                 exists ok bad more w' st',
                   item :: rest = (ok ++ bad :: more)%list
                   /\ writeItems E ok w st = Ret (inr w') st'
                   /\ (is_Some (itemError E bad) \/ Contains bad "=" = false)).
  { intros H. exists [], item, rest, w, st. now repeat split. }
  assert (Hnext : forall w1 st1,
             writeItems E (item :: rest) w st = writeItems E rest w1 st1 ->
             writeItems E [item] w st = Ret (inr w1) st1 ->
             (exists w' st', writeItems E (item :: rest) w st = Ret (inr w') st')
             \/ (exists ok bad more w' st',
                   item :: rest = (ok ++ bad :: more)%list
                   /\ writeItems E ok w st = Ret (inr w') st'
                   /\ (is_Some (itemError E bad) \/ Contains bad "=" = false))).
  { intros w1 st1 Hstep Hone. rewrite Hstep.
    destruct (IH w1 st1) as [Hall|(ok & bad & more & w' & st' & -> & Hok & Hb)];
      [now left|].
    right. exists (item :: ok), bad, more, w', st'.
    split; [reflexivity|]. split; [|exact Hb].
    change (item :: ok) with ([item] ++ ok)%list.
    now rewrite writeItems_app, Hone. }
  pose proof (writeItems_step item rest w st) as Hrest.
  pose proof (writeItems_step item [] w st) as Hone.
  unfold itemError in Hbad.
  destruct (Split item "="%char !! 1%nat) as [a1|] eqn:H1.
  2:{ right. apply Hbad. right. now apply Split_second. }
  destruct (Split item "="%char !! 0%nat) as [a0|] eqn:H0.
  2:{ destruct (Split_first item "="%char) as [a0 Ha0]. congruence. }
  destruct (isFileRef a1).
  - destruct (negb _); [right; apply Hbad; left; now eexists|].
    destruct (multipart_CreateFormFile E _ _);
      [right; apply Hbad; left; now eexists|].
    destruct (os_Open E _) as [e|f]; [right; apply Hbad; left; now eexists|].
    destruct (io_Copy E f) as [e|content];
      [right; apply Hbad; left; now eexists|].
    eapply Hnext; [exact Hrest | exact Hone].
  - destruct (multipart_WriteField E a0 a1);
      [right; apply Hbad; left; now eexists|].
    eapply Hnext; [exact Hrest | exact Hone].
Qed.

End MultipartFacts.

Section UploadFacts.

Context (E : Env).

Lemma substring_all (s : string) : String.substring 0 (String.length s) s = s.
Proof. induction s as [|a s IH]; simpl; [reflexivity | now rewrite IH]. Qed.

(** A value [@file:<path>] with a non-empty path is a file reference, and
    the path is what follows the marker. *)
Lemma isFileRef_marker (path : string) :
  path <> "" ->
  isFileRef ("@file:" ++ path) = true /\ sliceFrom ("@file:" ++ path) 6 = path.
Proof.
  intros Hne. split.
  - unfold isFileRef. apply andb_true_iff.
    split; [|unfold slice; simpl; now destruct path].
    destruct path as [|a p]; [congruence|].
    apply Z.ltb_lt. unfold len. simpl String.length. lia.
  - unfold sliceFrom. simpl. rewrite Nat.sub_0_r. apply substring_all.
Qed.

Lemma lookup_In {A} (l : list A) (i : nat) (x : A) : l !! i = Some x -> In x l.
Proof. intros H. apply list_elem_of_In, list_elem_of_lookup. eauto. Qed.

(** A parameter string one of whose items carries an upload marker holds
    the marker. *)
Lemma marker_in_param (param item path : string) :
  In item (Split param "&"%char) ->
  Split item "="%char !! 1%nat = Some ("@file:" ++ path)%string ->
  Contains param "@file:" = true.
Proof.
  intros Hin Hv.
  apply (Contains_Split param "&"%char item); [exact Hin|].
  apply (Contains_Split item "="%char ("@file:" ++ path)); [now apply lookup_In in Hv|].
  apply Contains_prefix. apply (prefix_app "@file:" "@file:" path). reflexivity.
Qed.

Lemma writeItems_panic_kind items : forall w st p st',
  writeItems E items w st = Panic p st' -> p = IndexOutOfRange.
Proof.
  induction items as [|item rest IH]; intros w st p st'; [discriminate|].
  rewrite writeItems_step.
  destruct (_ !! 1%nat) as [a1|]; [|now intros [= <- _]].
  destruct (_ !! 0%nat) as [a0|]; [|now intros [= <- _]].
  destruct (isFileRef a1).
  - destruct (negb _); [discriminate|].
    destruct (multipart_CreateFormFile E _ _); [discriminate|].
    destruct (os_Open E _) as [e|f]; [discriminate|].
    destruct (io_Copy E f) as [e|content]; [discriminate | apply IH].
  - destruct (multipart_WriteField E a0 a1); [discriminate | apply IH].
Qed.

(** The loop never completes over a list that holds a reference to a
    missing file. *)
Lemma writeItems_missing_blocks pre item post path w st :
  Split item "="%char !! 1%nat = Some ("@file:" ++ path)%string ->
  path <> "" ->
  gfile_Exists E path = false ->
  match writeItems E (pre ++ item :: post) w st with
  | Ret (inr _) _ => False
  | Ret (inl _) _ => True
  | Panic p _ => p = IndexOutOfRange
  end.
Proof.
  intros Hv Hne Hx. destruct (isFileRef_marker path Hne) as [Hf Hp].
  rewrite writeItems_app.
  destruct (writeItems E pre w st) as [[e|w1] st1|p st1] eqn:Hpre; [exact I| |].
  - rewrite (writeItems_missing_file E item post w1 st1 _ Hv Hf)
      by now rewrite Hp.
    exact I.
  - eapply writeItems_panic_kind, Hpre.
Qed.

End UploadFacts.

(** ** Index safety of the multipart loop *)

(** C9.  In the multipart loop each item is split on '=' and element 1 is
    read first.  The read is in bounds for every item when every item
    holds an '=', and then the loop returns; an item without '=' makes the
    loop panic with an index out of range.  The panic is reachable from
    the public entry point: a POST of the string [@file:x] under a
    configured application/json Content-Type panics in [DoRequest]. *)
Theorem multipart_index_safety :
  (forall (E : Env) items w st,
      (forall item, In item items -> Contains item "=" = true) ->
      exists r st', writeItems E items w st = Ret r st')
  /\ (forall (E : Env) item rest w st,
        Contains item "=" = false ->
        writeItems E (item :: rest) w st = Panic IndexOutOfRange st)
  /\ (forall (E : Env) mw url st,
        header (client st) !! "Content-Type" = Some "application/json" ->
        DoRequest E mw "POST" url [VString "@file:x"] st
        = Panic IndexOutOfRange st).
Proof.
  split; [|split].
  - intros E items w st H. now apply writeItems_returns.
  - intros E item rest w st H. now apply writeItems_no_separator.
  - intros E mw url st H. apply DoRequest_construction_panic.
    rewrite prepareRequest_unfold.
    assert (encodeParams E (client st) [VString "@file:x"] = inr "@file:x") as ->
      by (unfold encodeParams; now rewrite H).
    change (ToUpper E "POST") with "POST".
    now rewrite buildRequest_multipart.
Qed.

Lemma multipart_index_safety_witness :
  DoRequest (Scenario.env Scenario.refusing) [] "POST" Scenario.site
    [VString "@file:x"] (Scenario.start Scenario.jsonClient)
  = Panic IndexOutOfRange (Scenario.start Scenario.jsonClient).
Proof.
  exact (proj2 (proj2 multipart_index_safety) (Scenario.env Scenario.refusing) []
           Scenario.site (Scenario.start Scenario.jsonClient) eq_refl).
Defined.

(** ** Uploads of missing files *)

(** C2, as the code has it.  On a non-GET call whose parameter string has
    an item with the value [@file:<path>], [<path>] not empty and missing
    from the filesystem: the call never reaches the transport (it ends in
    an error return or in the index panic of an earlier malformed item,
    having at most logged).  The first item that fails ends the call:
    when the items before the one naming [<path>] were all written, the
    error returned is the "does not exist" error naming [<path>]; when
    an earlier item fails after those before it were written, the error
    returned is that item's; when an earlier item has no '=', the call
    panics there.  One of the three is always the case. *)
Theorem missing_upload_sends_nothing (E : Env) (mw : list ClientHandlerFunc)
  (method url : string) (data : list Value) (st : State)
  (param : string) (pre : list string) (item : string) (post : list string)
  (path : string) :
  String.eqb (ToUpper E method) "GET" = false ->
  encodeParams E (client st) data = inr param ->
  Split param "&"%char = (pre ++ item :: post)%list ->
  Split item "="%char !! 1%nat = Some ("@file:" ++ path) ->
  path <> "" ->
  gfile_Exists E path = false ->
  let run := DoRequest E mw method url data st in
  ((exists err, run = Ret (None, Some err) (finalState run))
   \/ run = Panic IndexOutOfRange (finalState run))
  /\ logsOnly st (finalState run)
  /\ sends (trace (finalState run)) = sends (trace st)
  /\ (forall w st1,
        writeItems E pre [] st = Ret (inr w) st1 ->
        run = Ret (None, Some (notExist path)) st1)
  /\ (forall ok bad more w st1 e,
        pre = (ok ++ bad :: more)%list ->
        writeItems E ok [] st = Ret (inr w) st1 ->
        itemError E bad = Some e ->
        exists st2, run = Ret (None, Some e) st2 /\ logsOnly st1 st2)
  /\ (forall ok bad more w st1,
        pre = (ok ++ bad :: more)%list ->
        writeItems E ok [] st = Ret (inr w) st1 ->
        Contains bad "=" = false ->
        run = Panic IndexOutOfRange st1)
  /\ ((exists w st1, writeItems E pre [] st = Ret (inr w) st1)
      \/ (exists ok bad more w st1,
            pre = (ok ++ bad :: more)%list
            /\ writeItems E ok [] st = Ret (inr w) st1
            /\ (is_Some (itemError E bad) \/ Contains bad "=" = false))).
Proof.
  intros Hm Hp Hsplit Hv Hne Hx run.
  assert (Hc : Contains param "@file:" = true).
  { apply (marker_in_param param item path); [|exact Hv].
    rewrite Hsplit. apply in_or_app. right. now left. }
  pose proof (writeItems_missing_blocks E pre item post path [] st Hv Hne Hx) as Hb.
  pose proof (writeItems_logsOnly E (pre ++ item :: post) [] st) as Hl.
  assert (Hprep : prepareRequest E method url data st =
                  match writeItems E (pre ++ item :: post) [] st with
                  | Ret (inl err) st' => Ret (None, Some err) st'
                  | Ret (inr _) st' => Panic NilDereference st'
                  | Panic p st' => Panic p st'
                  end).
  { rewrite prepareRequest_unfold, Hp.
    rewrite (buildRequest_multipart E _ _ _ _ st Hm Hc), Hsplit.
    destruct (writeItems E (pre ++ item :: post) [] st) as [[e|w] st'|p st'];
      try reflexivity.
    destruct Hb. }
  assert (Hrun : run = match writeItems E (pre ++ item :: post) [] st with
                       | Ret (inl err) st' => Ret (None, Some err) st'
                       | Ret (inr _) st' => Panic NilDereference st'
                       | Panic p st' => Panic p st'
                       end).
  { unfold run.
    destruct (writeItems E (pre ++ item :: post) [] st) as [[e|w] st'|p st'].
    - now apply DoRequest_construction_error.
    - destruct Hb.
    - now apply DoRequest_construction_panic. }
  split; [|split; [|split; [|split; [|split; [|split]]]]].
  - rewrite Hrun.
    destruct (writeItems E (pre ++ item :: post) [] st) as [[e|w] st'|p st'].
    + left. now exists e.
    + destruct Hb.
    + right. now rewrite Hb.
  - rewrite Hrun.
    destruct (writeItems E (pre ++ item :: post) [] st) as [[e|w] st'|p st'];
      [exact Hl | destruct Hb | exact Hl].
  - apply logsOnly_sends. rewrite Hrun.
    destruct (writeItems E (pre ++ item :: post) [] st) as [[e|w] st'|p st'];
      [exact Hl | destruct Hb | exact Hl].
  - intros w st1 Hpre. rewrite Hrun, writeItems_app, Hpre.
    destruct (isFileRef_marker path Hne) as [Hf Hs].
    rewrite (writeItems_missing_file E item post w st1 _ Hv Hf)
      by now rewrite Hs.
    now rewrite Hs.
  - intros ok bad more w st1 e -> Hok Hbad.
    destruct (writeItems_itemError E bad (more ++ item :: post) w st1 e Hbad)
      as (st2 & Hw & Hl2).
    exists st2. split; [|exact Hl2].
    rewrite Hrun, <- app_assoc, writeItems_app, Hok, <- app_comm_cons.
    now rewrite Hw.
  - intros ok bad more w st1 -> Hok Hbad.
    rewrite Hrun, <- app_assoc, writeItems_app, Hok, <- app_comm_cons.
    now rewrite (writeItems_no_separator E bad _ w st1 Hbad).
  - apply writeItems_first_failure.
Qed.

Lemma missing_upload_sends_nothing_witness :
  DoRequest (Scenario.env Scenario.refusing) [] "POST" Scenario.site
    [VString "a=1&b=@file:/missing"] (Scenario.start Scenario.client0)
  = Ret (None, Some (notExist "/missing")) (Scenario.start Scenario.client0).
Proof.
  refine (proj1 (proj2 (proj2 (proj2
    (missing_upload_sends_nothing (Scenario.env Scenario.refusing) [] "POST"
       Scenario.site [VString "a=1&b=@file:/missing"]
       (Scenario.start Scenario.client0) "a=1&b=@file:/missing"
       ["a=1"] "b=@file:/missing" [] "/missing"
       eq_refl eq_refl eq_refl eq_refl _ eq_refl))))
    [FormField "a" "1"] (Scenario.start Scenario.client0) eq_refl).
  discriminate.
Defined.

(** C2, as worded, fails when an earlier item aborts the loop first: with
    [/tmp] a directory (it exists and opens, reading it fails) and
    [/missing] absent, the error returned is the read error of [/tmp]; it
    does not name [/missing]. *)
Lemma missing_upload_counterexample :
  gfile_Exists (Scenario.env Scenario.refusing) "/missing" = false
  /\ Split "a=@file:/tmp&b=@file:/missing" "&"%char
     = ["a=@file:/tmp"; "b=@file:/missing"]
  /\ Split "b=@file:/missing" "="%char !! 1%nat = Some "@file:/missing"
  /\ DoRequest (Scenario.env Scenario.refusing) [] "POST" Scenario.site
       [VString "a=@file:/tmp&b=@file:/missing"] (Scenario.start Scenario.client0)
     = Ret (None, Some (errors_New "read /tmp: is a directory"))
           (Scenario.start Scenario.client0).
Proof. repeat split. Qed.

(** ** One body per request *)

(** C3, as the code has it.  A request that [prepareRequest] returns has
    exactly one of three bodies, and the method together with the encoded
    parameter string decides which: empty for GET; for another method,
    the multipart message written from the string's '&'-items when the
    string holds the upload marker, and the string itself as raw bytes
    when it does not.  Which encoder produced the string plays no part. *)
Theorem body_is_one_of (E : Env) (method url : string) (data : list Value)
  (st : State) (req : Request) (err : option error) (st' : State) :
  prepareRequest E method url data st = Ret (Some req, err) st' ->
  exists param,
    encodeParams E (client st) data = inr param
    /\ ((ToUpper E method = "GET" /\ ReqBody req = RawBody "")
        \/ (ToUpper E method <> "GET" /\ Contains param "@file:" = true
            /\ exists parts,
                writeItems E (Split param "&"%char) [] st = Ret (inr parts) st'
                /\ ReqBody req = MultipartBody (multipart_Boundary E) parts)
        \/ (ToUpper E method <> "GET" /\ Contains param "@file:" = false
            /\ ReqBody req = RawBody param)).
Proof.
  intros Hrun.
  destruct (prepareRequest_shape E _ _ _ _ _ _ _ Hrun) as (param & Hp & Hshape).
  exists param. split; [exact Hp|].
  destruct (String.eqb (ToUpper E method) "GET") eqn:Hm.
  - left. apply String.eqb_eq in Hm. now destruct Hshape.
  - right. apply String.eqb_neq in Hm. destruct Hshape as [_ Hshape].
    destruct (Contains param "@file:").
    + left. split; [exact Hm|]. split; [reflexivity | exact Hshape].
    + right. now repeat split.
Qed.

Lemma body_is_one_of_witness :
  prepareRequest (Scenario.env Scenario.refusing) "POST" Scenario.site
    [VString "a=1"] (Scenario.start Scenario.client0)
  = Ret (Some Scenario.formPost, None) (Scenario.start Scenario.client0)
  /\ ReqBody Scenario.formPost = RawBody "a=1"
  /\ exists param,
      encodeParams (Scenario.env Scenario.refusing)
        (client (Scenario.start Scenario.client0)) [VString "a=1"] = inr param
      /\ ((ToUpper (Scenario.env Scenario.refusing) "POST" = "GET" /\ ReqBody Scenario.formPost = RawBody "")
          \/ (ToUpper (Scenario.env Scenario.refusing) "POST" <> "GET" /\ Contains param "@file:" = true
              /\ exists parts,
                  writeItems (Scenario.env Scenario.refusing)
                    (Split param "&"%char) [] (Scenario.start Scenario.client0)
                  = Ret (inr parts) (Scenario.start Scenario.client0)
                  /\ ReqBody Scenario.formPost
                     = MultipartBody
                         (multipart_Boundary (Scenario.env Scenario.refusing))
                         parts)
          \/ (ToUpper (Scenario.env Scenario.refusing) "POST" <> "GET" /\ Contains param "@file:" = false
              /\ ReqBody Scenario.formPost = RawBody param)).
Proof.
  split; [reflexivity|]. split; [reflexivity|].
  exact (body_is_one_of (Scenario.env Scenario.refusing) "POST" Scenario.site
           [VString "a=1"] (Scenario.start Scenario.client0)
           Scenario.formPost None (Scenario.start Scenario.client0) eq_refl).
Defined.

(** C3, as worded, fails: under a configured application/json
    Content-Type the string [a=@file:/etc/hosts] is passed through as the
    JSON body, and the request that is built carries a multipart body in
    which the string was read as the form field [a] with a file upload. *)
Lemma passthrough_becomes_multipart_counterexample :
  header Scenario.jsonClient !! "Content-Type" = Some "application/json"
  /\ encodeParams (Scenario.env Scenario.refusing) Scenario.jsonClient
       [VString "a=@file:/etc/hosts"] = inr "a=@file:/etc/hosts"
  /\ builtBody (prepareRequest (Scenario.env Scenario.refusing) "POST"
                  Scenario.site [VString "a=@file:/etc/hosts"]
                  (Scenario.start Scenario.jsonClient))
     = Some (MultipartBody "b0undary"
               [FormFile "a" "hosts" "127.0.0.1 localhost"]).
Proof. repeat split. Qed.

(** ** The retry loop *)

Section RetryFacts.

Context (E : Env).

(** The loop, one iteration unfolded. *)
Lemma callLoop_step (req : Request) (body : ReadCloser) (resp : ClientResponse)
  (st : State) :
  callLoop E req body resp st =
  match do_err (http_Do E (sent st) req) with
  | None =>
      Ret (Some (withResponse resp (do_resp (http_Do E (sent st) req))), None)
          (afterSend E req body st)
  | Some err =>
      if 0 <? retryCount (client st)
      then callLoop E req (readBytes body (do_read (http_Do E (sent st) req)))
             (withResponse resp (do_resp (http_Do E (sent st) req)))
             (retrying (afterSend E req body st))
      else Ret (Some (withResponse resp (do_resp (http_Do E (sent st) req))),
                Some err)
               (afterSend E req body st)
  end.
Proof.
  rewrite callLoop_equation_1.
  destruct (do_err (http_Do E (sent st) req)) as [err|].
  - rewrite callLoop_clause_1_equation_1.
    destruct (Z_lt_dec 0 (retryCount (client (afterSend E req body st)))) as [l|n].
    + rewrite callLoop_clause_1_clause_2_equation_1.
      simpl in l. apply Z.ltb_lt in l. now rewrite l.
    + rewrite callLoop_clause_1_clause_2_equation_2.
      simpl in n. apply Z.ltb_nlt in n. now rewrite n.
  - now rewrite callLoop_clause_1_equation_2.
Qed.

Lemma schedule_app (l1 l2 : list Event) :
  schedule (l1 ++ l2) = (schedule l1 ++ schedule l2)%list.
Proof. apply flat_map_app. Qed.

Lemma schedule_closeEvents (r : DoResult) : schedule (closeEvents E r) = [].
Proof.
  unfold closeEvents.
  destruct (do_err r); [|reflexivity].
  destruct (do_resp r) as [resp|]; [|reflexivity].
  simpl. now destruct (body_Close E resp).
Qed.

Lemma schedule_attempt (req : Request) (body : ReadCloser) (i : nat) :
  schedule (attemptEvents E req body i) = [Send req].
Proof.
  unfold attemptEvents.
  change (schedule (EvSend req body :: closeEvents E (http_Do E i req)))
    with (Send req :: schedule (closeEvents E (http_Do E i req))).
  now rewrite schedule_closeEvents.
Qed.

Lemma failedRun_unfold (req : Request) (d : Z) (k i : nat) (body : ReadCloser) :
  failedRun E req d (S k) i body
  = (attemptEvents E req body i
     ++ EvSleep d
        :: failedRun E req d k (S i)
             (readBytes body (do_read (http_Do E i req))))%list.
Proof. reflexivity. Qed.

Lemma schedule_failedRun (req : Request) (d : Z) (k : nat) : forall i body,
  schedule (failedRun E req d k i body) = retryPattern req d k.
Proof.
  unfold retryPattern. induction k as [|k IH]; intros i body.
  - apply schedule_attempt.
  - rewrite failedRun_unfold, schedule_app, schedule_attempt.
    change (schedule (EvSleep d :: ?l)) with (Sleep d :: schedule l).
    now rewrite IH.
Qed.

Lemma counts_app (l1 l2 : list Event) :
  sends (l1 ++ l2) = (sends l1 + sends l2)%nat
  /\ retries (l1 ++ l2) = (retries l1 + retries l2)%nat.
Proof.
  unfold sends, retries, sleeps. now rewrite !List.filter_app, !length_app.
Qed.

Lemma attempt_counts (req : Request) (body : ReadCloser) (i : nat) :
  sends (attemptEvents E req body i) = 1%nat
  /\ retries (attemptEvents E req body i) = 0%nat.
Proof.
  unfold attemptEvents, closeEvents, sends, retries, sleeps. simpl.
  destruct (do_err _); [|easy].
  destruct (do_resp _) as [r|]; [|easy].
  simpl. now destruct (body_Close E r).
Qed.

Lemma failedRun_counts (req : Request) (d : Z) (k i : nat) (body : ReadCloser) :
  sends (failedRun E req d k i body) = S k
  /\ retries (failedRun E req d k i body) = k.
Proof.
  revert i body. induction k as [|k IH]; intros i body.
  - apply attempt_counts.
  - rewrite failedRun_unfold.
    destruct (counts_app (attemptEvents E req body i)
                (EvSleep d :: failedRun E req d k (S i)
                                (readBytes body (do_read (http_Do E i req)))))
      as [-> ->].
    destruct (attempt_counts req body i) as [-> ->].
    destruct (IH (S i) (readBytes body (do_read (http_Do E i req)))) as [H1 H2].
    unfold sends, retries, sleeps in *. simpl. now rewrite H1, H2.
Qed.

(** A run in which every send fails: the budget is spent to the last
    retry, then the loop stops with the outcome of the last send. *)
Lemma callLoop_failing (req : Request) :
  forall (n : nat) (body : ReadCloser) (resp : ClientResponse) (st : State),
    Z.to_nat (retryCount (client st)) = n ->
    alwaysFails E req (sent st) ->
    exists st',
      callLoop E req body resp st
      = Ret (Some (withResponse resp (do_resp (http_Do E (sent st + n) req))),
             do_err (http_Do E (sent st + n) req)) st'
      /\ client st'
         = withRetryCount (client st) (retryCount (client st) - Z.of_nat n)
      /\ sent st' = (sent st + n + 1)%nat
      /\ trace st'
         = (trace st
            ++ failedRun E req (retryInterval (client st)) n (sent st) body)%list.
Proof.
  induction n as [|n IH]; intros body resp st Hn Hfail.
  - rewrite callLoop_step, Nat.add_0_r.
    destruct (do_err (http_Do E (sent st) req)) as [err|] eqn:He;
      [|now destruct (Hfail (sent st) (Nat.le_refl _))].
    replace (0 <? retryCount (client st)) with false
      by (symmetry; apply Z.ltb_nlt; lia).
    eexists. split; [reflexivity|]. simpl. repeat split.
    + rewrite Z.sub_0_r. now destruct (client st).
    + lia.
  - rewrite callLoop_step.
    destruct (do_err (http_Do E (sent st) req)) as [err|] eqn:He;
      [|now destruct (Hfail (sent st) (Nat.le_refl _))].
    replace (0 <? retryCount (client st)) with true
      by (symmetry; apply Z.ltb_lt; lia).
    destruct (IH (readBytes body (do_read (http_Do E (sent st) req)))
                 (withResponse resp (do_resp (http_Do E (sent st) req)))
                 (retrying (afterSend E req body st)))
      as (st' & Hrun & Hc & Hs & Ht).
    { simpl. lia. }
    { intros i Hi. apply Hfail. simpl in Hi. lia. }
    exists st'. simpl in Hrun, Hc, Hs, Ht.
    replace (sent st + S n)%nat with (S (sent st) + n)%nat by lia.
    split; [exact Hrun|]. repeat split.
    + rewrite Hc. unfold withRetryCount. simpl. f_equal. lia.
    + lia.
    + rewrite Ht, failedRun_unfold.
      unfold attemptEvents. now rewrite <- !app_assoc.
Qed.

(** Whatever the transport does, the loop returns a wrapper, and what it
    took from the budget is one unit per retry. *)
Lemma callLoop_budget (req : Request) :
  forall (n : nat) (body : ReadCloser) (resp : ClientResponse) (st : State),
    Z.to_nat (retryCount (client st)) = n ->
    exists cr err st' new,
      callLoop E req body resp st = Ret (Some cr, err) st'
      /\ trace st' = (trace st ++ new)%list
      /\ client st'
         = withRetryCount (client st)
             (retryCount (client st) - Z.of_nat (retries new))
      /\ sends new = S (retries new)
      /\ sent st' = (sent st + sends new)%nat
      /\ Response_ cr = do_resp (http_Do E (sent st + retries new) req)
      /\ err = do_err (http_Do E (sent st + retries new) req).
Proof.
  induction n as [|n IH]; intros body resp st Hn.
  - rewrite callLoop_step.
    replace (0 <? retryCount (client st)) with false
      by (symmetry; apply Z.ltb_nlt; lia).
    assert (Hone : sends (attemptEvents E req body (sent st)) = 1%nat
                   /\ retries (attemptEvents E req body (sent st)) = 0%nat).
    { apply attempt_counts. }
    destruct Hone as [H1 H0].
    destruct (do_err (http_Do E (sent st) req)) as [err|] eqn:He;
      do 3 eexists; exists (attemptEvents E req body (sent st));
      (split; [reflexivity|]); rewrite H1, H0, Nat.add_0_r, Z.sub_0_r; simpl;
      repeat split; try lia; try (now destruct (client st)); now rewrite He.
  - rewrite callLoop_step.
    assert (Hone : sends (attemptEvents E req body (sent st)) = 1%nat
                   /\ retries (attemptEvents E req body (sent st)) = 0%nat).
    { apply attempt_counts. }
    destruct Hone as [H1 H0].
    destruct (do_err (http_Do E (sent st) req)) as [err|] eqn:He.
    + replace (0 <? retryCount (client st)) with true
        by (symmetry; apply Z.ltb_lt; lia).
      destruct (IH (readBytes body (do_read (http_Do E (sent st) req)))
                   (withResponse resp (do_resp (http_Do E (sent st) req)))
                   (retrying (afterSend E req body st)))
        as (cr & err' & st' & new & Hrun & Ht & Hc & Hs & Hsent & Hr & Herr).
      { simpl. lia. }
      simpl in Ht, Hc, Hsent, Hr, Herr.
      exists cr, err', st',
        (attemptEvents E req body (sent st) ++ EvSleep (retryInterval (client st)) :: new)%list.
      assert (Hsends : sends (attemptEvents E req body (sent st)
                              ++ EvSleep (retryInterval (client st)) :: new)
                       = S (sends new)).
      { unfold sends in *. rewrite List.filter_app, length_app, H1. reflexivity. }
      assert (Hretries : retries (attemptEvents E req body (sent st)
                                  ++ EvSleep (retryInterval (client st)) :: new)
                         = S (retries new)).
      { unfold retries, sleeps in *. rewrite List.filter_app, length_app, H0.
        reflexivity. }
      rewrite Hsends, Hretries.
      split; [exact Hrun|]. repeat split.
      * rewrite Ht. unfold attemptEvents. now rewrite <- !app_assoc.
      * rewrite Hc. unfold withRetryCount. simpl. f_equal. lia.
      * lia.
      * lia.
      * rewrite Hr. f_equal. f_equal. lia.
      * rewrite Herr. f_equal. f_equal. lia.
    + do 3 eexists; exists (attemptEvents E req body (sent st)).
      split; [reflexivity|]. rewrite H1, H0, Nat.add_0_r, Z.sub_0_r. simpl.
      repeat split; try lia; try (now destruct (client st)); now rewrite He.
Qed.

Lemma callRequest_unfold (req : Request) (st : State) :
  callRequest E req st
  = callLoop E req (bodyReader E req) (mkClientResponse None req (ReqBody req)) st.
Proof. reflexivity. Qed.

End RetryFacts.

(** ** Attempts, sleeps and the last error *)

(** C1.  With the client's retry count at [N >= 0] and a transport that
    fails every send, [callRequest] sends exactly [N+1] times, sleeps the
    client's retry interval after each send but the last, and returns the
    error of the last send (send number [N] of the call). *)
Theorem callRequest_attempts (E : Env) (req : Request) (st : State) (N : Z) :
  retryCount (client st) = N ->
  0 <= N ->
  alwaysFails E req (sent st) ->
  exists cr err st' new,
    callRequest E req st = Ret (Some cr, Some err) st'
    /\ trace st' = (trace st ++ new)%list
    /\ Z.of_nat (sends new) = N + 1
    /\ schedule new = retryPattern req (retryInterval (client st)) (Z.to_nat N)
    /\ do_err (http_Do E (sent st + Z.to_nat N) req) = Some err
    /\ sent st' = (sent st + sends new)%nat.
Proof.
  intros HN Hpos Hfail. unfold callRequest.
  destruct (callLoop_failing E req (Z.to_nat N) (bodyReader E req)
                (mkClientResponse None req (ReqBody req)) st)
    as (st' & Hrun & Hc & Hs & Ht); [now rewrite HN | exact Hfail |].
  destruct (do_err (http_Do E (sent st + Z.to_nat N) req)) as [err|] eqn:He.
  2:{ destruct (Hfail (sent st + Z.to_nat N)%nat); [lia | exact He]. }
  destruct (failedRun_counts E req (retryInterval (client st)) (Z.to_nat N) (sent st)
                (bodyReader E req))
    as [Hsends _].
  eexists _, err, st', _. split; [exact Hrun|].
  split; [exact Ht|]. rewrite Hsends, schedule_failedRun.
  repeat split; lia.
Qed.

Lemma callRequest_attempts_witness :
  exists cr err st' new,
    callRequest (Scenario.env Scenario.refusing) Scenario.getSite
      (Scenario.start (Scenario.retryClient 2))
    = Ret (Some cr, Some err) st'
    /\ trace st' = ([] ++ new)%list
    /\ Z.of_nat (sends new) = 2 + 1
    /\ schedule new = retryPattern Scenario.getSite 500 2
    /\ Some (errors_New "i/o timeout") = Some err
    /\ sent st' = (0 + sends new)%nat.
Proof.
  refine (callRequest_attempts (Scenario.env Scenario.refusing) Scenario.getSite
            (Scenario.start (Scenario.retryClient 2)) 2 eq_refl _ _).
  - lia.
  - intros i _. discriminate.
Defined.

(** ** The retry budget lives in the client *)

(** C8.  [callRequest] always returns, and leaves the client as it was
    except for [retryCount], which it lowered by one per retry and never
    raised back.  So of two calls in a row on a client with retry count
    [N >= 0] against a transport that fails every send, the first sends
    [N+1] times and leaves the count at 0, and the second sends once and
    does not retry. *)
Theorem retry_budget_is_client_state :
  (forall (E : Env) req st,
      exists res st' new,
        callRequest E req st = Ret res st'
        /\ trace st' = (trace st ++ new)%list
        /\ sends new = S (retries new)
        /\ retryCount (client st')
           = retryCount (client st) - Z.of_nat (retries new)
        /\ client st' = withRetryCount (client st) (retryCount (client st')))
  /\ (forall (E : Env) req1 req2 st N,
        retryCount (client st) = N ->
        0 <= N ->
        alwaysFails E req1 (sent st) ->
        alwaysFails E req2 (sent st) ->
        exists res1 st1 new1 res2 st2 new2,
          callRequest E req1 st = Ret res1 st1
          /\ trace st1 = (trace st ++ new1)%list
          /\ Z.of_nat (sends new1) = N + 1
          /\ retryCount (client st1) = 0
          /\ callRequest E req2 st1 = Ret res2 st2
          /\ trace st2 = (trace st1 ++ new2)%list
          /\ sends new2 = 1%nat
          /\ retries new2 = 0%nat).
Proof.
  split.
  - intros E req st. unfold callRequest.
    destruct (callLoop_budget E req _ (bodyReader E req) (mkClientResponse None req (ReqBody req))
                st eq_refl)
      as (cr & err & st' & new & Hrun & Ht & Hc & Hs & _).
    exists (Some cr, err), st', new. rewrite Hc. now repeat split.
  - intros E req1 req2 st N HN Hpos Hf1 Hf2. unfold callRequest.
    destruct (callLoop_failing E req1 (Z.to_nat N) (bodyReader E req1)
                (mkClientResponse None req1 (ReqBody req1)) st)
      as (st1 & Hrun1 & Hc1 & Hs1 & Ht1); [now rewrite HN | exact Hf1 |].
    assert (Hrc : retryCount (client st1) = 0) by (rewrite Hc1; simpl; lia).
    destruct (callLoop_failing E req2 0 (bodyReader E req2)
                (mkClientResponse None req2 (ReqBody req2)) st1)
      as (st2 & Hrun2 & Hc2 & Hs2 & Ht2).
    { now rewrite Hrc. }
    { intros i Hi. apply Hf2. lia. }
    destruct (failedRun_counts E req1 (retryInterval (client st)) (Z.to_nat N) (sent st)
                (bodyReader E req1))
      as [Hsends1 _].
    destruct (failedRun_counts E req2 (retryInterval (client st1)) 0 (sent st1)
                (bodyReader E req2))
      as [Hsends2 Hretries2].
    do 6 eexists.
    split; [exact Hrun1|]. split; [exact Ht1|].
    split; [rewrite Hsends1; lia|]. split; [exact Hrc|].
    split; [exact Hrun2|]. split; [exact Ht2|].
    split; [exact Hsends2 | exact Hretries2].
Qed.

Lemma retry_budget_is_client_state_witness :
  exists res1 st1 new1 res2 st2 new2,
    callRequest (Scenario.env Scenario.refusing) Scenario.getSite
      (Scenario.start (Scenario.retryClient 2)) = Ret res1 st1
    /\ trace st1 = ([] ++ new1)%list
    /\ Z.of_nat (sends new1) = 2 + 1
    /\ retryCount (client st1) = 0
    /\ callRequest (Scenario.env Scenario.refusing) Scenario.getSite st1
       = Ret res2 st2
    /\ trace st2 = (trace st1 ++ new2)%list
    /\ sends new2 = 1%nat
    /\ retries new2 = 0%nat.
Proof.
  refine (proj2 retry_budget_is_client_state (Scenario.env Scenario.refusing)
            Scenario.getSite Scenario.getSite
            (Scenario.start (Scenario.retryClient 2)) 2 eq_refl _ _ _).
  - lia.
  - intros i _. discriminate.
  - intros i _. discriminate.
Defined.

(** ** After the call: cookies *)

Section CookieFacts.

Context (E : Env).

Lemma saveCookies_off (resp : option ClientResponse) (st : State) :
  browserMode (client st) = false -> saveCookies resp st = Ret tt st.
Proof. intros H. unfold saveCookies, bind, get. now rewrite H. Qed.

Lemma saveCookies_nil_wrapper (st : State) : saveCookies None st = Ret tt st.
Proof. unfold saveCookies, bind, get. now destruct (browserMode (client st)). Qed.

Lemma saveCookies_nil_response (cr : ClientResponse) (st : State) :
  browserMode (client st) = true -> Response_ cr = None ->
  saveCookies (Some cr) st = Panic NilDereference st.
Proof. intros H Hr. unfold saveCookies, bind, get. now rewrite H, Hr. Qed.

Lemma saveCookies_sync (cr : ClientResponse) (r : Response) (st : State) :
  browserMode (client st) = true -> Response_ cr = Some r ->
  saveCookies (Some cr) st
  = Ret tt (withStore st (syncCookies (now st) (cookies (client st)) (Cookies r))).
Proof. intros H Hr. unfold saveCookies, bind, get. now rewrite H, Hr. Qed.

(** [DoRequest] once the request is built. *)
Lemma DoRequest_dispatch mw method url data st req st1 :
  prepareRequest E method url data st = Ret (Some req, None) st1 ->
  DoRequest E mw method url data st =
  match dispatch E mw (traced req) st1 with
  | Ret r st2 =>
      match saveCookies (fst r) st2 with
      | Ret _ st3 => Ret r st3
      | Panic p st3 => Panic p st3
      end
  | Panic p st2 => Panic p st2
  end.
Proof.
  intros H. unfold DoRequest. rewrite (bind_Ret _ _ _ _ _ H).
  unfold bind. destruct (dispatch E mw (traced req) st1) as [r st2|]; [|reflexivity].
  now destruct (saveCookies (fst r) st2).
Qed.

Lemma wrap64_inInt64 (x : Z) : Time.inInt64 x -> Time.wrap64 x = x.
Proof.
  unfold Time.inInt64, Time.wrap64. intros H.
  rewrite Z.mod_small by lia. lia.
Qed.

(** Without an expiry, or between the years 1678 and 2262, the test of
    line 139 is the order of instants. *)
Lemma expired_plain (now : Time.t) (v : Cookie) :
  Time.inInt64 now -> plainExpiry v ->
  expired now v = pastExpiry now v.
Proof.
  intros Hn [Hz|Hv]; unfold expired, pastExpiry, Time.UnixNano, Time.Before.
  - now rewrite Hz.
  - now rewrite !wrap64_inInt64.
Qed.

Lemma syncCookies_snoc now store vs v :
  syncCookies now store (vs ++ [v]) = syncCookie now (syncCookies now store vs) v.
Proof. unfold syncCookies. now rewrite fold_left_app. Qed.

End CookieFacts.

(** ** A wrapper without a response *)

(** C10.  [callRequest] always returns a wrapper, whose response and
    error are those of its last send; the response may be nil.
    [DoRequest] in browser mode reads the cookies of that response after
    checking the wrapper only, so a wrapper without a response is a nil
    dereference; a GET against a transport that refuses the connection
    runs into it. *)
Theorem nil_response_dereference :
  (forall (E : Env) req st,
      exists cr err st' k,
        callRequest E req st = Ret (Some cr, err) st'
        /\ Response_ cr = do_resp (http_Do E (sent st + k) req)
        /\ err = do_err (http_Do E (sent st + k) req)
        /\ sent st' = S (sent st + k))
  /\ (forall (E : Env) method url data st req st1 cr err st2,
        prepareRequest E method url data st = Ret (Some req, None) st1 ->
        callRequest E (traced req) st1 = Ret (Some cr, err) st2 ->
        browserMode (client st2) = true ->
        Response_ cr = None ->
        DoRequest E [] method url data st = Panic NilDereference st2)
  /\ (exists st',
        browserMode (client (Scenario.start (Scenario.browser ∅))) = true
        /\ DoRequest (Scenario.env Scenario.refusing) [] "GET" Scenario.site []
             (Scenario.start (Scenario.browser ∅))
           = Panic NilDereference st').
Proof.
  split; [|split].
  - intros E req st. unfold callRequest.
    destruct (callLoop_budget E req _ (bodyReader E req) (mkClientResponse None req (ReqBody req))
                st eq_refl)
      as (cr & err & st' & new & Hrun & _ & _ & Hs & Hsent & Hr & He).
    exists cr, err, st', (retries new). repeat split; try assumption. lia.
  - intros E method url data st req st1 cr err st2 Hprep Hcall Hb Hnil.
    rewrite (DoRequest_dispatch E [] _ _ _ _ _ _ Hprep).
    unfold dispatch. simpl. rewrite Hcall. simpl.
    now rewrite (saveCookies_nil_response cr st2 Hb Hnil).
  - eexists. split; reflexivity.
Qed.

Lemma nil_response_dereference_witness :
  DoRequest (Scenario.env Scenario.refusing) [] "GET" Scenario.site []
    (Scenario.start (Scenario.browser ∅))
  = Panic NilDereference
      (afterSend (Scenario.env Scenario.refusing) Scenario.getSite
         (bodyReader (Scenario.env Scenario.refusing) Scenario.getSite)
         (Scenario.start (Scenario.browser ∅))).
Proof.
  exact (proj1 (proj2 nil_response_dereference)
           (Scenario.env Scenario.refusing) "GET" Scenario.site []
           (Scenario.start (Scenario.browser ∅))
           (mkRequest "GET" Scenario.site (RawBody "") ∅ "example.org" Background)
           (Scenario.start (Scenario.browser ∅))
           (mkClientResponse None Scenario.getSite (RawBody ""))
           (Some (errors_New "connection refused"))
           (afterSend (Scenario.env Scenario.refusing) Scenario.getSite
              (bodyReader (Scenario.env Scenario.refusing) Scenario.getSite)
              (Scenario.start (Scenario.browser ∅)))
           eq_refl eq_refl eq_refl eq_refl).
Defined.

(** ** The cookie store *)

Lemma syncCookies_plain (now : Time.t) (vs : list Cookie) :
  Time.inInt64 now ->
  Forall plainExpiry vs ->
  forall store, syncCookies now store vs = fold_left (reconcile now) vs store.
Proof.
  intros Hn Hvs. induction Hvs as [|v vs Hv _ IH]; intros store; [reflexivity|].
  simpl. rewrite <- IH. unfold syncCookies. simpl. f_equal.
  unfold syncCookie, reconcile. now rewrite expired_plain.
Qed.

(** The last cookie of a name decides what the store holds for it. *)
Lemma syncCookies_last (now : Time.t) (store : gmap string string)
  (vs : list Cookie) (v : Cookie) :
  syncCookies now store (vs ++ [v]) !! Name v
  = if expired now v then None else Some (CookieValue v).
Proof.
  rewrite syncCookies_snoc. unfold syncCookie.
  destruct (expired now v); [apply lookup_delete_eq | apply lookup_insert_eq].
Qed.

(** X1.  In browser mode, a call that produced a response reconciles each
    cookie of the response into the store, in order: with the clock and
    every expiry within the range of [int64] nanoseconds (or no expiry), a
    cookie whose expiry is set and strictly earlier than the time of
    evaluation is deleted by name, and any other is stored under its
    name. *)
Theorem cookies_reconciled (E : Env) (mw : list ClientHandlerFunc)
  (method url : string) (data : list Value) (st : State) (req : Request)
  (st1 : State) (cr : ClientResponse) (err : option error) (st2 : State)
  (r : Response) :
  prepareRequest E method url data st = Ret (Some req, None) st1 ->
  dispatch E mw (traced req) st1 = Ret (Some cr, err) st2 ->
  browserMode (client st2) = true ->
  Response_ cr = Some r ->
  Time.inInt64 (now st2) ->
  Forall plainExpiry (Cookies r) ->
  DoRequest E mw method url data st
  = Ret (Some cr, err)
        (withStore st2
           (fold_left (reconcile (now st2)) (Cookies r) (cookies (client st2)))).
Proof.
  intros Hprep Hcall Hb Hr Hn Hvs.
  rewrite (DoRequest_dispatch E mw _ _ _ _ _ _ Hprep), Hcall. simpl fst.
  rewrite (saveCookies_sync cr r st2 Hb Hr).
  now rewrite syncCookies_plain.
Qed.

Lemma cookies_reconciled_witness :
  cookies (client (finalState
    (DoRequest (Scenario.env (Scenario.serving (mkCookie "session" "abc" Time.zero)))
       [] "GET" Scenario.site []
       (Scenario.start (Scenario.browser {[ "session" := "old" ]})))))
  = <[ "session" := "abc" ]> {[ "session" := "old" ]}.
Proof.
  erewrite (cookies_reconciled
              (Scenario.env (Scenario.serving (mkCookie "session" "abc" Time.zero)))
              [] "GET" Scenario.site []
              (Scenario.start (Scenario.browser {[ "session" := "old" ]}))
              _ _ _ _ _ _ eq_refl eq_refl eq_refl eq_refl).
  - reflexivity.
  - unfold Time.inInt64. split.
    + apply Z.leb_le. reflexivity.
    + apply Z.ltb_lt. reflexivity.
  - repeat constructor.
Defined.

(** Two calls in a row that set a cookie of one name leave the second
    value in the store (the second cookie being unexpired at its call). *)
Lemma last_write_wins (now1 now2 : Time.t) (store : gmap string string)
  (v1 v2 : Cookie) :
  Name v1 = Name v2 ->
  expired now2 v2 = false ->
  syncCookies now2 (syncCookies now1 store [v1]) [v2] !! Name v2
  = Some (CookieValue v2).
Proof.
  intros _ Hx. rewrite (syncCookies_last now2 _ [] v2). now rewrite Hx.
Qed.

(** C7 at a cookie that expires at the end of year 9999: its expiry is
    set and lies after the time of the call, yet [UnixNano] of it wraps to
    a negative number, the test of line 139 takes it for expired, and the
    call leaves the store without the cookie's name. *)
Lemma far_future_cookie_is_dropped :
  Time.IsZero Scenario.endOfTime = false
  /\ Time.Before Scenario.endOfTime Scenario.today = false
  /\ Time.UnixNano Scenario.endOfTime = -4852116232933722624
  /\ cookies (client (finalState
       (DoRequest
          (Scenario.env (Scenario.serving (mkCookie "session" "abc" Scenario.endOfTime)))
          [] "GET" Scenario.site []
          (Scenario.start (Scenario.browser {[ "session" := "old" ]})))))
     !! "session" = None.
Proof. repeat split. Qed.

(** ** The Content-Type of the prepared request *)

Section HeaderFacts.

Context (E : Env).

Lemma contentTypeOf_Set_other (req : Request) (k v : string) :
  CanonicalMIMEHeaderKey E k <> CanonicalMIMEHeaderKey E "Content-Type" ->
  contentTypeOf E (Header_Set E req k v) = contentTypeOf E req.
Proof.
  intros H. unfold contentTypeOf, Header_Set. simpl. now apply lookup_insert_ne.
Qed.

Lemma contentTypeOf_Set_same (req : Request) (v : string) :
  contentTypeOf E (Header_Set E req "Content-Type" v) = Some v.
Proof. unfold contentTypeOf, Header_Set. simpl. apply lookup_insert_eq. Qed.

(** Copying a list of headers with distinct keys, none of which shadows
    Content-Type: the request ends with the listed Content-Type, or else
    with the one it had. *)
Lemma copy_headers_content_type (kvs : list (string * string)) :
  NoDup kvs.*1 ->
  (forall k v, (k, v) ∈ kvs ->
               CanonicalMIMEHeaderKey E k = CanonicalMIMEHeaderKey E "Content-Type" ->
               k = "Content-Type") ->
  forall req,
    contentTypeOf E (fold_left (fun r kv => Header_Set E r (fst kv) (snd kv)) kvs req)
    = match (list_to_map kvs : gmap string string) !! "Content-Type" with
      | Some v => Some v
      | None => contentTypeOf E req
      end.
Proof.
  induction kvs as [|[k v] kvs IH]; intros Hnd Hinj req; [reflexivity|].
  simpl in Hnd. apply NoDup_cons in Hnd as [Hk Hnd].
  simpl fold_left. rewrite IH; [|exact Hnd|].
  2:{ intros k' v' Hin Hc. apply (Hinj k' v'); [now right | exact Hc]. }
  simpl list_to_map.
  destruct (decide (k = "Content-Type")) as [->|Hne].
  - rewrite lookup_insert_eq.
    rewrite (not_elem_of_list_to_map_1 _ _ Hk).
    apply contentTypeOf_Set_same.
  - rewrite lookup_insert_ne by exact Hne.
    rewrite contentTypeOf_Set_other; [reflexivity|].
    intros Hc. apply Hne. apply (Hinj k v); [now left | exact Hc].
Qed.

(** Copying any list of headers: the request ends with the value of one
    of the listed spellings of Content-Type, or, when none is listed,
    with the Content-Type it had. *)
Lemma copy_headers_any (kvs : list (string * string)) (req : Request) :
  (exists k v, In (k, v) kvs /\ namesContentType E k
               /\ contentTypeOf E (fold_left (fun r kv => Header_Set E r (fst kv) (snd kv))
                                      kvs req) = Some v)
  \/ ((forall k v, In (k, v) kvs -> ~ namesContentType E k)
      /\ contentTypeOf E (fold_left (fun r kv => Header_Set E r (fst kv) (snd kv))
                             kvs req) = contentTypeOf E req).
Proof.
  induction kvs as [|[k v] kvs IH] using rev_ind.
  - right. split; [intros k v []|reflexivity].
  - rewrite fold_left_app. simpl fold_left.
    destruct (decide (CanonicalMIMEHeaderKey E k
                      = CanonicalMIMEHeaderKey E "Content-Type")) as [Hk|Hk].
    + left. exists k, v. split; [apply in_or_app; right; now left|].
      split; [exact Hk|].
      unfold contentTypeOf, Header_Set. simpl. rewrite Hk. apply lookup_insert_eq.
    + rewrite contentTypeOf_Set_other by exact Hk.
      destruct IH as [(k' & v' & Hin & Hk' & Hv')|[Hno Heq]].
      * left. exists k', v'. split; [apply in_or_app; now left|]. now split.
      * right. split; [|exact Heq].
        intros k' v' Hin. apply in_app_or in Hin as [Hin|[[= <- <-]|[]]].
        -- now apply (Hno k' v').
        -- exact Hk.
Qed.

(** The last stage of [prepareRequest], for any headers of the client:
    the request ends with the value of one of the configured spellings
    of Content-Type, or, when there is none, with the Content-Type it
    came with. *)
Lemma finishRequest_content_type_any (c : Client) (req : Request) :
  ownHeadersApart E ->
  (exists k v, configuredContentType E c k v
               /\ contentTypeOf E (finishRequest E c req) = Some v)
  \/ ((forall k v, ~ configuredContentType E c k v)
      /\ contentTypeOf E (finishRequest E c req) = contentTypeOf E req).
Proof.
  intros (Hcookie & Hauth & Hagent).
  unfold finishRequest.
  set (req0 := WithContext req _).
  assert (H0 : contentTypeOf E req0 = contentTypeOf E req) by reflexivity.
  set (req1 := if 0 <? Z.of_nat (size (header c)) then _ else req0).
  assert (H1 : (exists k v, configuredContentType E c k v
                            /\ contentTypeOf E req1 = Some v)
               \/ ((forall k v, ~ configuredContentType E c k v)
                   /\ contentTypeOf E req1 = contentTypeOf E req)).
  { unfold req1. destruct (0 <? Z.of_nat (size (header c))) eqn:Hsz.
    - destruct (copy_headers_any (map_to_list (header c)) req0)
        as [(k & v & Hin & Hk & Hv)|[Hno Heq]].
      + left. exists k, v. split; [|exact Hv]. split; [|exact Hk].
        apply elem_of_map_to_list. now apply list_elem_of_In.
      + right. split; [|now rewrite Heq].
        intros k v [Hv Hk]. apply (Hno k v); [|exact Hk].
        apply list_elem_of_In. now apply elem_of_map_to_list.
    - right. split; [|exact H0].
      assert (header c = ∅) as Hem.
      { apply map_size_empty_iff. apply Z.ltb_ge in Hsz. lia. }
      intros k v [Hv _]. rewrite Hem, lookup_empty in Hv. discriminate. }
  clearbody req1.
  assert (Hlate : forall r, contentTypeOf E
    (let r2 := if negb (String.eqb (Header_Get E r "Host") "")
                  && String.eqb (Host r) ""
               then withHost r (Header_Get E r "Host") else r in
     let r3 := if 0 <? Z.of_nat (size (cookies c))
               then if 0 <? len (cookieHeader (cookies c))
                    then Header_Set E r2 "Cookie" (cookieHeader (cookies c))
                    else r2
               else r2 in
     let r4 := if 0 <? len (authUser c)
               then Header_Set E r3 "Authorization"
                      ("Basic " ++ basicAuth E (authUser c) (authPass c))
               else r3 in
     if negb (String.eqb (agent c) "")
     then Header_Set E r4 "User-Agent" (agent c) else r4)
    = contentTypeOf E r).
  { intros r. cbv zeta.
    repeat match goal with
           | |- context [if ?b then _ else _] => destruct b
           end;
      rewrite ?contentTypeOf_Set_other by assumption; reflexivity. }
  cbv zeta in Hlate. rewrite (Hlate req1). exact H1.
Qed.

(** The last stage of [prepareRequest] leaves a request with the client's
    Content-Type if it has one, and with the Content-Type it came with
    otherwise. *)
Lemma finishRequest_content_type (c : Client) (req : Request) :
  contentTypeUnshadowed E c ->
  contentTypeOf E (finishRequest E c req)
  = match header c !! "Content-Type" with
    | Some v => Some v
    | None => contentTypeOf E req
    end.
Proof.
  intros (Hinj & Hcookie & Hauth & Hagent).
  assert (Hcopy : forall r,
    contentTypeOf E (fold_left (fun r kv => Header_Set E r (fst kv) (snd kv))
                       (map_to_list (header c)) r)
    = match header c !! "Content-Type" with
      | Some v => Some v
      | None => contentTypeOf E r
      end).
  { intros r. rewrite copy_headers_content_type.
    - now rewrite list_to_map_to_list.
    - apply NoDup_fst_map_to_list.
    - intros k v Hin Hc. apply elem_of_map_to_list in Hin.
      apply Hinj; [now exists v | exact Hc]. }
  unfold finishRequest.
  set (req0 := WithContext req _).
  assert (H0 : contentTypeOf E req0 = contentTypeOf E req) by reflexivity.
  set (req1 := if 0 <? Z.of_nat (size (header c)) then _ else req0).
  assert (H1 : contentTypeOf E req1
               = match header c !! "Content-Type" with
                 | Some v => Some v
                 | None => contentTypeOf E req
                 end).
  { unfold req1. destruct (0 <? Z.of_nat (size (header c))) eqn:Hsz.
    - now rewrite Hcopy, H0.
    - assert (header c = ∅) as Hem.
      { apply map_size_empty_iff. apply Z.ltb_ge in Hsz. lia. }
      now rewrite Hem, lookup_empty, H0. }
  clearbody req1. rewrite <- H1.
  repeat match goal with
         | |- context [if ?b then _ else _] => destruct b
         end;
    rewrite ?contentTypeOf_Set_other by assumption; reflexivity.
Qed.

End HeaderFacts.

(** C4, as the code has it.  On the request that [prepareRequest]
    returns for a non-GET call without upload marker: a Content-Type
    header configured on the client, under whatever spelling of the name,
    is used (were several spellings configured, the value of one of
    them); with none configured, a body that is non-empty, begins with
    '[' or '{' and is valid JSON gets application/json; otherwise a body
    made of one or more word/bracket bytes, '=', and at least one more
    byte the first of which is not a line feed gets
    application/x-www-form-urlencoded; otherwise the request has no
    Content-Type header. *)
Theorem normal_request_content_type (E : Env) (method url : string)
  (data : list Value) (st : State) (param : string)
  (req : Request) (err : option error) (st' : State) :
  String.eqb (ToUpper E method) "GET" = false ->
  encodeParams E (client st) data = inr param ->
  Contains param "@file:" = false ->
  ownHeadersApart E ->
  prepareRequest E method url data st = Ret (Some req, err) st' ->
  (forall k v,
      configuredContentType E (client st) k v ->
      exists k' v',
        configuredContentType E (client st) k' v'
        /\ contentTypeOf E req = Some v')
  /\ (forall k v,
        configuredContentType E (client st) k v ->
        (forall k' v', configuredContentType E (client st) k' v' -> v' = v) ->
        contentTypeOf E req = Some v)
  /\ ((forall k v, ~ configuredContentType E (client st) k v) ->
      jsonLike E param = true ->
      contentTypeOf E req = Some "application/json")
  /\ ((forall k v, ~ configuredContentType E (client st) k v) ->
      jsonLike E param = false ->
      Sniff.FormShaped param ->
      contentTypeOf E req = Some "application/x-www-form-urlencoded")
  /\ ((forall k v, ~ configuredContentType E (client st) k v) ->
      jsonLike E param = false ->
      ~ Sniff.FormShaped param ->
      contentTypeOf E req = None).
Proof.
  intros Hm Hp Hf Hown Hrun.
  rewrite prepareRequest_unfold, Hp in Hrun.
  destruct (buildRequest E (client st) (ToUpper E method)
              (targetURL E (client st) url) param st)
    as [[[req0|] e] st0|] eqn:Hb; try discriminate.
  injection Hrun as <- _ _.
  destruct (buildRequest_content_type E _ _ _ _ _ _ _ _ Hm Hf Hb)
    as (Hset & Hjson & Hform & Hnone).
  pose proof (finishRequest_content_type_any E (client st) req0 Hown) as Hfin.
  assert (Hsome : forall k v,
             configuredContentType E (client st) k v ->
             exists k' v',
               configuredContentType E (client st) k' v'
               /\ contentTypeOf E (finishRequest E (client st) req0) = Some v').
  { intros k v Hk. destruct Hfin as [(k' & v' & Hk' & Hv')|[Hno _]].
    - now exists k', v'.
    - destruct (Hno k v Hk). }
  assert (Hnot : (forall k v, ~ configuredContentType E (client st) k v) ->
                 header (client st) !! "Content-Type" = None
                 /\ contentTypeOf E (finishRequest E (client st) req0)
                    = contentTypeOf E req0).
  { intros Hno. split.
    - destruct (header (client st) !! "Content-Type") as [v|] eqn:Hv;
        [|reflexivity].
      destruct (Hno "Content-Type" v). now split.
    - destruct Hfin as [(k' & v' & Hk' & _)|[_ Heq]]; [|exact Heq].
      destruct (Hno k' v' Hk'). }
  split; [exact Hsome|]. split; [|split; [|split]].
  - intros k v Hk Huniq. destruct (Hsome k v Hk) as (k' & v' & Hk' & ->).
    f_equal. now apply (Huniq k').
  - intros Hno Hj. destruct (Hnot Hno) as [Hh ->]. now apply Hjson.
  - intros Hno Hj Hs. destruct (Hnot Hno) as [Hh ->]. now apply Hform.
  - intros Hno Hj Hs. destruct (Hnot Hno) as [Hh ->].
    unfold contentTypeOf. rewrite (Hnone Hh Hj Hs). apply lookup_empty.
Qed.

Lemma normal_request_content_type_witness :
  exists req,
    prepareRequest (Scenario.env Scenario.refusing) "POST" Scenario.site
      [VString "a=1"] (Scenario.start Scenario.plainClient)
    = Ret (Some req, None) (Scenario.start Scenario.plainClient)
    /\ contentTypeOf (Scenario.env Scenario.refusing) req = Some "text/plain".
Proof.
  eexists. split; [reflexivity|].
  refine (proj1 (proj2
    (normal_request_content_type (Scenario.env Scenario.refusing) "POST"
       Scenario.site [VString "a=1"] (Scenario.start Scenario.plainClient)
       "a=1" _ None (Scenario.start Scenario.plainClient)
       eq_refl eq_refl eq_refl _ eq_refl))
    "content-type" "text/plain" _ _).
  - repeat split; discriminate.
  - split; reflexivity.
  - intros k' v' [Hv _].
    change (({[ "content-type" := "text/plain" ]} : gmap string string) !! k'
            = Some v') in Hv.
    apply lookup_singleton_Some in Hv as [_ Hv]. now symmetry.
Defined.

(** C4, as worded, fails on a body whose '=' is followed by a line feed:
    the worded shape holds of it, no Content-Type is configured, it is not
    JSON, and the request is built with no Content-Type. *)
Lemma sniff_linefeed_counterexample :
  wordedFormShaped Scenario.twoLines = true
  /\ header Scenario.client0 !! "Content-Type" = None
  /\ jsonLike (Scenario.env Scenario.refusing) Scenario.twoLines = false
  /\ prepareRequest (Scenario.env Scenario.refusing) "POST" Scenario.site
       [VString Scenario.twoLines] (Scenario.start Scenario.client0)
     = Ret (Some (mkRequest "POST" Scenario.site (RawBody Scenario.twoLines)
                    ∅ "example.org" Background), None)
           (Scenario.start Scenario.client0).
Proof. repeat split. Qed.

(** X2.  On a non-GET call without upload marker, the request that
    [prepareRequest] returns carries the Content-Type chosen at lines
    248-259 (the client's own, else application/json for a JSON-like body,
    else application/x-www-form-urlencoded for a form-shaped one, else
    none), provided no other header of the client shadows Content-Type. *)
Theorem prepared_content_type (E : Env) (method url : string)
  (data : list Value) (st : State) (param : string)
  (req : Request) (err : option error) (st' : State) :
  String.eqb (ToUpper E method) "GET" = false ->
  encodeParams E (client st) data = inr param ->
  Contains param "@file:" = false ->
  contentTypeUnshadowed E (client st) ->
  prepareRequest E method url data st = Ret (Some req, err) st' ->
  contentTypeOf E req = sniffContentType E (client st) param.
Proof.
  intros Hm Hp Hf Hun Hrun.
  rewrite prepareRequest_unfold, Hp in Hrun.
  rewrite (buildRequest_normal E _ _ _ _ st Hm Hf) in Hrun.
  destruct (http_NewRequest E _ _) as [e|host]; [discriminate|].
  cbv zeta in Hrun.
  destruct (sniffContentType E (client st) param) as [v|] eqn:Hs;
    injection Hrun as <- _ _;
    rewrite (finishRequest_content_type E _ _ Hun);
    rewrite ?contentTypeOf_Set_same;
    unfold sniffContentType in Hs;
    destruct (header (client st) !! "Content-Type"); congruence || reflexivity.
Qed.

Lemma prepared_content_type_witness :
  contentTypeOf (Scenario.env Scenario.refusing) Scenario.formPost
  = Some "application/x-www-form-urlencoded".
Proof.
  refine (prepared_content_type (Scenario.env Scenario.refusing) "POST"
            Scenario.site [VString "a=1"] (Scenario.start Scenario.client0)
            "a=1" Scenario.formPost None (Scenario.start Scenario.client0)
            eq_refl eq_refl eq_refl _ eq_refl).
  repeat split; try discriminate.
  intros k [v Hv]. discriminate.
Defined.

(** ** The pipeline on concrete calls *)

Section Examples.

Import Scenario.

(** The three bodies of the sniffing examples: a JSON object, a form
    pair, and plain text. *)
Example sniffing_examples :
  sniffContentType (env refusing) client0 jsonA1 = Some "application/json"
  /\ sniffContentType (env refusing) client0 "a=1"
     = Some "application/x-www-form-urlencoded"
  /\ sniffContentType (env refusing) client0 "hello world" = None.
Proof. repeat split. Qed.

(** Retry count 2 against a transport that refuses every connection:
    three sends with a sleep of the retry interval between them, the
    third error returned, the budget left at 0. *)
Example retry_run :
  match DoRequest (env refusing) [] "GET" site [] (start (retryClient 2)) with
  | Ret (_, err) st =>
      err = Some (errors_New "i/o timeout")
      /\ schedule (trace st)
         = [Send getSite; Sleep 500; Send getSite; Sleep 500; Send getSite]
      /\ retryCount (client st) = 0
  | Panic _ _ => False
  end.
Proof. vm_compute. repeat split. Qed.

(** Retry count 1 against a transport that reads the whole request and
    then drops the connection: the first send is handed the body [a=1],
    the retry is handed a reader with nothing left to read. *)
Example retried_body :
  match DoRequest (env dropping) [] "POST" site [VString "a=1"]
          (start (retryClient 1)) with
  | Ret (Some cr, _) st =>
      List.map unread (readers (trace st)) = ["a=1"; ""]
      /\ requestBody cr = RawBody "a=1"
  | _ => False
  end.
Proof. vm_compute. repeat split. Qed.

(** A call with the empty method: the data are sent in the body, as for
    any method but GET, and the request is a GET. *)
Example empty_method :
  match prepareRequest (env refusing) "" site [VString "a=1"] (start client0) with
  | Ret (Some req, _) _ =>
      Method req = "GET" /\ URL req = site /\ ReqBody req = RawBody "a=1"
  | _ => False
  end.
Proof. vm_compute. repeat split. Qed.

(** A query is joined with '?' to a URL without one. *)
Example get_query :
  builtBody (prepareRequest (env refusing) "get" site [VString "a=1"] (start client0))
  = Some (RawBody "")
  /\ getURL site "a=1" = "http://example.org/api?a=1".
Proof. repeat split. Qed.

End Examples.

(** * Further properties *)

(** ** The retry loop, whatever the transport does *)

Section LoopFacts.

Context (E : Env).

(** The loop stops at the first send that succeeds, or with the budget
    spent: [k] retries were taken, each after a failed send. *)
Lemma callLoop_run (req : Request) :
  forall (n : nat) (body : ReadCloser) (resp : ClientResponse) (st : State),
    Z.to_nat (retryCount (client st)) = n ->
    exists k st',
      (k <= n)%nat
      /\ callLoop E req body resp st
         = Ret (Some (withResponse resp (do_resp (http_Do E (sent st + k) req))),
                do_err (http_Do E (sent st + k) req)) st'
      /\ (forall i, (i < k)%nat -> do_err (http_Do E (sent st + i) req) <> None)
      /\ (do_err (http_Do E (sent st + k) req) = None \/ k = n)
      /\ client st'
         = withRetryCount (client st) (retryCount (client st) - Z.of_nat k)
      /\ sent st' = (sent st + k + 1)%nat
      /\ trace st'
         = (trace st
            ++ failedRun E req (retryInterval (client st)) k (sent st) body)%list.
Proof.
  induction n as [|n IH]; intros body resp st Hn.
  - exists 0%nat, (afterSend E req body st). rewrite callLoop_step, Nat.add_0_r.
    replace (0 <? retryCount (client st)) with false
      by (symmetry; apply Z.ltb_nlt; lia).
    split; [lia|]. split; [now destruct (do_err _)|].
    split; [intros i Hi; lia|]. split; [now right|].
    simpl. rewrite Z.sub_0_r. repeat split; [now destruct (client st) | lia].
  - rewrite callLoop_step.
    destruct (do_err (http_Do E (sent st) req)) as [err|] eqn:He.
    + replace (0 <? retryCount (client st)) with true
        by (symmetry; apply Z.ltb_lt; lia).
      destruct (IH (readBytes body (do_read (http_Do E (sent st) req)))
                   (withResponse resp (do_resp (http_Do E (sent st) req)))
                   (retrying (afterSend E req body st)))
        as (k & st' & Hk & Hrun & Hfail & Hstop & Hc & Hs & Ht).
      { simpl. lia. }
      simpl in Hrun, Hfail, Hstop, Hc, Hs, Ht.
      exists (S k), st'.
      replace (sent st + S k)%nat with (S (sent st + k))%nat by lia.
      split; [lia|]. split; [exact Hrun|]. split; [|split; [|split; [|split]]].
      * intros [|i] Hi.
        -- rewrite Nat.add_0_r, He. discriminate.
        -- replace (sent st + S i)%nat with (S (sent st + i))%nat by lia.
           apply Hfail. lia.
      * destruct Hstop as [Hok|Hk']; [now left | right; lia].
      * rewrite Hc. unfold withRetryCount. simpl. f_equal. lia.
      * lia.
      * rewrite Ht, failedRun_unfold. unfold attemptEvents.
        now rewrite <- !app_assoc.
    + exists 0%nat, (afterSend E req body st). rewrite Nat.add_0_r, He.
      split; [lia|]. split; [reflexivity|].
      split; [intros i Hi; lia|]. split; [now left|].
      simpl. rewrite Z.sub_0_r. repeat split; [now destruct (client st) | lia].
Qed.

Lemma closed_app (l1 l2 : list Event) :
  closed (l1 ++ l2) = (closed l1 ++ closed l2)%list.
Proof.
  induction l1 as [|e l1 IH]; [reflexivity|]. destruct e; simpl; now rewrite IH.
Qed.

Lemma closed_attempt (req : Request) (body : ReadCloser) (i : nat) :
  closed (attemptEvents E req body i) = leaked (http_Do E i req).
Proof.
  unfold attemptEvents, closeEvents, leaked. simpl.
  destruct (do_err _); [|reflexivity].
  destruct (do_resp _) as [r|]; [|reflexivity].
  simpl. now destruct (body_Close E r).
Qed.

Lemma closed_failedRun (req : Request) (d : Z) (k : nat) : forall i body,
  closed (failedRun E req d k i body)
  = flat_map (fun j => leaked (http_Do E j req)) (seq i (S k)).
Proof.
  induction k as [|k IH]; intros i body.
  - simpl failedRun. rewrite closed_attempt. simpl. now rewrite app_nil_r.
  - rewrite failedRun_unfold, closed_app, closed_attempt.
    change (closed (EvSleep d :: ?l)) with (closed l).
    now rewrite IH.
Qed.

Lemma firstSent_failedRun (req : Request) (d : Z) (k i : nat) (body : ReadCloser) :
  firstSent (failedRun E req d k i body) = Some req.
Proof. destruct k; reflexivity. Qed.

(** The readers of a run: the first send is handed the reader the call
    started with, each later send the reader as the send before left
    it. *)
Lemma readers_app (l1 l2 : list Event) :
  readers (l1 ++ l2) = (readers l1 ++ readers l2)%list.
Proof. apply flat_map_app. Qed.

Lemma readers_attempt (req : Request) (body : ReadCloser) (i : nat) :
  readers (attemptEvents E req body i) = [body].
Proof.
  unfold attemptEvents, closeEvents, readers. simpl. f_equal.
  destruct (do_err _); [|reflexivity].
  destruct (do_resp _) as [r|]; [|reflexivity].
  simpl. now destruct (body_Close E r).
Qed.

Lemma readers_failedRun (req : Request) (d : Z) (k : nat) : forall i body,
  readers (failedRun E req d k i body)
  = List.map (readerAt E req body i) (seq 0 (S k)).
Proof.
  induction k as [|k IH]; intros i body.
  - simpl failedRun. now rewrite readers_attempt.
  - rewrite failedRun_unfold, readers_app, readers_attempt.
    change (readers (EvSleep d :: ?l)) with (readers l).
    rewrite IH.
    change (seq 0 (S (S k))) with (0%nat :: seq 1 (S k)).
    rewrite <- seq_shift, List.map_cons, List.map_map. reflexivity.
Qed.

Lemma readerAt_S (req : Request) (j : nat) : forall body i,
  readerAt E req body i (S j)
  = readBytes (readerAt E req body i j) (do_read (http_Do E (i + j) req)).
Proof.
  induction j as [|j IH]; intros body i.
  - simpl. now rewrite Nat.add_0_r.
  - change (readerAt E req body i (S (S j)))
      with (readerAt E req (readBytes body (do_read (http_Do E i req))) (S i) (S j)).
    rewrite IH. replace (i + S j)%nat with (S i + j)%nat by lia. reflexivity.
Qed.

Lemma readerAt_content (req : Request) (j : nat) : forall body i,
  rc_content (readerAt E req body i j) = rc_content body
  /\ rc_repeatable (readerAt E req body i j) = rc_repeatable body.
Proof.
  induction j as [|j IH]; intros body i; [easy|].
  simpl readerAt. now destruct (IH (readBytes body (do_read (http_Do E i req))) (S i)).
Qed.

End LoopFacts.

(** X3.  Retry until the first success.  When the first [k] sends of a
    call fail, send number [k] succeeds and the retry count is at least
    [k], [callRequest] sends exactly [k+1] times with a sleep of the retry
    interval after each failed send, returns the response of the
    successful send with a nil error, and leaves the retry count lowered
    by [k]. *)
Theorem callRequest_first_success (E : Env) (req : Request) (st : State) (k : nat) :
  (forall i, (i < k)%nat -> do_err (http_Do E (sent st + i) req) <> None) ->
  do_err (http_Do E (sent st + k) req) = None ->
  Z.of_nat k <= retryCount (client st) ->
  exists cr st' new,
    callRequest E req st = Ret (Some cr, None) st'
    /\ Response_ cr = do_resp (http_Do E (sent st + k) req)
    /\ trace st' = (trace st ++ new)%list
    /\ schedule new = retryPattern req (retryInterval (client st)) k
    /\ sends new = S k
    /\ retryCount (client st') = retryCount (client st) - Z.of_nat k.
Proof.
  intros Hfail Hok Hbudget. rewrite callRequest_unfold.
  destruct (callLoop_run E req _ (bodyReader E req)
              (mkClientResponse None req (ReqBody req)) st eq_refl)
    as (k' & st' & Hk' & Hrun & Hfail' & Hstop & Hc & _ & Ht).
  assert (k' = k) as ->.
  { destruct (Nat.lt_trichotomy k' k) as [Hlt|[Heq|Hgt]]; [|exact Heq|].
    - destruct Hstop as [Hnone|Hn]; [now destruct (Hfail k' Hlt) | lia].
    - now destruct (Hfail' k Hgt). }
  rewrite Hok in Hrun.
  destruct (failedRun_counts E req (retryInterval (client st)) k (sent st)
                (bodyReader E req))
    as [Hsends _].
  eexists _, st', _. split; [exact Hrun|]. split; [reflexivity|].
  split; [exact Ht|]. rewrite schedule_failedRun, Hsends, Hc.
  repeat split.
Qed.

Lemma callRequest_first_success_witness :
  exists cr st' new,
    callRequest (Scenario.env Scenario.flaky) Scenario.getSite
      (Scenario.start (Scenario.retryClient 2))
    = Ret (Some cr, None) st'
    /\ Response_ cr = Some (mkResponse 200 [] "ok")
    /\ trace st' = ([] ++ new)%list
    /\ schedule new = retryPattern Scenario.getSite 500 1
    /\ sends new = 2%nat
    /\ retryCount (client st') = 2 - 1.
Proof.
  refine (callRequest_first_success (Scenario.env Scenario.flaky)
            Scenario.getSite (Scenario.start (Scenario.retryClient 2)) 1 _ eq_refl _).
  - intros [|i] Hi; [discriminate | lia].
  - simpl. lia.
Defined.

Section ReaderFacts.

Context (E : Env).

Lemma substring_substring (s : string) : forall i m a b,
  (a + b <= m)%nat ->
  String.substring a b (String.substring i m s) = String.substring (i + a) b s.
Proof.
  induction s as [|c s IH]; intros i m a b H.
  - assert (Hnil : forall n k, String.substring n k "" = "")
      by (intros [|n] [|k]; reflexivity).
    now rewrite !Hnil.
  - destruct i as [|i]; [|exact (IH i m a b H)].
    destruct m as [|m].
    + assert (a = 0 /\ b = 0)%nat as [-> ->] by lia. reflexivity.
    + destruct a as [|a]; [|apply (IH 0%nat m a b); lia].
      destruct b as [|b]; [reflexivity|].
      simpl. f_equal. apply (IH 0%nat m 0%nat b). lia.
Qed.

Lemma length_substring (s : string) : forall i m,
  (i + m <= String.length s)%nat ->
  String.length (String.substring i m s) = m.
Proof.
  induction s as [|c s IH]; intros i m H; simpl in H.
  - assert (i = 0 /\ m = 0)%nat as [-> ->] by lia. reflexivity.
  - destruct i as [|i]; [|apply IH; lia].
    destruct m as [|m]; [reflexivity|].
    simpl. f_equal. apply IH. lia.
Qed.

Lemma unread_length (r : ReadCloser) :
  oneShot r ->
  String.length (unread r) = (String.length (rc_content r) - rc_index r)%nat.
Proof.
  intros [_ Hi]. unfold unread, sliceFrom. apply length_substring. lia.
Qed.

(** Reading [n] bytes from a one-shot reader leaves what follows the
    first [n] of its unread bytes (nothing, when it had no more). *)
Lemma readBytes_unread (r : ReadCloser) (n : nat) :
  oneShot r ->
  oneShot (readBytes r n)
  /\ unread (readBytes r n)
     = sliceFrom (unread r) (Nat.min n (String.length (unread r))).
Proof.
  intros Hr. pose proof (unread_length r Hr) as Hlen.
  destruct Hr as [Hrep Hi].
  unfold readBytes. rewrite Hrep. cbv zeta. simpl andb. cbv iota.
  split; [split; [reflexivity | simpl; lia]|].
  unfold unread at 1. simpl rc_content. simpl rc_index.
  unfold sliceFrom at 2. rewrite Hlen.
  unfold unread, sliceFrom.
  rewrite substring_substring by lia.
  f_equal; lia.
Qed.

Lemma bodyReader_oneShot (req : Request) :
  oneShot (bodyReader E req)
  /\ unread (bodyReader E req) = bodyBytes E (ReqBody req).
Proof.
  split; [split; [reflexivity | simpl; lia]|].
  unfold unread, sliceFrom, bodyReader. simpl. rewrite Nat.sub_0_r.
  apply substring_all.
Qed.

Lemma readerAt_oneShot (req : Request) (j : nat) : forall body i,
  oneShot body -> oneShot (readerAt E req body i j).
Proof.
  induction j as [|j IH]; intros body i H; [exact H|].
  simpl readerAt. apply IH. now apply readBytes_unread.
Qed.

Lemma lookup_map_seq {A} (f : nat -> A) (n j : nat) (x : A) :
  List.map f (seq 0 n) !! j = Some x -> x = f j /\ (j < n)%nat.
Proof.
  change (List.map f (seq 0 n)) with (f <$> seq 0 n).
  rewrite list_lookup_fmap. intros H.
  destruct (seq 0 n !! j) as [i|] eqn:Hi; [|discriminate].
  apply lookup_seq in Hi as [-> Hlt]. simpl in H. injection H as <-. now split.
Qed.

End ReaderFacts.

(** X4.  The retry bound.  Whatever the transport does, [callRequest]
    returns a wrapper holding the request it was given, after at least
    one send and at most [max(retryCount, 0) + 1] sends, with a sleep of
    the retry interval between two sends; if it stopped before the budget
    was spent, the error it returns is nil.  Every send is handed that
    same request, but not the same body: the first send is handed the
    reader of line 315 with the whole body unread, and each retry is
    handed it as the send before left it, so a retry can read only the
    bytes that the failed sends before it have not read, and nothing once
    one of them has read the body to its end. *)
Theorem callRequest_bounded (E : Env) (req : Request) (st : State) :
  exists cr err st' new,
    callRequest E req st = Ret (Some cr, err) st'
    /\ request cr = req
    /\ requestBody cr = ReqBody req
    /\ trace st' = (trace st ++ new)%list
    /\ schedule new = retryPattern req (retryInterval (client st)) (retries new)
    /\ (1 <= sends new <= S (Z.to_nat (retryCount (client st))))%nat
    /\ ((sends new < S (Z.to_nat (retryCount (client st))))%nat -> err = None)
    /\ length (readers new) = sends new
    /\ readers new !! 0%nat = Some (bodyReader E req)
    /\ unread (bodyReader E req) = bodyBytes E (ReqBody req)
    /\ (forall j r r',
          readers new !! j = Some r ->
          readers new !! S j = Some r' ->
          let n := do_read (http_Do E (sent st + j) req) in
          r' = readBytes r n
          /\ unread r' = sliceFrom (unread r) (Nat.min n (String.length (unread r)))
          /\ ((String.length (unread r) <= n)%nat -> unread r' = "")).
Proof.
  rewrite callRequest_unfold.
  destruct (callLoop_run E req _ (bodyReader E req)
              (mkClientResponse None req (ReqBody req)) st eq_refl)
    as (k & st' & Hk & Hrun & _ & Hstop & _ & _ & Ht).
  destruct (failedRun_counts E req (retryInterval (client st)) k (sent st)
                (bodyReader E req))
    as [Hsends Hretries].
  destruct (bodyReader_oneShot E req) as [Hone Hall].
  eexists _, _, st', _. split; [exact Hrun|].
  split; [reflexivity|]. split; [reflexivity|]. split; [exact Ht|].
  rewrite schedule_failedRun, readers_failedRun, Hsends, Hretries.
  split; [reflexivity|]. split; [lia|].
  split; [intros Hlt; destruct Hstop as [Hnone|Hn]; [exact Hnone | lia]|].
  split; [now rewrite length_map, length_seq|].
  split; [reflexivity|]. split; [exact Hall|].
  intros j r r' Hr Hr' n.
  apply lookup_map_seq in Hr as [-> _]. apply lookup_map_seq in Hr' as [-> _].
  rewrite readerAt_S. fold n.
  pose proof (readerAt_oneShot E req j (bodyReader E req) (sent st) Hone) as Hj.
  destruct (readBytes_unread (readerAt E req (bodyReader E req) (sent st) j) n Hj)
    as [_ Hun].
  split; [reflexivity|]. split; [exact Hun|].
  intros Hle. rewrite Hun, Nat.min_r by exact Hle.
  unfold sliceFrom. rewrite Nat.sub_diag.
  generalize (unread (readerAt E req (bodyReader E req) (sent st) j)).
  intros u. induction u as [|c u IH]; [reflexivity | exact IH].
Qed.

(** X5.  No response is leaked by a failed send.  The response bodies
    [callRequest] closes are exactly the responses that came together
    with an error, one close each, in the order of the sends; so a
    response returned with an error has been closed already, and after a
    nil error only responses of earlier, failed sends were closed. *)
Theorem callRequest_closes_failed_responses (E : Env) (req : Request) (st : State) :
  exists cr err st' new,
    callRequest E req st = Ret (Some cr, err) st'
    /\ trace st' = (trace st ++ new)%list
    /\ closed new
       = flat_map (fun i => leaked (http_Do E i req)) (seq (sent st) (sends new))
    /\ (forall r, err <> None -> Response_ cr = Some r -> In r (closed new))
    /\ (err = None ->
        closed new
        = flat_map (fun i => leaked (http_Do E i req)) (seq (sent st) (retries new))).
Proof.
  rewrite callRequest_unfold.
  destruct (callLoop_run E req _ (bodyReader E req)
              (mkClientResponse None req (ReqBody req)) st eq_refl)
    as (k & st' & Hk & Hrun & _ & _ & _ & _ & Ht).
  destruct (failedRun_counts E req (retryInterval (client st)) k (sent st)
                (bodyReader E req))
    as [Hsends Hretries].
  eexists _, _, st', _. split; [exact Hrun|]. split; [exact Ht|].
  rewrite closed_failedRun, Hsends, Hretries.
  split; [reflexivity|]. split.
  - intros r Herr Hr. simpl in Hr. apply in_flat_map.
    exists (sent st + k)%nat. split.
    + apply in_seq. lia.
    + unfold leaked. rewrite Hr.
      destruct (do_err (http_Do E (sent st + k) req)); [now left | congruence].
  - intros Hnone. rewrite seq_S, flat_map_app. simpl.
    unfold leaked at 2. rewrite Hnone. simpl. now rewrite !app_nil_r.
Qed.

(** ** Where a prepared request comes from *)

Section OriginFacts.

Context (E : Env).

Lemma finishRequest_stages (c : Client) (req : Request) :
  finishRequest E c req
  = stageAgent E c (stageAuth E c (stageCookie E c
      (stageHost E (stageHeaders E c (stageContext c req))))).
Proof. reflexivity. Qed.

(** A request that comes out of lines 184-262 was accepted by
    [http.NewRequest] with the method and URL it carries. *)
Lemma buildRequest_origin (c : Client) (method url param : string)
  (st : State) (req0 : Request) (e : option error) (st' : State) :
  buildRequest E c method url param st = Ret (Some req0, e) st' ->
  e = None
  /\ logsOnly st st'
  /\ http_NewRequest E (methodOrGET method) (URL req0) = inr (Host req0)
  /\ Method req0 = methodOrGET method
  /\ ReqContext req0 = Background
  /\ URL req0 = (if String.eqb method "GET" then getURL url param else url).
Proof.
  destruct (String.eqb method "GET") eqn:Hm.
  - apply String.eqb_eq in Hm as ->. rewrite buildRequest_GET.
    destruct (http_NewRequest E "GET" _) as [err|host] eqn:Hn; [discriminate|].
    intros [= <- <- <-]. simpl. change (methodOrGET "GET") with "GET". rewrite Hn.
    refine (conj eq_refl (conj (logsOnly_refl _) _)). now repeat split.
  - destruct (Contains param "@file:") eqn:Hf.
    + rewrite (buildRequest_multipart E c _ _ _ st Hm Hf).
      pose proof (writeItems_logsOnly E (Split param "&"%char) [] st) as Hl.
      destruct (writeItems E _ [] st) as [[err|parts] st1|]; try discriminate.
      destruct (multipart_Close E parts); [discriminate|].
      destruct (http_NewRequest E _ url) as [err|host] eqn:Hn; [discriminate|].
      intros [= <- <- <-]. simpl. rewrite Hn.
      refine (conj eq_refl (conj Hl _)). now repeat split.
    + rewrite (buildRequest_normal E c _ _ _ st Hm Hf).
      destruct (http_NewRequest E _ url) as [err|host] eqn:Hn; [discriminate|].
      cbv zeta. destruct (sniffContentType E c param);
        intros [= <- <- <-]; simpl; rewrite Hn;
        refine (conj eq_refl (conj (logsOnly_refl _) _)); now repeat split.
Qed.

Lemma prepareRequest_origin (method url : string) (data : list Value)
  (st : State) (req : Request) (err : option error) (st' : State) :
  prepareRequest E method url data st = Ret (Some req, err) st' ->
  exists param req0,
    encodeParams E (client st) data = inr param
    /\ buildRequest E (client st) (ToUpper E method) (targetURL E (client st) url)
         param st = Ret (Some req0, None) st'
    /\ req = finishRequest E (client st) req0
    /\ err = None.
Proof.
  rewrite prepareRequest_unfold.
  destruct (encodeParams E (client st) data) as [e|param]; [discriminate|].
  destruct (buildRequest E _ _ _ _ st) as [[[req0|] e] st1|] eqn:Hb;
    try discriminate.
  intros [= <- <- <-]. exists param, req0.
  destruct (buildRequest_origin _ _ _ _ _ _ _ _ Hb) as (-> & _).
  now repeat split.
Qed.

(** [prepareRequest] leaves the client, the send counter and the clock as
    they are, and adds only log lines to the trace. *)
Lemma prepareRequest_logsOnly (method url : string) (data : list Value) (st : State) :
  logsOnly st (finalState (prepareRequest E method url data st)).
Proof.
  rewrite prepareRequest_unfold.
  destruct (encodeParams E (client st) data) as [e|param]; [apply logsOnly_refl|].
  destruct (String.eqb (ToUpper E method) "GET") eqn:Hm.
  - apply String.eqb_eq in Hm. rewrite Hm, buildRequest_GET.
    destruct (http_NewRequest E "GET" _); apply logsOnly_refl.
  - destruct (Contains param "@file:") eqn:Hf.
    + rewrite (buildRequest_multipart E _ _ _ _ st Hm Hf).
      pose proof (writeItems_logsOnly E (Split param "&"%char) [] st) as Hl.
      destruct (writeItems E _ [] st) as [[err|parts] st1|]; try exact Hl.
      destruct (multipart_Close E parts); [exact Hl|].
      destruct (http_NewRequest E _ _); exact Hl.
    + rewrite (buildRequest_normal E _ _ _ _ st Hm Hf).
      destruct (http_NewRequest E _ _); [apply logsOnly_refl|].
      cbv zeta. destruct (sniffContentType E (client st) param); apply logsOnly_refl.
Qed.

Lemma stageHeaders_frame (c : Client) (req : Request) :
  Method (stageHeaders E c req) = Method req
  /\ URL (stageHeaders E c req) = URL req
  /\ ReqBody (stageHeaders E c req) = ReqBody req
  /\ Host (stageHeaders E c req) = Host req
  /\ ReqContext (stageHeaders E c req) = ReqContext req.
Proof.
  unfold stageHeaders. destruct (0 <? _); [|easy].
  apply Header_Set_fold_frame.
Qed.

(** The cookie, credential and agent blocks only touch the header. *)
Lemma late_stages_frame (c : Client) (req : Request) :
  let req' := stageAgent E c (stageAuth E c (stageCookie E c req)) in
  Host req' = Host req /\ ReqContext req' = ReqContext req.
Proof.
  unfold stageAgent, stageAuth, stageCookie.
  repeat match goal with
         | |- context [if ?b then _ else _] => destruct b
         end; easy.
Qed.

Lemma stageHost_frame (req : Request) :
  ReqContext (stageHost E req) = ReqContext req
  /\ Header (stageHost E req) = Header req
  /\ (Host req <> "" -> Host (stageHost E req) = Host req).
Proof.
  unfold stageHost. split; [|split].
  - now destruct (_ && _).
  - now destruct (_ && _).
  - intros Hne.
    replace (String.eqb (Host req) "") with false
      by (symmetry; now apply String.eqb_neq).
    now rewrite andb_false_r.
Qed.

(** The host and the context of a finished request. *)
Lemma finishRequest_host_context (c : Client) (req : Request) :
  ReqContext (finishRequest E c req)
  = match ctx c with Some x => x | None => Background end
  /\ (Host req <> "" -> Host (finishRequest E c req) = Host req).
Proof.
  rewrite finishRequest_stages.
  destruct (late_stages_frame c (stageHost E (stageHeaders E c (stageContext c req))))
    as [-> ->].
  destruct (stageHost_frame (stageHeaders E c (stageContext c req)))
    as (-> & _ & Hhost).
  destruct (stageHeaders_frame c (stageContext c req)) as (_ & _ & _ & Hh & ->).
  split; [reflexivity|].
  intros Hne. rewrite Hhost; rewrite Hh; easy.
Qed.

End OriginFacts.

(** X6.  The request line.  A request that [prepareRequest] returns has
    the upper-cased method, or GET when that is empty; its URL is the
    prefixed URL, extended by the parameter string only when the
    upper-cased method is GET (so not for the empty method, whose request
    is a GET all the same); it was accepted by [http.NewRequest] with
    that method and URL; its context is the client's, or the background
    context when the client has none; and a non-empty host that
    [http.NewRequest] took from the URL is kept, whatever Host header the
    client has configured. *)
Theorem prepared_request_line (E : Env) (method url : string)
  (data : list Value) (st : State) (req : Request) (err : option error)
  (st' : State) :
  prepareRequest E method url data st = Ret (Some req, err) st' ->
  exists param host,
    encodeParams E (client st) data = inr param
    /\ err = None
    /\ Method req = (if String.eqb (ToUpper E method) "" then "GET"
                     else ToUpper E method)
    /\ URL req = (if String.eqb (ToUpper E method) "GET"
                  then getURL (targetURL E (client st) url) param
                  else targetURL E (client st) url)
    /\ http_NewRequest E (Method req) (URL req) = inr host
    /\ (host <> "" -> Host req = host)
    /\ ReqContext req = match ctx (client st) with
                        | Some x => x
                        | None => Background
                        end.
Proof.
  intros Hrun.
  destruct (prepareRequest_origin E _ _ _ _ _ _ _ Hrun)
    as (param & req0 & Hp & Hb & -> & ->).
  destruct (buildRequest_origin E _ _ _ _ _ _ _ _ Hb)
    as (_ & _ & Hn & Hm & _ & Hu).
  destruct (finishRequest_frame E (client st) req0) as (-> & -> & _).
  destruct (finishRequest_host_context E (client st) req0) as (-> & Hh).
  exists param, (Host req0). rewrite Hm, Hu in *.
  repeat split; assumption || reflexivity.
Qed.

Lemma prepared_request_line_witness :
  exists param host,
    encodeParams (Scenario.env Scenario.refusing)
      (client (Scenario.start Scenario.client0)) [VString "a=1"] = inr param
    /\ @None error = None
    /\ Method Scenario.formPost
       = (if String.eqb (ToUpper (Scenario.env Scenario.refusing) "post") ""
          then "GET" else ToUpper (Scenario.env Scenario.refusing) "post")
    /\ URL Scenario.formPost
       = (if String.eqb (ToUpper (Scenario.env Scenario.refusing) "post") "GET"
          then getURL (targetURL (Scenario.env Scenario.refusing)
                         (client (Scenario.start Scenario.client0)) Scenario.site)
                 param
          else targetURL (Scenario.env Scenario.refusing)
                 (client (Scenario.start Scenario.client0)) Scenario.site)
    /\ http_NewRequest (Scenario.env Scenario.refusing)
         (Method Scenario.formPost) (URL Scenario.formPost) = inr host
    /\ (host <> "" -> Host Scenario.formPost = host)
    /\ ReqContext Scenario.formPost
       = match ctx (client (Scenario.start Scenario.client0)) with
         | Some x => x
         | None => Background
         end.
Proof.
  exact (prepared_request_line (Scenario.env Scenario.refusing) "post"
           Scenario.site [VString "a=1"] (Scenario.start Scenario.client0)
           Scenario.formPost None (Scenario.start Scenario.client0) eq_refl).
Defined.

(** ** What a call leaves of the client *)

Section CallFacts.

Context (E : Env).

(** [DoRequest] without middleware, with the binds run. *)
Lemma DoRequest_run (method url : string) (data : list Value) (st : State) :
  DoRequest E [] method url data st =
  match prepareRequest E method url data st with
  | Ret (_, Some err) st1 => Ret (None, Some err) st1
  | Ret (None, None) st1 => Panic NilDereference st1
  | Ret (Some req, None) st1 =>
      match callRequest E (traced req) st1 with
      | Ret r st2 =>
          match saveCookies (fst r) st2 with
          | Ret _ st3 => Ret r st3
          | Panic p st3 => Panic p st3
          end
      | Panic p st2 => Panic p st2
      end
  | Panic p st1 => Panic p st1
  end.
Proof.
  unfold DoRequest, bind.
  destruct (prepareRequest E method url data st) as [[[req|] [err|]] st1|];
    reflexivity.
Qed.

(** What [saveCookies] can do to a state. *)
Lemma saveCookies_frame (resp : option ClientResponse) (st : State) :
  let st' := finalState (saveCookies resp st) in
  sent st' = sent st /\ now st' = now st /\ trace st' = trace st
  /\ exists store,
      client st' = withCookies (client st) store
      /\ (browserMode (client st) = false -> store = cookies (client st)).
Proof.
  unfold saveCookies, bind, get.
  destruct (browserMode (client st)) eqn:Hb.
  - destruct resp as [cr|].
    + destruct (Response_ cr) as [r|]; simpl.
      * repeat split. eexists. split; [reflexivity | discriminate].
      * repeat split. exists (cookies (client st)).
        split; [now destruct (client st) | reflexivity].
    + simpl. repeat split. exists (cookies (client st)).
      split; [now destruct (client st) | reflexivity].
  - simpl. repeat split. exists (cookies (client st)).
    split; [now destruct (client st) | reflexivity].
Qed.

End CallFacts.

(** X7.  What a call may change.  Whatever happens in a call without
    middleware (return or panic), the client afterwards is the client
    before with at most two fields changed: the cookie store, which stays
    as it was unless browser mode is on, and the retry count, which never
    grows and never falls below zero from a non-negative value.  Headers,
    prefix, credentials, agent, context, browser mode and retry interval
    are never written. *)
Theorem DoRequest_keeps_configuration (E : Env) (method url : string)
  (data : list Value) (st : State) :
  exists store rc,
    client (finalState (DoRequest E [] method url data st))
    = withRetryCount (withCookies (client st) store) rc
    /\ rc <= retryCount (client st)
    /\ (0 <= retryCount (client st) -> 0 <= rc)
    /\ (browserMode (client st) = false -> store = cookies (client st)).
Proof.
  assert (Hsame : forall st1, client st1 = client st ->
            exists store rc,
              client st1 = withRetryCount (withCookies (client st) store) rc
              /\ rc <= retryCount (client st)
              /\ (0 <= retryCount (client st) -> 0 <= rc)
              /\ (browserMode (client st) = false -> store = cookies (client st))).
  { intros st1 ->. exists (cookies (client st)), (retryCount (client st)).
    split; [now destruct (client st)|]. repeat split; lia || auto. }
  rewrite DoRequest_run.
  pose proof (prepareRequest_logsOnly E method url data st) as Hl.
  destruct (prepareRequest E method url data st) as [[[req|] [err|]] st1|];
    simpl in Hl; destruct Hl as (Hc1 & _); try (now apply Hsame).
  rewrite callRequest_unfold.
  destruct (callLoop_run E (traced req) _ (bodyReader E (traced req))
              (mkClientResponse None (traced req) (ReqBody (traced req))) st1 eq_refl)
    as (k & st2 & Hk & Hrun & _ & _ & Hc2 & _ & _).
  rewrite Hrun. cbn [fst].
  set (cr := withResponse _ _).
  pose proof (saveCookies_frame (Some cr) st2) as Hf. cbv zeta in Hf.
  destruct Hf as (_ & _ & _ & store & Hc3 & Hoff).
  exists store, (retryCount (client st) - Z.of_nat k).
  rewrite Hc1 in Hk.
  split; [|split; [lia|split; [lia|]]].
  - transitivity (withCookies (client st2) store).
    + rewrite <- Hc3. now destruct (saveCookies (Some cr) st2).
    + rewrite Hc2, Hc1. now destruct (client st).
  - intros Hb. rewrite Hoff; now rewrite Hc2, Hc1.
Qed.

(** X8.  Nothing sent without a wrapper.  When a call without middleware
    returns no response wrapper, it returns an error, nothing was sent
    and the client is as it was; when it returns a wrapper, at least one
    send took place, and the first request sent is the one the wrapper
    holds, with the body the wrapper captured. *)
Theorem DoRequest_wrapper_and_sends (E : Env) (method url : string)
  (data : list Value) (st : State) (resp : option ClientResponse)
  (err : option error) (st' : State) :
  DoRequest E [] method url data st = Ret (resp, err) st' ->
  match resp with
  | None =>
      err <> None /\ sent st' = sent st
      /\ sends (trace st') = sends (trace st) /\ client st' = client st
  | Some cr =>
      (sent st < sent st')%nat
      /\ requestBody cr = ReqBody (request cr)
      /\ exists new,
          trace st' = (trace st ++ new)%list
          /\ firstSent new = Some (request cr)
  end.
Proof.
  rewrite DoRequest_run.
  pose proof (prepareRequest_logsOnly E method url data st) as Hl.
  destruct (prepareRequest E method url data st) as [[[req|] [e|]] st1|];
    simpl in Hl; try discriminate.
  - intros [= <- <- <-]. pose proof (logsOnly_sends _ _ Hl) as Hsends.
    destruct Hl as (Hc & Hs & _).
    repeat split; try assumption. discriminate.
  - rewrite callRequest_unfold.
    destruct (callLoop_run E (traced req) _ (bodyReader E (traced req))
              (mkClientResponse None (traced req) (ReqBody (traced req))) st1 eq_refl)
      as (k & st2 & _ & Hrun & _ & _ & _ & Hs2 & Ht2).
    rewrite Hrun. simpl fst.
    pose proof (saveCookies_frame
                  (Some (withResponse
                     (mkClientResponse None (traced req) (ReqBody (traced req)))
                     (do_resp (http_Do E (sent st1 + k) (traced req))))) st2) as Hf.
    destruct (saveCookies _ st2) as [[] st3|]; [|discriminate].
    simpl in Hf. destruct Hf as (Hs3 & _ & Ht3 & _).
    intros [= <- <- <-]. destruct Hl as (_ & Hs1 & _ & logs & Ht1 & Hlogs).
    split; [lia|]. split; [reflexivity|].
    exists (logs ++ failedRun E (traced req) (retryInterval (client st1)) k (sent st1)
              (bodyReader E (traced req)))%list.
    split; [now rewrite Ht3, Ht2, Ht1, <- app_assoc|].
    simpl request. clear - Hlogs.
    induction Hlogs as [|e l (x & ->) _ IH];
      [apply firstSent_failedRun | exact IH].
  - intros [= <- <- <-]. pose proof (logsOnly_sends _ _ Hl) as Hsends.
    destruct Hl as (Hc & Hs & _).
    repeat split; try assumption. discriminate.
Qed.

Lemma DoRequest_wrapper_and_sends_witness :
  DoRequest (Scenario.env Scenario.refusing) [] "POST" Scenario.site [VInt 5]
    (Scenario.start Scenario.jsonClient)
  = Ret (None, Some (errors_New "json: unsupported value"))
        (Scenario.start Scenario.jsonClient)
  /\ (Some (errors_New "json: unsupported value") <> None
      /\ sent (Scenario.start Scenario.jsonClient)
         = sent (Scenario.start Scenario.jsonClient)
      /\ sends (trace (Scenario.start Scenario.jsonClient))
         = sends (trace (Scenario.start Scenario.jsonClient))
      /\ client (Scenario.start Scenario.jsonClient)
         = client (Scenario.start Scenario.jsonClient)).
Proof.
  split; [reflexivity|].
  exact (DoRequest_wrapper_and_sends (Scenario.env Scenario.refusing) "POST"
           Scenario.site [VInt 5] (Scenario.start Scenario.jsonClient)
           None (Some (errors_New "json: unsupported value"))
           (Scenario.start Scenario.jsonClient) eq_refl).
Defined.

(** ** The parts of a multipart body *)

Section PartFacts.

Context (E : Env).

(** One iteration of the loop, read through [itemPart]. *)
Lemma writeItems_itemPart item rest w st :
  match itemPart E item with
  | Some p =>
      exists st1, logsOnly st st1
                  /\ writeItems E (item :: rest) w st
                     = writeItems E rest (w ++ [p])%list st1
  | None =>
      forall parts st', writeItems E (item :: rest) w st <> Ret (inr parts) st'
  end.
Proof.
  assert (Hl : forall f, logsOnly st (finalState (logClose E f st))).
  { intros f. now destruct (logClose_logsOnly E f st) as (st1 & -> & ?). }
  rewrite writeItems_step. unfold itemPart.
  destruct (_ !! 1%nat) as [a1|]; [|discriminate].
  destruct (_ !! 0%nat) as [a0|]; [|discriminate].
  destruct (isFileRef a1).
  - destruct (negb _); [discriminate|].
    destruct (multipart_CreateFormFile E _ _); [discriminate|].
    destruct (os_Open E _) as [e|f]; [discriminate|].
    destruct (io_Copy E f) as [e|content]; [discriminate|].
    eexists. split; [apply Hl | reflexivity].
  - destruct (multipart_WriteField E a0 a1); [discriminate|].
    exists st. split; [apply logsOnly_refl | reflexivity].
Qed.

Lemma writeItems_sound items : forall w st parts st',
  writeItems E items w st = Ret (inr parts) st' ->
  exists new,
    parts = (w ++ new)%list
    /\ Forall2 (fun item p => itemPart E item = Some p) items new.
Proof.
  induction items as [|item rest IH]; intros w st parts st' Hrun.
  - injection Hrun as <- _. exists []. split; [now rewrite app_nil_r | constructor].
  - pose proof (writeItems_itemPart item rest w st) as Hstep.
    destruct (itemPart E item) as [p|] eqn:Hp; [|now destruct (Hstep parts st')].
    destruct Hstep as (st1 & _ & Heq). rewrite Heq in Hrun.
    destruct (IH _ _ _ _ Hrun) as (new & -> & Hall).
    exists (p :: new). split; [now rewrite <- app_assoc | now constructor].
Qed.

Lemma writeItems_complete items : forall w st new,
  Forall2 (fun item p => itemPart E item = Some p) items new ->
  exists st', writeItems E items w st = Ret (inr (w ++ new)%list) st'
              /\ logsOnly st st'.
Proof.
  induction items as [|item rest IH]; intros w st new Hall.
  - inversion Hall; subst. exists st.
    split; [now rewrite app_nil_r | apply logsOnly_refl].
  - inversion Hall as [|? p ? new' Hp Hrest]; subst.
    pose proof (writeItems_itemPart item rest w st) as Hstep.
    rewrite Hp in Hstep. destruct Hstep as (st1 & Hl1 & ->).
    destruct (IH (w ++ [p])%list st1 new' Hrest) as (st' & -> & Hl2).
    exists st'. split; [now rewrite <- app_assoc|].
    eapply logsOnly_trans; eassumption.
Qed.

End PartFacts.

(** X9.  Parts follow items.  The multipart loop completes exactly when
    every '&'-item can be written ([itemPart] gives a part for it), and
    then it has appended one part per item, in the order of the items: a
    plain field with the item's name and value (elements 0 and 1 of its
    split on '='), or a file part named after the field and the file's
    base name whose content is the bytes copied from the file. *)
Theorem writeItems_parts (E : Env) (items : list string) (w : list Part)
  (st : State) :
  (forall parts st',
      writeItems E items w st = Ret (inr parts) st' ->
      exists new,
        parts = (w ++ new)%list
        /\ Forall2 (fun item p => itemPart E item = Some p) items new)
  /\ (forall new,
        Forall2 (fun item p => itemPart E item = Some p) items new ->
        exists st', writeItems E items w st = Ret (inr (w ++ new)%list) st'
                    /\ logsOnly st st').
Proof.
  split.
  - intros parts st'. apply writeItems_sound.
  - apply writeItems_complete.
Qed.

(** X10.  The Content-Type of an upload.  On a non-GET call whose
    parameter string holds the upload marker, the request that
    [prepareRequest] returns has a multipart body with one part per
    '&'-item, and its Content-Type is the writer's
    [multipart/form-data; boundary=...] only when the client has no
    Content-Type configured: a configured one is copied over it at lines
    271-275 (no other header shadowing Content-Type). *)
Theorem multipart_request_content_type (E : Env) (method url : string)
  (data : list Value) (st : State) (param : string)
  (req : Request) (err : option error) (st' : State) :
  String.eqb (ToUpper E method) "GET" = false ->
  encodeParams E (client st) data = inr param ->
  Contains param "@file:" = true ->
  contentTypeUnshadowed E (client st) ->
  prepareRequest E method url data st = Ret (Some req, err) st' ->
  exists parts,
    ReqBody req = MultipartBody (multipart_Boundary E) parts
    /\ Forall2 (fun item p => itemPart E item = Some p)
         (Split param "&"%char) parts
    /\ contentTypeOf E req
       = match header (client st) !! "Content-Type" with
         | Some v => Some v
         | None => Some (FormDataContentType E)
         end.
Proof.
  intros Hm Hp Hf Hun Hrun.
  rewrite prepareRequest_unfold, Hp in Hrun.
  rewrite (buildRequest_multipart E _ _ _ _ st Hm Hf) in Hrun.
  destruct (writeItems E _ [] st) as [[e|parts] st1|] eqn:Hw; try discriminate.
  destruct (multipart_Close E parts); [discriminate|].
  destruct (http_NewRequest E _ _) as [e|host]; [discriminate|].
  injection Hrun as <- _ _.
  destruct (writeItems_sound E _ _ _ _ _ Hw) as (new & -> & Hall).
  exists new. simpl app.
  rewrite (finishRequest_content_type E _ _ Hun), contentTypeOf_Set_same.
  split; [|split; [exact Hall | reflexivity]].
  now destruct (finishRequest_frame E (client st)
                  (Header_Set E
                     (mkRequest (methodOrGET (ToUpper E method)) (targetURL E (client st) url)
                        (MultipartBody (multipart_Boundary E) new) ∅ host Background)
                     "Content-Type" (FormDataContentType E))) as (_ & _ & ->).
Qed.

Lemma multipart_request_content_type_witness :
  builtBody (prepareRequest (Scenario.env Scenario.refusing) "POST" Scenario.site
               [VString "a=@file:/etc/hosts"] (Scenario.start Scenario.jsonClient))
  = Some (MultipartBody "b0undary" [FormFile "a" "hosts" "127.0.0.1 localhost"])
  /\ exists req parts,
      prepareRequest (Scenario.env Scenario.refusing) "POST" Scenario.site
        [VString "a=@file:/etc/hosts"] (Scenario.start Scenario.jsonClient)
      = Ret (Some req, None) (Scenario.start Scenario.jsonClient)
      /\ ReqBody req = MultipartBody "b0undary" parts
      /\ Forall2 (fun item p =>
                    itemPart (Scenario.env Scenario.refusing) item = Some p)
           ["a=@file:/etc/hosts"] parts
      /\ contentTypeOf (Scenario.env Scenario.refusing) req
         = Some "application/json".
Proof.
  split; [reflexivity|].
  eexists. 
  assert (Hun : contentTypeUnshadowed (Scenario.env Scenario.refusing)
                  (client (Scenario.start Scenario.jsonClient))).
  { split; [|repeat split; discriminate].
    intros k [v Hv] _.
    change (({[ "Content-Type" := "application/json" ]} : gmap string string) !! k
            = Some v) in Hv.
    apply lookup_singleton_Some in Hv as [<- _]. reflexivity. }
  destruct (multipart_request_content_type (Scenario.env Scenario.refusing) "POST"
              Scenario.site [VString "a=@file:/etc/hosts"]
              (Scenario.start Scenario.jsonClient) "a=@file:/etc/hosts"
              _ None (Scenario.start Scenario.jsonClient)
              eq_refl eq_refl eq_refl Hun eq_refl) as (parts & Hb & Hall & Hct).
  exists parts. split; [reflexivity|]. now repeat split.
Defined.

(** ** Cookies, credentials and agent on the prepared request *)

Section LateHeaderFacts.

Context (E : Env).

Lemma append_assoc' (a b c : string) : ((a ++ b) ++ c = a ++ (b ++ c))%string.
Proof.
  induction a as [|x a IH]; [reflexivity|].
  change (String x ((a ++ b) ++ c) = String x (a ++ (b ++ c)))%string.
  now f_equal.
Qed.

Lemma append_not_nil (a b : string) : a <> "" -> (a ++ b)%string <> "".
Proof. now destruct a. Qed.

Lemma len_pos (s : string) : s <> "" -> (0 <? len s) = true.
Proof. destruct s; [congruence|]. intros _. reflexivity. Qed.

Lemma pair_not_nil (k v : string) : (k ++ "=" ++ v)%string <> "".
Proof. now destruct k. Qed.

Lemma Join_merge (a p : string) (rest : list string) :
  Join (((a ++ ";") ++ p)%string :: rest) ";" = Join (a :: p :: rest) ";".
Proof.
  rewrite (Join_cons a (p :: rest)) by discriminate.
  destruct rest as [|q rest].
  - simpl. now rewrite append_assoc'.
  - rewrite !Join_cons by discriminate. now rewrite !append_assoc'.
Qed.

Lemma cookie_fold (l : list (string * string)) : forall acc,
  acc <> "" ->
  fold_left
    (fun acc kv =>
       (if 0 <? len acc then acc ++ ";" else acc) ++ fst kv ++ "=" ++ snd kv)
    l acc
  = Join (acc :: List.map (fun kv => (fst kv ++ "=" ++ snd kv)%string) l) ";".
Proof.
  induction l as [|kv l IH]; intros acc Hacc; [reflexivity|].
  simpl fold_left. rewrite (len_pos acc Hacc).
  rewrite IH by (apply append_not_nil, append_not_nil, Hacc).
  simpl List.map. apply Join_merge.
Qed.

(** Lines 283-289 join the pairs [name=value] with ';'. *)
Lemma cookieHeader_Join (m : gmap string string) :
  cookieHeader m = Join (cookiePairs m) ";".
Proof.
  unfold cookieHeader, cookiePairs.
  destruct (map_to_list m) as [|kv l]; [reflexivity|].
  simpl fold_left. change (0 <? len "") with false. cbv iota.
  change ("" ++ fst kv ++ "=" ++ snd kv)%string with (fst kv ++ "=" ++ snd kv)%string.
  apply cookie_fold, pair_not_nil.
Qed.

Lemma cookieHeader_not_nil (m : gmap string string) :
  m <> ∅ -> cookieHeader m <> "".
Proof.
  intros Hm. rewrite cookieHeader_Join. unfold cookiePairs.
  destruct (map_to_list m) as [|kv l] eqn:Hl.
  - now apply map_to_list_empty_iff in Hl.
  - simpl List.map. destruct (List.map _ l) as [|q qs].
    + apply pair_not_nil.
    + rewrite Join_cons by discriminate. apply append_not_nil, pair_not_nil.
Qed.

Lemma Header_Get_Set_same (req : Request) (k v : string) :
  Header_Get E (Header_Set E req k v) k = v.
Proof. unfold Header_Get, Header_Set. simpl. now rewrite lookup_insert_eq. Qed.

Lemma Header_Get_Set_other (req : Request) (k k' v : string) :
  CanonicalMIMEHeaderKey E k' <> CanonicalMIMEHeaderKey E k ->
  Header_Get E (Header_Set E req k' v) k = Header_Get E req k.
Proof.
  intros H. unfold Header_Get, Header_Set. simpl. now rewrite lookup_insert_ne.
Qed.

Lemma stageAgent_get (c : Client) (req : Request) (k : string) :
  agent c = "" \/ CanonicalMIMEHeaderKey E "User-Agent" <> CanonicalMIMEHeaderKey E k ->
  Header_Get E (stageAgent E c req) k = Header_Get E req k.
Proof.
  unfold stageAgent. intros [->|H]; [reflexivity|].
  destruct (negb _); [now apply Header_Get_Set_other | reflexivity].
Qed.

Lemma stageAuth_get (c : Client) (req : Request) (k : string) :
  authUser c = ""
  \/ CanonicalMIMEHeaderKey E "Authorization" <> CanonicalMIMEHeaderKey E k ->
  Header_Get E (stageAuth E c req) k = Header_Get E req k.
Proof.
  unfold stageAuth. intros [->|H]; [reflexivity|].
  destruct (0 <? _); [now apply Header_Get_Set_other | reflexivity].
Qed.

Lemma stageAgent_set (c : Client) (req : Request) :
  agent c <> "" -> Header_Get E (stageAgent E c req) "User-Agent" = agent c.
Proof.
  intros H. unfold stageAgent.
  replace (String.eqb (agent c) "") with false
    by (symmetry; now apply String.eqb_neq).
  apply Header_Get_Set_same.
Qed.

Lemma stageAuth_set (c : Client) (req : Request) :
  authUser c <> "" ->
  Header_Get E (stageAuth E c req) "Authorization"
  = ("Basic " ++ basicAuth E (authUser c) (authPass c))%string.
Proof.
  intros H. unfold stageAuth. rewrite (len_pos _ H). apply Header_Get_Set_same.
Qed.

Lemma stageCookie_set (c : Client) (req : Request) :
  cookies c <> ∅ ->
  Header_Get E (stageCookie E c req) "Cookie" = Join (cookiePairs (cookies c)) ";".
Proof.
  intros H. unfold stageCookie.
  replace (0 <? Z.of_nat (size (cookies c))) with true.
  2:{ symmetry. apply Z.ltb_lt. apply map_size_non_empty_iff in H. lia. }
  rewrite (len_pos _ (cookieHeader_not_nil _ H)), Header_Get_Set_same.
  apply cookieHeader_Join.
Qed.

End LateHeaderFacts.

(** X11.  Agent and credentials win.  On the request that
    [prepareRequest] returns, a configured agent is the User-Agent header
    and configured basic-auth credentials are the Authorization header,
    whatever the client's header map holds under these names: both are
    set after the headers are copied (the agent last). *)
Theorem prepared_agent_and_credentials (E : Env) (method url : string)
  (data : list Value) (st : State) (req : Request) (err : option error)
  (st' : State) :
  prepareRequest E method url data st = Ret (Some req, err) st' ->
  (agent (client st) <> "" ->
   Header_Get E req "User-Agent" = agent (client st))
  /\ (authUser (client st) <> "" ->
      agent (client st) = ""
      \/ CanonicalMIMEHeaderKey E "User-Agent"
         <> CanonicalMIMEHeaderKey E "Authorization" ->
      Header_Get E req "Authorization"
      = ("Basic " ++ basicAuth E (authUser (client st)) (authPass (client st)))%string).
Proof.
  intros Hrun.
  destruct (prepareRequest_origin E _ _ _ _ _ _ _ Hrun) as (_ & req0 & _ & _ & -> & _).
  rewrite finishRequest_stages. split.
  - intros Hagent. now apply stageAgent_set.
  - intros Huser Hagent. rewrite (stageAgent_get E _ _ _ Hagent).
    now apply stageAuth_set.
Qed.

Lemma prepared_agent_and_credentials_witness :
  exists req,
    prepareRequest (Scenario.env Scenario.refusing) "GET" Scenario.site []
      (Scenario.start Scenario.agentClient)
    = Ret (Some req, None) (Scenario.start Scenario.agentClient)
    /\ Header_Get (Scenario.env Scenario.refusing) req "User-Agent" = "gf-client"
    /\ Header_Get (Scenario.env Scenario.refusing) req "Authorization"
       = "Basic gopher:secret".
Proof.
  eexists. split; [reflexivity|].
  pose proof (prepared_agent_and_credentials (Scenario.env Scenario.refusing)
                "GET" Scenario.site [] (Scenario.start Scenario.agentClient)
                _ None _ eq_refl) as [Hagent Hauth].
  split.
  - apply Hagent. discriminate.
  - apply Hauth; [discriminate | right; discriminate].
Defined.

(** ** Encoding: when it can fail, and calls without data *)

(** X12.  Where encoding can fail.  The parameter string is built without
    error except under a Content-Type that is exactly application/json or
    application/xml, for a value that is neither a string nor a byte
    sequence, and then the error is the marshaler's.  Under any other
    configured value (one with a charset parameter, say) or none, the
    first data value goes through [BuildParams]; without data the string
    is empty. *)
Theorem encoding_fails_only_in_marshal (E : Env) (c : Client) (data : list Value) :
  (forall err,
      encodeParams E c data = inl err ->
      exists d rest ct,
        data = d :: rest
        /\ header c !! "Content-Type" = Some ct
        /\ (ct = "application/json" \/ ct = "application/xml")
        /\ bytesOf d = None
        /\ marshalerFor E ct d = inl err)
  /\ (forall d rest,
        data = d :: rest ->
        header c !! "Content-Type" <> Some "application/json" ->
        header c !! "Content-Type" <> Some "application/xml" ->
        encodeParams E c data = inr (BuildParams E d))
  /\ (data = [] -> encodeParams E c data = inr "").
Proof.
  split; [|split].
  - intros err. destruct data as [|d rest]; [discriminate|].
    unfold encodeParams.
    destruct (header c !! "Content-Type") as [ct|] eqn:Hct; simpl default;
      [|discriminate].
    destruct (String.eqb ct "application/json") eqn:Hj.
    + apply String.eqb_eq in Hj as ->. intros H.
      exists d, rest, "application/json". unfold marshalerFor. simpl String.eqb.
      destruct d; try discriminate; simpl;
        (destruct (json_Marshal E _) as [e|out] eqn:Hm; [|discriminate]);
        injection H as <-; repeat split; auto.
    + destruct (String.eqb ct "application/xml") eqn:Hx; [|discriminate].
      apply String.eqb_eq in Hx as ->. intros H.
      exists d, rest, "application/xml". unfold marshalerFor. simpl String.eqb.
      destruct d; try discriminate; simpl;
        (destruct (gparser_VarToXml E _) as [e|out] eqn:Hm; [|discriminate]);
        injection H as <-; repeat split; auto.
  - intros d rest -> Hj Hx. unfold encodeParams.
    destruct (header c !! "Content-Type") as [ct|]; simpl default; [|reflexivity].
    destruct (String.eqb ct "application/json") eqn:Hj';
      [apply String.eqb_eq in Hj' as ->; congruence|].
    destruct (String.eqb ct "application/xml") eqn:Hx';
      [apply String.eqb_eq in Hx' as ->; congruence|].
    reflexivity.
  - now intros ->.
Qed.

Lemma encoding_fails_only_in_marshal_witness :
  encodeParams (Scenario.env Scenario.refusing)
    (mkClient {[ "Content-Type" := "application/json; charset=utf-8" ]}
       ∅ "" "" "" "" None false 0 0)
    [VString "a=1"; VInt 5]
  = inr "a=1".
Proof.
  refine (proj1 (proj2 (encoding_fails_only_in_marshal
                          (Scenario.env Scenario.refusing) _ _))
            (VString "a=1") [VInt 5] eq_refl _ _); discriminate.
Defined.

(** X13.  A call without data.  The request of a call that passes no
    data has the prefixed URL as it is (no '?' is appended on GET) and an
    empty body, and no Content-Type is sniffed for it: it carries the
    client's configured Content-Type, or none. *)
Theorem call_without_data (E : Env) (method url : string) (st : State)
  (req : Request) (err : option error) (st' : State) :
  prepareRequest E method url [] st = Ret (Some req, err) st' ->
  URL req = targetURL E (client st) url
  /\ ReqBody req = RawBody ""
  /\ (contentTypeUnshadowed E (client st) ->
      contentTypeOf E req = header (client st) !! "Content-Type").
Proof.
  intros Hrun. rewrite prepareRequest_unfold in Hrun.
  change (encodeParams E (client st) []) with (@inr error string "") in Hrun.
  cbv iota in Hrun.
  destruct (String.eqb (ToUpper E method) "GET") eqn:Hm.
  - apply String.eqb_eq in Hm. rewrite Hm, buildRequest_GET in Hrun.
    change (getURL (targetURL E (client st) url) "")
      with (targetURL E (client st) url) in Hrun.
    destruct (http_NewRequest E "GET" _) as [e|host]; [discriminate|].
    injection Hrun as <- _ _.
    destruct (finishRequest_frame E (client st)
                (mkRequest "GET" (targetURL E (client st) url) (RawBody "") ∅
                   host Background)) as (_ & -> & ->).
    repeat split. intros Hun. rewrite (finishRequest_content_type E _ _ Hun).
    now destruct (header (client st) !! "Content-Type").
  - rewrite (buildRequest_normal E _ _ _ "" st Hm eq_refl) in Hrun.
    destruct (http_NewRequest E _ _) as [e|host]; [discriminate|].
    cbv zeta in Hrun. unfold sniffContentType in Hrun.
    change (0 <? len "") with false in Hrun.
    destruct (header (client st) !! "Content-Type") as [v|] eqn:Hct;
      injection Hrun as <- _ _.
    + destruct (finishRequest_frame E (client st)
                  (Header_Set E
                     (mkRequest (methodOrGET (ToUpper E method)) (targetURL E (client st) url)
                        (RawBody "") ∅ host Background) "Content-Type" v))
        as (_ & -> & ->).
      repeat split. intros Hun.
      now rewrite (finishRequest_content_type E _ _ Hun), Hct.
    + destruct (finishRequest_frame E (client st)
                  (mkRequest (methodOrGET (ToUpper E method)) (targetURL E (client st) url)
                     (RawBody "") ∅ host Background)) as (_ & -> & ->).
      repeat split. intros Hun.
      now rewrite (finishRequest_content_type E _ _ Hun), Hct.
Qed.

Lemma call_without_data_witness :
  prepareRequest (Scenario.env Scenario.refusing) "GET" Scenario.site []
    (Scenario.start Scenario.client0)
  = Ret (Some (mkRequest "GET" Scenario.site (RawBody "") ∅ "example.org"
                 Background), None)
        (Scenario.start Scenario.client0)
  /\ URL (mkRequest "GET" Scenario.site (RawBody "") ∅ "example.org" Background)
     = targetURL (Scenario.env Scenario.refusing)
         (client (Scenario.start Scenario.client0)) Scenario.site.
Proof.
  split; [reflexivity|].
  exact (proj1 (call_without_data (Scenario.env Scenario.refusing) "GET"
                  Scenario.site (Scenario.start Scenario.client0)
                  (mkRequest "GET" Scenario.site (RawBody "") ∅ "example.org"
                     Background)
                  None (Scenario.start Scenario.client0) eq_refl)).
Defined.

(** ** The verb methods *)

Section VerbFacts.

Context (E : Env).

(** The wrapper of a call without middleware holds the prepared request,
    traced, and its body. *)
Lemma DoRequest_wrapper_request (method url : string) (data : list Value)
  (st : State) (cr : ClientResponse) (err : option error) (st' : State) :
  DoRequest E [] method url data st = Ret (Some cr, err) st' ->
  exists req st1,
    prepareRequest E method url data st = Ret (Some req, None) st1
    /\ request cr = traced req
    /\ requestBody cr = ReqBody req.
Proof.
  rewrite DoRequest_run.
  destruct (prepareRequest E method url data st) as [[[req|] [e|]] st1|];
    try discriminate.
  rewrite callRequest_unfold.
  destruct (callLoop_run E (traced req) _ (bodyReader E (traced req))
              (mkClientResponse None (traced req) (ReqBody (traced req))) st1 eq_refl)
    as (k & st2 & _ & Hrun & _).
  rewrite Hrun. cbn [fst].
  destruct (saveCookies _ st2) as [[] st3|]; [|discriminate].
  intros [= <- <- <-]. exists req, st1. now repeat split.
Qed.

End VerbFacts.

(** X14.  Only GET puts data in the URL.  For each of the eight verb
    methods other than [Get] (HEAD, DELETE, OPTIONS and TRACE among
    them), a call without middleware that returns a wrapper has sent a
    request with that method, the prefixed URL untouched by the data, and
    (the parameter string holding no upload marker) the parameter string
    as its body, which is also the body the wrapper captured. *)
Theorem verbs_carry_data_in_body (E : Env) (name : string)
  (f : list ClientHandlerFunc -> string -> list Value -> M (Result ClientResponse))
  (url : string) (data : list Value) (st : State) (param : string)
  (cr : ClientResponse) (err : option error) (st' : State) :
  In (name, f) (bodyVerbs E) ->
  encodeParams E (client st) data = inr param ->
  Contains param "@file:" = false ->
  f [] url data st = Ret (Some cr, err) st' ->
  Method (request cr) = name
  /\ URL (request cr) = targetURL E (client st) url
  /\ ReqBody (request cr) = RawBody param
  /\ requestBody cr = RawBody param.
Proof.
  intros Hin Hp Hf Hrun.
  assert (Hverb : f = (fun mw u d => DoRequest E mw name u d)
                  /\ ToUpper E name = name
                  /\ String.eqb name "GET" = false
                  /\ methodOrGET name = name).
  { simpl in Hin.
    repeat (destruct Hin as [Hin|Hin];
            [injection Hin as <- <-; now repeat split|]).
    destruct Hin. }
  destruct Hverb as (-> & Hup & Hm & Hmg).
  destruct (DoRequest_wrapper_request E _ _ _ _ _ _ _ Hrun)
    as (req & st1 & Hprep & -> & ->).
  rewrite prepareRequest_unfold, Hp, Hup in Hprep.
  rewrite (buildRequest_normal E _ _ _ _ st Hm Hf), Hmg in Hprep.
  destruct (http_NewRequest E _ _) as [e|host]; [discriminate|].
  cbv zeta in Hprep.
  destruct (sniffContentType E (client st) param) as [v|];
    injection Hprep as <- _; simpl Method; simpl URL; simpl ReqBody.
  - now destruct (finishRequest_frame E (client st)
                    (Header_Set E (mkRequest name (targetURL E (client st) url)
                                     (RawBody param) ∅ host Background)
                                "Content-Type" v)) as (-> & -> & ->).
  - now destruct (finishRequest_frame E (client st)
                    (mkRequest name (targetURL E (client st) url)
                       (RawBody param) ∅ host Background)) as (-> & -> & ->).
Qed.

Lemma verbs_carry_data_in_body_witness :
  exists cr st',
    Delete (Scenario.env Scenario.flaky) [] Scenario.site [VString "id=7"]
      (Scenario.start (Scenario.retryClient 1))
    = Ret (Some cr, None) st'
    /\ Method (request cr) = "DELETE"
    /\ URL (request cr) = Scenario.site
    /\ ReqBody (request cr) = RawBody "id=7"
    /\ requestBody cr = RawBody "id=7".
Proof.
  eexists _, _. split; [reflexivity|].
  refine (verbs_carry_data_in_body (Scenario.env Scenario.flaky) "DELETE"
            (Delete (Scenario.env Scenario.flaky)) Scenario.site [VString "id=7"]
            (Scenario.start (Scenario.retryClient 1)) "id=7" _ None _
            _ eq_refl eq_refl eq_refl).
  simpl. tauto.
Defined.

(** X15.  [Get] carries data in the URL.  A [Get] without middleware that
    returns a wrapper has sent a GET request whose URL is the prefixed
    URL with the parameter string joined by '?' or '&' (as it is when
    the string is empty), and whose body, as sent and as captured, is
    empty. *)
Theorem Get_carries_data_in_url (E : Env) (url : string) (data : list Value)
  (st : State) (param : string) (cr : ClientResponse) (err : option error)
  (st' : State) :
  encodeParams E (client st) data = inr param ->
  Get E [] url data st = Ret (Some cr, err) st' ->
  Method (request cr) = "GET"
  /\ URL (request cr) = getURL (targetURL E (client st) url) param
  /\ ReqBody (request cr) = RawBody ""
  /\ requestBody cr = RawBody "".
Proof.
  intros Hp Hrun. unfold Get in Hrun.
  destruct (DoRequest_wrapper_request E _ _ _ _ _ _ _ Hrun)
    as (req & st1 & Hprep & -> & ->).
  rewrite prepareRequest_unfold, Hp in Hprep.
  change (ToUpper E "GET") with "GET" in Hprep.
  rewrite buildRequest_GET in Hprep.
  destruct (http_NewRequest E _ _) as [e|host]; [discriminate|].
  injection Hprep as <- _. simpl Method. simpl URL. simpl ReqBody.
  now destruct (finishRequest_frame E (client st)
                  (mkRequest "GET" (getURL (targetURL E (client st) url) param)
                     (RawBody "") ∅ host Background)) as (-> & -> & ->).
Qed.

Lemma Get_carries_data_in_url_witness :
  exists cr st',
    Get (Scenario.env Scenario.flaky) [] Scenario.site [VString "id=7"]
      (Scenario.start (Scenario.retryClient 1))
    = Ret (Some cr, None) st'
    /\ Method (request cr) = "GET"
    /\ URL (request cr) = "http://example.org/api?id=7"
    /\ ReqBody (request cr) = RawBody ""
    /\ requestBody cr = RawBody "".
Proof.
  eexists _, _. split; [reflexivity|].
  exact (Get_carries_data_in_url (Scenario.env Scenario.flaky) Scenario.site
           [VString "id=7"] (Scenario.start (Scenario.retryClient 1)) "id=7"
           _ None _ eq_refl eq_refl).
Defined.

(** ** The cookie store between calls *)

Section StoreFacts.

Context (E : Env).

Lemma syncCookies_other (now : Time.t) (vs : list Cookie) (name : string) :
  (forall v, In v vs -> Name v <> name) ->
  forall store, syncCookies now store vs !! name = store !! name.
Proof.
  unfold syncCookies. induction vs as [|v vs IH]; intros H store; [reflexivity|].
  simpl. rewrite IH by (intros w Hw; apply H; now right).
  unfold syncCookie. assert (Name v <> name) by (apply H; now left).
  destruct (expired now v); [now apply lookup_delete_ne | now apply lookup_insert_ne].
Qed.

(** The pairs of the Cookie header are the entries of the store. *)
Lemma cookiePairs_spec (m : gmap string string) (p : string) :
  In p (cookiePairs m)
  <-> exists n v, m !! n = Some v /\ p = (n ++ "=" ++ v)%string.
Proof.
  unfold cookiePairs. rewrite in_map_iff. split.
  - intros ([n v] & <- & Hin). exists n, v. split; [|reflexivity].
    now apply elem_of_map_to_list, list_elem_of_In.
  - intros (n & v & Hm & ->). exists (n, v). split; [reflexivity|].
    now apply list_elem_of_In, elem_of_map_to_list.
Qed.

End StoreFacts.

(** X16.  Other cookies are left alone.  After a call whose request was
    built and whose handler chain returned a wrapper, with or without an
    error and whether browser mode is on or not, the cookie store holds
    under every name that no cookie of the response carries what it held
    before the cookies were reconciled. *)
Theorem cookies_of_other_names_kept (E : Env) (mw : list ClientHandlerFunc)
  (method url : string) (data : list Value) (st : State) (req : Request)
  (st1 : State) (cr : ClientResponse) (err : option error) (st2 : State)
  (name : string) :
  prepareRequest E method url data st = Ret (Some req, None) st1 ->
  dispatch E mw (traced req) st1 = Ret (Some cr, err) st2 ->
  (forall r v, Response_ cr = Some r -> In v (Cookies r) -> Name v <> name) ->
  cookies (client (finalState (DoRequest E mw method url data st))) !! name
  = cookies (client st2) !! name.
Proof.
  intros Hprep Hcall Hother.
  rewrite (DoRequest_dispatch E mw _ _ _ _ _ _ Hprep), Hcall. cbn [fst].
  destruct (browserMode (client st2)) eqn:Hb.
  - destruct (Response_ cr) as [r|] eqn:Hr.
    + rewrite (saveCookies_sync cr r st2 Hb Hr). simpl.
      apply syncCookies_other. intros v Hv. now apply (Hother r v).
    + now rewrite (saveCookies_nil_response cr st2 Hb Hr).
  - now rewrite (saveCookies_off (Some cr) st2 Hb).
Qed.

Lemma cookies_of_other_names_kept_witness :
  cookies (client (finalState
    (DoRequest (Scenario.env (Scenario.serving (mkCookie "session" "abc" Time.zero)))
       [] "GET" Scenario.site []
       (Scenario.start (Scenario.browser {[ "theme" := "dark" ]})))))
  !! "theme" = Some "dark".
Proof.
  erewrite (cookies_of_other_names_kept
              (Scenario.env (Scenario.serving (mkCookie "session" "abc" Time.zero)))
              [] "GET" Scenario.site []
              (Scenario.start (Scenario.browser {[ "theme" := "dark" ]}))
              _ _ _ _ _ "theme" eq_refl eq_refl).
  - reflexivity.
  - intros r v [= <-] [<-|[]]. discriminate.
Defined.

(** X17.  What is stored is sent back.  The Cookie header of a prepared
    request has exactly one pair per entry of the cookie store, each the
    entry's [name=value]; in particular a cookie that a browser-mode call
    has just stored (line 142) is among the pairs of the next request. *)
Theorem stored_cookies_are_sent_back (E : Env) (method url : string)
  (data : list Value) (st : State) (req : Request) (err : option error)
  (st' : State) :
  prepareRequest E method url data st = Ret (Some req, err) st' ->
  cookies (client st) <> ∅ ->
  authUser (client st) = ""
  \/ CanonicalMIMEHeaderKey E "Authorization" <> CanonicalMIMEHeaderKey E "Cookie" ->
  agent (client st) = ""
  \/ CanonicalMIMEHeaderKey E "User-Agent" <> CanonicalMIMEHeaderKey E "Cookie" ->
  exists pairs,
    Header_Get E req "Cookie" = Join pairs ";"
    /\ length pairs = size (cookies (client st))
    /\ (forall p, In p pairs
                  <-> exists n v, cookies (client st) !! n = Some v
                                  /\ p = (n ++ "=" ++ v)%string)
    /\ (forall now0 store v,
          cookies (client st) = syncCookie now0 store v ->
          expired now0 v = false ->
          In (Name v ++ "=" ++ CookieValue v)%string pairs).
Proof.
  intros Hrun Hne Hauth Hagent.
  destruct (prepareRequest_origin E _ _ _ _ _ _ _ Hrun) as (_ & req0 & _ & _ & -> & _).
  exists (cookiePairs (cookies (client st))). split; [|split; [|split]].
  - rewrite finishRequest_stages.
    rewrite (stageAgent_get E _ _ _ Hagent), (stageAuth_get E _ _ _ Hauth).
    now apply stageCookie_set.
  - unfold cookiePairs. now rewrite length_map, length_map_to_list.
  - apply cookiePairs_spec.
  - intros now0 store v Hstore Hx. apply cookiePairs_spec.
    exists (Name v), (CookieValue v). split; [|reflexivity].
    rewrite Hstore. unfold syncCookie. rewrite Hx. apply lookup_insert_eq.
Qed.

Lemma stored_cookies_are_sent_back_witness :
  exists req pairs,
    prepareRequest (Scenario.env Scenario.refusing) "GET" Scenario.site []
      (Scenario.start (Scenario.browser
         (syncCookie Scenario.today ∅ (mkCookie "session" "abc" Time.zero))))
    = Ret (Some req, None)
          (Scenario.start (Scenario.browser
             (syncCookie Scenario.today ∅ (mkCookie "session" "abc" Time.zero))))
    /\ Header_Get (Scenario.env Scenario.refusing) req "Cookie" = Join pairs ";"
    /\ length pairs = 1%nat
    /\ In "session=abc" pairs.
Proof.
  eexists.
  destruct (stored_cookies_are_sent_back (Scenario.env Scenario.refusing) "GET"
              Scenario.site []
              (Scenario.start (Scenario.browser
                 (syncCookie Scenario.today ∅ (mkCookie "session" "abc" Time.zero))))
              _ None _ eq_refl)
    as (pairs & Hh & Hlen & _ & Hback).
  - intros H. apply (f_equal (fun m => m !! "session")) in H. discriminate.
  - now left.
  - now left.
  - exists pairs. split; [reflexivity|]. split; [exact Hh|]. split; [exact Hlen|].
    exact (Hback Scenario.today ∅ (mkCookie "session" "abc" Time.zero)
             eq_refl eq_refl).
Defined.

(** ** When a call cannot panic *)

(** X18.  Calls that return.  A call without middleware, with browser
    mode off, returns (it does not panic) whenever it does not enter the
    multipart loop with an item that lacks '=': that is, on GET, on an
    encoding error, when the parameter string holds no upload marker, or
    when each of its '&'-items holds an '='. *)
Theorem DoRequest_returns (E : Env) (method url : string) (data : list Value)
  (st : State) :
  browserMode (client st) = false ->
  (forall param item,
      encodeParams E (client st) data = inr param ->
      String.eqb (ToUpper E method) "GET" = false ->
      Contains param "@file:" = true ->
      In item (Split param "&"%char) ->
      Contains item "=" = true) ->
  exists r st', DoRequest E [] method url data st = Ret r st'.
Proof.
  intros Hb Hitems. rewrite DoRequest_run.
  pose proof (prepareRequest_logsOnly E method url data st) as Hl.
  assert (Hprep : exists r st1, prepareRequest E method url data st = Ret r st1).
  { rewrite prepareRequest_unfold.
    destruct (encodeParams E (client st) data) as [e|param] eqn:Hp;
      [now eexists; eexists|].
    destruct (String.eqb (ToUpper E method) "GET") eqn:Hm.
    - apply String.eqb_eq in Hm. rewrite Hm, buildRequest_GET.
      destruct (http_NewRequest E "GET" _); now eexists; eexists.
    - destruct (Contains param "@file:") eqn:Hf.
      + rewrite (buildRequest_multipart E _ _ _ _ st Hm Hf).
        destruct (writeItems_returns E (Split param "&"%char) [] st)
          as (r & st1 & ->).
        { intros item Hin. now apply (Hitems param item). }
        destruct r as [e|parts]; [now eexists; eexists|].
        destruct (multipart_Close E parts); [now eexists; eexists|].
        destruct (http_NewRequest E _ _); now eexists; eexists.
      + rewrite (buildRequest_normal E _ _ _ _ st Hm Hf).
        destruct (http_NewRequest E _ _); [now eexists; eexists|].
        cbv zeta. destruct (sniffContentType E (client st) param);
          now eexists; eexists. }
  destruct Hprep as (r & st1 & Hprep). rewrite Hprep in *.
  simpl in Hl. destruct Hl as (Hc1 & _).
  destruct r as [[req|] [e|]]; try (now eexists; eexists).
  - rewrite callRequest_unfold.
    destruct (callLoop_run E (traced req) _ (bodyReader E (traced req))
              (mkClientResponse None (traced req) (ReqBody (traced req))) st1 eq_refl)
      as (k & st2 & _ & Hrun & _ & _ & Hc2 & _).
    rewrite Hrun. cbn [fst].
    rewrite saveCookies_off
      by (rewrite Hc2; unfold withRetryCount; simpl; now rewrite Hc1).
    now eexists; eexists.
  - exfalso. rewrite prepareRequest_unfold in Hprep.
    destruct (encodeParams E (client st) data) as [e|param]; [discriminate|].
    destruct (buildRequest E _ _ _ _ st) as [[[req0|] e] st0|] eqn:Hbuild;
      try discriminate.
    injection Hprep as -> _.
    clear - Hbuild. unfold buildRequest, NewRequest, bind, ret in Hbuild.
    repeat match type of Hbuild with
           | context [match ?x with _ => _ end] => destruct x; try discriminate
           | context [if ?x then _ else _] => destruct x; try discriminate
           end.
Qed.

Lemma DoRequest_returns_witness :
  exists r st',
    DoRequest (Scenario.env Scenario.refusing) [] "POST" Scenario.site
      [VString "a=1&f=@file:/etc/hosts"] (Scenario.start Scenario.client0)
    = Ret r st'.
Proof.
  refine (DoRequest_returns (Scenario.env Scenario.refusing) "POST" Scenario.site
            [VString "a=1&f=@file:/etc/hosts"] (Scenario.start Scenario.client0)
            eq_refl _).
  intros param item [= <-] _ _ [<-|[<-|[]]]; reflexivity.
Defined.
